(** * License quantity grid: a shallow embedding of the Lightning web component

    The repository holds one component, [LicenseQuantityGrid], in several
    revisions.  Each revision that the theorems speak about is embedded in a
    module of its own, with the names of the methods it embeds:

    - [Part001]  : [src/unnamed/part_001], the revision with coercing edits,
                   a validator and [Date]-based column labels;
    - [LwcGrid]  : the second component of
                   [src/force-app/main/default/lwc/licenseQuantityGrid/licenseQuantityGrid.js]
                   (totals row, validator, raw merging of drafts, regex date
                   labels);
    - [Part000]  : [src/unnamed/part_000] (configuration, no totals row);
    - [LwcGridFirst] : the first component of [licenseQuantityGrid.js]
                   (five fixed year columns, [parseInt] without a radix).

    JavaScript values, [parseInt] and the part of [Date] the component uses
    are modelled in [Js] and [JsDate]; the records, the component's state
    and what the revisions share are in [Model]; [Spec] holds the
    definitions that follow the specification's words and the inputs under
    which the component runs.  Handlers are
    functions from a state to a state and the list of effects they have
    (toasts and calls to the platform); what the platform answers is an
    argument of the handler. *)

From stdpp Require Import gmap strings list fin_maps pretty.
From Stdlib Require Import ZArith Ascii.

#[local] Open Scope Z_scope.

(** ** JavaScript values *)

Module Js.

(** [VNum z] is the number (a double in the runtime) whose value is the
    integer [z]; [VNaN] is the one other number the component produces
    itself (through [parseInt]).  Numbers that are not integers and the
    infinities have no counterpart here.  A string is a sequence of code
    units below 256.

    The functions below compute with [z] as an unbounded integer.  The
    runtime agrees with them as long as every number read or computed is
    an integer of magnitude at most [maxSafeInteger]; the comments of
    [toStr] and [parseInt] say where they part, and [quantityBound] is the
    bound that the theorems about sums put on their inputs. *)
Inductive value : Type :=
| VNull
| VUndef
| VNaN
| VNum (z : Z)
| VStr (s : string).

#[global] Instance value_eq_dec : EqDecision value.
Proof. solve_decision. Defined.

(** A number as the result of [parseInt]: [None] is [NaN]. *)
Definition ofNum (n : option Z) : value :=
  match n with
  | Some z => VNum z
  | None => VNaN
  end.

(** ToBoolean. *)
Definition truthy (v : value) : bool :=
  match v with
  | VNull | VUndef | VNaN => false
  | VNum z => negb (z =? 0)
  | VStr s => negb (bool_decide (s = ""))
  end.

(** [a === b]. *)
Definition strictEq (a b : value) : bool :=
  match a, b with
  | VNull, VNull => true
  | VUndef, VUndef => true
  | VNum x, VNum y => x =? y
  | VStr s, VStr t => bool_decide (s = t)
  | _, _ => false
  end.

(** [a || b]. *)
Definition jsOr (a b : value) : value := if truthy a then a else b.

(** ToString, as used by template literals and by [+] on a string.  A
    number is written in plain decimal, which is what the runtime does
    below 10^21 in magnitude; from there on it writes an exponent
    ([1e+21]). *)
Definition toStr (v : value) : string :=
  match v with
  | VNull => "null"
  | VUndef => "undefined"
  | VNaN => "NaN"
  | VNum z => pretty z
  | VStr s => s
  end.

(** ToNumber on the values that reach [+]; [None] is [NaN]. *)
Definition toNumber (v : value) : option Z :=
  match v with
  | VNull => Some 0
  | VNum z => Some z
  | _ => None
  end.

(** [a + b]: concatenation as soon as one side is a string. *)
Definition jsAdd (a b : value) : value :=
  match a, b with
  | VStr _, _ | _, VStr _ => VStr (toStr a +:+ toStr b)
  | _, _ =>
      match toNumber a, toNumber b with
      | Some x, Some y => VNum (x + y)
      | _, _ => VNaN
      end
  end.

(** *** [parseInt(v, 10)] *)

Definition isStrWhiteSpace (c : ascii) : bool :=
  match nat_of_ascii c with
  | 9%nat | 10%nat | 11%nat | 12%nat | 13%nat | 32%nat | 160%nat => true
  | _ => false
  end.

Fixpoint trimStart (s : string) : string :=
  match s with
  | EmptyString => EmptyString
  | String c r => if isStrWhiteSpace c then trimStart r else s
  end.

Definition digitOf (c : ascii) : option Z :=
  let n := Z.of_nat (nat_of_ascii c) in
  if (48 <=? n) && (n <=? 57) then Some (n - 48) else None.

(** The value of the longest prefix of decimal digits; [acc] is [None] as
    long as no digit has been read. *)
Fixpoint digitsValue (s : string) (acc : option Z) : option Z :=
  match s with
  | EmptyString => acc
  | String c r =>
      match digitOf c with
      | Some d => digitsValue r (Some (10 * default 0 acc + d))
      | None => acc
      end
  end.

Definition parseIntStr (s : string) : option Z :=
  let s1 := trimStart s in
  let '(sign, s2) :=
    match s1 with
    | String "-"%char r => (-1, r)
    | String "+"%char r => (1, r)
    | _ => (1, s1)
    end in
  Z.mul sign <$> digitsValue s2 None.

(** [parseInt] first converts its argument to a string.  The value of the
    digits is exact here; the runtime rounds it to a double, so that it is
    exact up to [maxSafeInteger], rounded beyond, and [Infinity] past the
    range of a double. *)
Definition parseInt (v : value) : option Z := parseIntStr (toStr v).

(** *** The range in which the embedding is exact

    [Number.MAX_SAFE_INTEGER], 2^53 - 1: up to it in magnitude every
    integer is a double, sums and comparisons of integers are exact,
    ToString writes plain decimal and [parseInt] reads a digit string
    exactly. *)
Definition maxSafeInteger : Z := 9007199254740991.

(** The bound on a single quantity under which the sum of one column of
    the nine editable rows stays within [maxSafeInteger]. *)
Definition quantityBound : Z := 1000000000000000.

(** A value that [parseInt] reads, if at all, as an integer within
    [quantityBound].  For a number this bounds the number itself. *)
Definition inRange (v : value) : bool :=
  match parseInt v with
  | Some z => Z.abs z <=? quantityBound
  | None => true
  end.

(** A value that is no text and, when a number, within [quantityBound]:
    what a grid cell or a ceiling holds when it holds an integer or
    nothing. *)
Definition boundedNumber (v : value) : bool :=
  match v with
  | VStr _ => false
  | VNum z => Z.abs z <=? quantityBound
  | _ => true
  end.

(** *** Objects and strings *)

(** A plain object is a finite map from property names to values; reading
    a missing property gives [undefined]. *)
Abbreviation obj := (gmap string value).

Definition get (o : obj) (k : string) : value := default VUndef (o !! k).

Fixpoint stripPrefix (p s : string) : option string :=
  match p, s with
  | EmptyString, _ => Some s
  | String a p', String b s' => if bool_decide (a = b) then stripPrefix p' s' else None
  | String _ _, EmptyString => None
  end.

(** [s.startsWith(p)]. *)
Definition startsWith (p s : string) : bool :=
  match stripPrefix p s with Some _ => true | None => false end.

(** [s.replace(pat, rep)] for a string pattern: the first occurrence only. *)
Fixpoint replaceFirst (pat rep s : string) : string :=
  match stripPrefix pat s with
  | Some rest => rep +:+ rest
  | None =>
      match s with
      | EmptyString => EmptyString
      | String c r => String c (replaceFirst pat rep r)
      end
  end.

(** [l.join(sep)]. *)
Fixpoint join (sep : string) (l : list string) : string :=
  match l with
  | [] => ""
  | [x] => x
  | x :: r => x +:+ sep +:+ join sep r
  end.

Definition nl : string := String "010"%char EmptyString.

(** [n.toString().padStart(2, '0')] for an integer [n]. *)
Definition pad2 (n : Z) : string :=
  let s := pretty n in
  if (String.length s <? 2)%nat then "0" +:+ s else s.

(** The bound of a [for (let year = 1; year <= max; year++)] loop; a [NaN]
    bound never enters the body. *)
Definition yearsUpTo (max : option Z) : list nat :=
  match max with
  | Some z => seq 1 (Z.to_nat z)
  | None => []
  end.

End Js.

(** ** The part of [Date] the component uses

    Time values are milliseconds since the epoch; [None] is the time value
    of an invalid date ([NaN]).  The runtime's own choices are a record: its
    offset from UTC and what its parser makes of a string that is not a
    calendar date in the ISO date-only form, which ECMAScript leaves to
    the implementation.  The offset is one number for every instant: the
    record describes a runtime without daylight saving, and the theorems
    on [setFullYear], which converts to local time at one instant and back
    at another, are about such runtimes only.  The record also carries the
    one comparison of a string with a number that the component can
    reach. *)

Module JsDate.
Import Js.

Record Host : Type := {
  LocalTZA : Z;
  legacyDateParse : string -> option Z;
  (** [s > m] for a string [s] and a number [m]: the string is converted
      with ToNumber, which may give a number that is not an integer. *)
  stringGreater : string -> Z -> bool
}.

Definition msPerDay : Z := 86400000.

(** Day number (days since 1970-01-01) of a proleptic Gregorian date, and
    back; months are 1..12 here. *)
Definition daysFromCivil (y m d : Z) : Z :=
  let y' := if m <=? 2 then y - 1 else y in
  let era := y' / 400 in
  let yoe := y' - era * 400 in
  let mp := (m + 9) mod 12 in
  let doy := (153 * mp + 2) / 5 + d - 1 in
  let doe := yoe * 365 + yoe / 4 - yoe / 100 + doy in
  era * 146097 + doe - 719468.

Definition civilFromDays (z : Z) : Z * Z * Z :=
  let z := z + 719468 in
  let era := z / 146097 in
  let doe := z - era * 146097 in
  let yoe := (doe - doe / 1460 + doe / 36524 - doe / 146096) / 365 in
  let y := yoe + era * 400 in
  let doy := doe - (365 * yoe + yoe / 4 - yoe / 100) in
  let mp := (5 * doy + 2) / 153 in
  let d := doy - (153 * mp + 2) / 5 + 1 in
  let m := if mp <? 10 then mp + 3 else mp - 9 in
  (if m <=? 2 then y + 1 else y, m, d).

Definition isLeapYear (y : Z) : bool :=
  ((y mod 4 =? 0) && negb (y mod 100 =? 0)) || (y mod 400 =? 0).

Definition daysInMonth (y m : Z) : Z :=
  if m =? 2 then (if isLeapYear y then 29 else 28)
  else if (m =? 4) || (m =? 6) || (m =? 9) || (m =? 11) then 30
  else 31.

(** Exactly [n] decimal digits, read as a number. *)
Fixpoint readDigits (n : nat) (s : string) (acc : Z) : option (Z * string) :=
  match n with
  | O => Some (acc, s)
  | S n' =>
      match s with
      | String c r =>
          match digitOf c with
          | Some d => readDigits n' r (10 * acc + d)
          | None => None
          end
      | EmptyString => None
      end
  end.

Definition expect (c : ascii) (s : string) : option string :=
  match s with
  | String a r => if bool_decide (a = c) then Some r else None
  | EmptyString => None
  end.

(** The text [YYYY-MM-DD], split into its three numbers. *)
Definition isoDateFields (s : string) : option (Z * Z * Z) :=
  '(y, s1) ← readDigits 4 s 0;
  s2 ← expect "-" s1;
  '(m, s3) ← readDigits 2 s2 0;
  s4 ← expect "-" s3;
  '(d, s5) ← readDigits 2 s4 0;
  if bool_decide (s5 = "") then Some (y, m, d) else None.

(** [new Date(s)]: a calendar date in the ISO date-only form is midnight
    UTC of that day; every other string is the host's business. *)
Definition newDate (h : Host) (s : string) : option Z :=
  match isoDateFields s with
  | Some (y, m, d) =>
      if (1 <=? m) && (m <=? 12) && (1 <=? d) && (d <=? daysInMonth y m)
      then Some (daysFromCivil y m d * msPerDay)
      else legacyDateParse h s
  | None => legacyDateParse h s
  end.

Definition localTime (h : Host) (t : Z) : Z := t + LocalTZA h.
Definition utcTime (h : Host) (t : Z) : Z := t - LocalTZA h.

Definition day (t : Z) : Z := t / msPerDay.
Definition timeWithinDay (t : Z) : Z := t mod msPerDay.

(** [getFullYear()], [getMonth()] (0..11) and [getDate()] of a valid date. *)
Definition getFullYear (h : Host) (t : Z) : Z := (civilFromDays (day (localTime h t))).1.1.
Definition getMonth (h : Host) (t : Z) : Z := (civilFromDays (day (localTime h t))).1.2 - 1.
Definition getDate (h : Host) (t : Z) : Z := (civilFromDays (day (localTime h t))).2.

Definition timeClip (t : Z) : option Z :=
  if Z.abs t <=? 8640000000000000 then Some t else None.

(** [date.setFullYear(year)] on a valid date: same local month, day and time
    of day in the given year; a day the month does not have runs over into
    the next month. *)
Definition setFullYear (h : Host) (t : Z) (year : Z) : option Z :=
  let lt := localTime h t in
  let '(_, m, d) := civilFromDays (day lt) in
  let newDay := daysFromCivil year m 1 + d - 1 in
  timeClip (utcTime h (newDay * msPerDay + timeWithinDay lt)).

Fixpoint zeros (n : nat) : string :=
  match n with
  | O => ""
  | S n' => String "0"%char (zeros n')
  end.

Definition padZeros (width : nat) (s : string) : string :=
  zeros (width - String.length s) +:+ s.

(** [date.toISOString().split('T')[0]] of a valid date: the UTC date, with
    a signed six-digit year outside 0..9999. *)
Definition toISODate (t : Z) : string :=
  let '(y, m, d) := civilFromDays (day t) in
  let ys :=
    if (0 <=? y) && (y <=? 9999) then padZeros 4 (pretty y)
    else (if y <? 0 then "-" else "+") +:+ padZeros 6 (pretty (Z.abs y)) in
  ys +:+ "-" +:+ pad2 m +:+ "-" +:+ pad2 d.

End JsDate.

(** ** Data shared by the revisions *)

Module Model.
Import Js.

(** The configuration record of the owning object.  The two numeric fields
    are kept as raw values, the two date fields are ISO strings or absent
    ([None] for [null]/[undefined]). *)
Record Config : Type := {
  F5_Contract_Length__c : value;
  F5_LMS_Start_Date__c : option string;
  F5_Initial_Renewal_date__c : option string;
  F5_Maximum_License__c : value
}.

Record LicenseRecord : Type := {
  Grade_Level__c : value;
  Year__c : value;
  License_Quantity__c : value
}.

(** An entry of the [pendingChanges] map. *)
Record PendingChange : Type := {
  grade : value;
  year : string;
  quantity : value
}.

#[global] Instance PendingChange_eq_dec : EqDecision PendingChange.
Proof. solve_decision. Defined.

(** A column descriptor; the formatting attributes of the data table are
    left out. *)
Record Column : Type := {
  label : value;
  fieldName : string;
  type : string;
  editable : bool
}.

Record ValidationResult : Type := {
  isValid : bool;
  errors : list string
}.

(** What a handler does besides updating the component's fields. *)
Inductive Event : Type :=
| ShowToast (title message variant : string)
| SaveLicenseData (customerSuccessModuleId : value) (licenseChanges : list PendingChange)
| RefreshApex
| ClearDatatableDrafts.

(** The fields of the component that its methods read and write (the two
    stored wire results, kept only to be passed to [refreshApex], are left
    out). *)
Record State : Type := {
  recordId : value;
  gridData : list obj;
  isLoading : bool;
  hasChanges : bool;
  pendingChanges : gmap string PendingChange;
  draftValues : list obj;
  configData : option Config;
  originalLicenseData : list LicenseRecord
}.

(** The value a rejected promise carries: [body] is [error.body.message]
    when [error.body] is an object and [None] when it is missing, [message]
    is [error.message]. *)
Record ErrorObj : Type := {
  body : option value;
  message : value
}.

(** How the two awaited calls of [handleSave] end. *)
Inductive SaveOutcome : Type :=
| SaveRejected (error : option ErrorObj)
| SaveResolved (refreshError : option (option ErrorObj)).

(** What a wire adapter hands to its handler: [result.data] and
    [result.error], either of which may be missing. *)
Record WireResult (A : Type) : Type := {
  resultData : option A;
  resultError : option ErrorObj
}.

Arguments resultData {A} _.
Arguments resultError {A} _.

Definition gradeLabels : list string := ["K"; "1"; "2"; "3"; "4"; "5"; "6"; "7"; "8"].

Definition yearKey (year : nat) : string := "year" +:+ pretty year.

(** [`${record.Grade_Level__c}_${record.Year__c}`] *)
Definition recordKey (record : LicenseRecord) : string :=
  toStr (Grade_Level__c record) +:+ "_" +:+ toStr (Year__c record).

(** The [Map] filled by the [forEach] over the records: a later record
    replaces an earlier one with the same key. *)
Definition buildDataMap (data : list LicenseRecord) : obj :=
  foldl (fun dataMap record => <[recordKey record := License_Quantity__c record]> dataMap) ∅ data.

(** [x ? parseInt(x, 10) : dflt] *)
Definition lengthOr (dflt : Z) (contractLength : value) : option Z :=
  if truthy contractLength then parseInt contractLength else Some dflt.

(** [(this.configData && this.configData.F5_Contract_Length__c) ? parseInt(..., 10) : dflt] *)
Definition configYears (dflt : Z) (configData : option Config) : option Z :=
  match configData with
  | Some cfg => lengthOr dflt (F5_Contract_Length__c cfg)
  | None => Some dflt
  end.

(** [truthy] for a string that may be absent. *)
Definition present (s : option string) : bool :=
  match s with
  | Some x => negb (bool_decide (x = ""))
  | None => false
  end.

Definition ofLabel (s : option string) : value :=
  match s with
  | Some x => VStr x
  | None => VNull
  end.

(** The message of the [catch] block of [handleSave]. *)
Definition saveErrorMessage (error : option ErrorObj) : value :=
  match error with
  | Some e =>
      match body e with
      | Some m => if truthy m then m else if truthy (message e) then message e
                  else VStr "An unknown error occurred."
      | None => if truthy (message e) then message e
                else VStr "An unknown error occurred."
      end
  | None => VStr "An unknown error occurred."
  end.

(** Inputs within the range in which the embedding is exact: what
    [parseInt] reads in a configuration, a record or a draft is within
    [quantityBound]. *)
Definition configInRange (cfg : Config) : bool :=
  inRange (F5_Contract_Length__c cfg) && inRange (F5_Maximum_License__c cfg).

Definition recordInRange (record : LicenseRecord) : bool :=
  inRange (Grade_Level__c record) && inRange (Year__c record)
  && inRange (License_Quantity__c record).

Definition draftInRange (draft : obj) : Prop :=
  map_Forall (fun _ v => inRange v = true) draft.

Definition set_gridData (x : list obj) (st : State) : State :=
  {| recordId := recordId st; gridData := x;
     isLoading := isLoading st; hasChanges := hasChanges st;
     pendingChanges := pendingChanges st; draftValues := draftValues st;
     configData := configData st; originalLicenseData := originalLicenseData st |}.

Definition set_isLoading (x : bool) (st : State) : State :=
  {| recordId := recordId st; gridData := gridData st;
     isLoading := x; hasChanges := hasChanges st;
     pendingChanges := pendingChanges st; draftValues := draftValues st;
     configData := configData st; originalLicenseData := originalLicenseData st |}.

Definition set_hasChanges (x : bool) (st : State) : State :=
  {| recordId := recordId st; gridData := gridData st;
     isLoading := isLoading st; hasChanges := x;
     pendingChanges := pendingChanges st; draftValues := draftValues st;
     configData := configData st; originalLicenseData := originalLicenseData st |}.

Definition set_pendingChanges (x : gmap string PendingChange) (st : State) : State :=
  {| recordId := recordId st; gridData := gridData st;
     isLoading := isLoading st; hasChanges := hasChanges st;
     pendingChanges := x; draftValues := draftValues st;
     configData := configData st; originalLicenseData := originalLicenseData st |}.

Definition set_draftValues (x : list obj) (st : State) : State :=
  {| recordId := recordId st; gridData := gridData st;
     isLoading := isLoading st; hasChanges := hasChanges st;
     pendingChanges := pendingChanges st; draftValues := x;
     configData := configData st; originalLicenseData := originalLicenseData st |}.

Definition set_configData (x : option Config) (st : State) : State :=
  {| recordId := recordId st; gridData := gridData st;
     isLoading := isLoading st; hasChanges := hasChanges st;
     pendingChanges := pendingChanges st; draftValues := draftValues st;
     configData := x; originalLicenseData := originalLicenseData st |}.

Definition set_originalLicenseData (x : list LicenseRecord) (st : State) : State :=
  {| recordId := recordId st; gridData := gridData st;
     isLoading := isLoading st; hasChanges := hasChanges st;
     pendingChanges := pendingChanges st; draftValues := draftValues st;
     configData := configData st; originalLicenseData := x |}.

(** The component as constructed, before any wire result. *)
Definition initialState (rid : value) : State :=
  {| recordId := rid; gridData := []; isLoading := false; hasChanges := false;
     pendingChanges := ∅; draftValues := []; configData := None;
     originalLicenseData := [] |}.

End Model.

(** ** [src/unnamed/part_001] *)

Module Part001.
Import Js JsDate Model.

Definition totalsBase : obj :=
  {[ "id" := VStr "totals-row";
     "grade" := VStr "Total";
     "rowClass" := VStr "total-row slds-text-heading_small slds-text-color_success";
     "gradeClass" := VStr "slds-cell-edit slds-cell-edit_no-button" ]}.

(** What the reducers of [calculateTotals] and [validateTotals] add for one
    cell: 0 for [null], [undefined], [''] and for whatever [parseInt] cannot
    read. *)
Definition cellNumber (v : value) : Z :=
  let numValue :=
    if strictEq v VNull || strictEq v VUndef || strictEq v (VStr "")
    then Some 0 else parseInt v in
  match numValue with
  | Some n => n
  | None => 0
  end.

(** [dataRows.reduce((sum, row) => sum + ..., 0)] for one year key. *)
Definition sumYear (dataRows : list obj) (key : string) : Z :=
  foldl (fun sum row => sum + cellNumber (get row key)) 0 dataRows.

Definition calculateTotals (dataRows : list obj) (maxYears : option Z) : obj :=
  foldl (fun totals year =>
           <[yearKey year := VNum (sumYear dataRows (yearKey year))]> totals)
        totalsBase (yearsUpTo maxYears).

(** [(value === null || value === undefined) ? null : parseInt(value, 10)] *)
Definition cellOfRecord (v : value) : value :=
  if strictEq v VNull || strictEq v VUndef then VNull else ofNum (parseInt v).

Definition newRow (index : nat) (grade : string) : obj :=
  {[ "id" := VStr ("row-" +:+ pretty index);
     "grade" := VStr grade;
     "rowClass" := VStr "";
     "gradeClass" := VStr "slds-cell-edit" ]}.

Definition buildRow (dataMap : obj) (maxYears : option Z) (index : nat) (grade : string) : obj :=
  foldl (fun row year =>
           <[yearKey year := cellOfRecord (get dataMap (grade +:+ "_" +:+ pretty year))]> row)
        (newRow index grade) (yearsUpTo maxYears).

Definition processLicenseData (data : list LicenseRecord) (st : State) : State :=
  match configData st with
  | None => st
  | Some cfg =>
      let dataMap := buildDataMap data in
      let maxYears := lengthOr 7 (F5_Contract_Length__c cfg) in
      let mainData := imap (buildRow dataMap maxYears) gradeLabels in
      let totalsRow := calculateTotals mainData maxYears in
      set_gridData (mainData ++ [totalsRow]) st
  end.

(** [null] for a missing or unparsable date; month, day and year are read
    in local time. *)
Definition americanDateFormat (h : Host) (inputDate : option string) : option string :=
  match inputDate with
  | Some s =>
      if present inputDate then
        match newDate h s with
        | Some t =>
            Some (pad2 (getMonth h t + 1) +:+ "/" +:+ pad2 (getDate h t)
                  +:+ "/" +:+ pretty (getFullYear h t))
        | None => None
        end
      else None
  | None => None
  end.

(** [toISOString] throws on an invalid date; the [catch] turns that into
    [null]. *)
Definition addYearsToDateString (h : Host) (dateString : option string) (yearsToAdd : Z)
  : option string :=
  match dateString with
  | Some s =>
      if present dateString then
        match newDate h s with
        | Some t =>
            match setFullYear h t (getFullYear h t + yearsToAdd) with
            | Some t' => Some (toISODate t')
            | None => None
            end
        | None => None
        end
      else None
  | None => None
  end.

(** The [dateLabel] of the loop body of [columns]. *)
Definition dateLabel (h : Host) (cfg : Config) (i : nat) : value :=
  if bool_decide (i = 1%nat) then
    if present (F5_LMS_Start_Date__c cfg)
    then ofLabel (americanDateFormat h (F5_LMS_Start_Date__c cfg))
    else VStr "Year 1"
  else
    if present (F5_Initial_Renewal_date__c cfg)
    then ofLabel (americanDateFormat h
                    (addYearsToDateString h (F5_Initial_Renewal_date__c cfg) (Z.of_nat i - 2)))
    else VStr ("Year " +:+ pretty i).

Definition zeroColumn : Column :=
  {| label := VStr "Grade"; fieldName := "grade"; type := "text"; editable := false |}.

Definition yearColumn (h : Host) (cfg : Config) (i : nat) : Column :=
  {| label := dateLabel h cfg i; fieldName := yearKey i; type := "number"; editable := true |}.

Definition columns (h : Host) (configData : option Config) : list Column :=
  match configData with
  | None => []
  | Some cfg =>
      let maxCols := lengthOr 7 (F5_Contract_Length__c cfg) in
      zeroColumn :: map (yearColumn h cfg) (yearsUpTo maxCols)
  end.

Definition getYearLabel (h : Host) (configData : option Config) (yearNum : nat) : value :=
  match columns h configData !! yearNum with
  | Some column => label column
  | None => VStr ("Year " +:+ pretty yearNum)
  end.

(** [total > maxLicense], false against [NaN]. *)
Definition exceeds (total : Z) (maxLicense : option Z) : bool :=
  match maxLicense with
  | Some m => m <? total
  | None => false
  end.

Definition limitMessage (yearLabel : value) (total : Z) (maxLicense : option Z) : string :=
  toStr yearLabel +:+ ": Total (" +:+ pretty total
    +:+ ") exceeds maximum license limit (" +:+ toStr (ofNum maxLicense) +:+ ")".

Definition validateTotals (h : Host) (configData : option Config) (dataRows : list obj)
  : ValidationResult :=
  match configData with
  | None => {| isValid := true; errors := [] |}
  | Some cfg =>
      if negb (truthy (F5_Maximum_License__c cfg)) then {| isValid := true; errors := [] |}
      else
        let maxLicense := parseInt (F5_Maximum_License__c cfg) in
        let maxYears := lengthOr 7 (F5_Contract_Length__c cfg) in
        let errors :=
          foldl (fun errors year =>
                   let total := sumYear dataRows (yearKey year) in
                   if exceeds total maxLicense
                   then errors ++ [limitMessage (getYearLabel h configData year) total maxLicense]
                   else errors)
                [] (yearsUpTo maxYears) in
        {| isValid := bool_decide (length errors = 0%nat); errors := errors |}
  end.

Definition notTotals (o : obj) : bool := negb (strictEq (get o "id") (VStr "totals-row")).

(** The value written into the grid row for a draft field. *)
Definition coerceCell (v : value) : value :=
  if strictEq v VNull || strictEq v VUndef || strictEq v (VStr "") then VNull
  else
    match parseInt v with
    | Some intValue => VNum (Z.max 0 intValue)
    | None => VNull
    end.

(** The quantity written into the pending change for a draft field. *)
Definition coercePending (v : value) : value :=
  if negb (strictEq v VNull) && negb (strictEq v VUndef) && negb (strictEq v (VStr "")) then
    match parseInt v with
    | Some n => if n <? 0 then VNull else VNum n
    | None => VNull
    end
  else VNull.

(** [Object.keys(draft).forEach(...)] over a copy of the row. *)
Definition applyDraft (draft row : obj) : obj :=
  map_fold (fun key v updatedRow =>
              if bool_decide (key ≠ "id") then <[key := coerceCell v]> updatedRow
              else updatedRow)
           row draft.

Definition updateRow (filteredDraftValues : list obj) (row : obj) : obj :=
  match List.find (fun d => strictEq (get d "id") (get row "id")) filteredDraftValues with
  | Some draft => applyDraft draft row
  | None => row
  end.

Definition recordDraft (updatedDataRows : list obj)
    (updatedPendingChanges : gmap string PendingChange) (draft : obj)
  : gmap string PendingChange :=
  match List.find (fun row => strictEq (get row "id") (get draft "id")) updatedDataRows with
  | None => updatedPendingChanges
  | Some originalRow =>
      let grade := get originalRow "grade" in
      map_fold (fun field v pending =>
                  if bool_decide (field ≠ "id") && bool_decide (field ≠ "grade")
                     && startsWith "year" field then
                    let year := replaceFirst "year" "" field in
                    let key := toStr grade +:+ "_" +:+ year in
                    <[key := {| grade := grade; year := year; quantity := coercePending v |}]> pending
                  else pending)
               updatedPendingChanges draft
  end.

(** [parseInt(x, 10) || 7], or 7 without configuration. *)
Definition editMaxYears (configData : option Config) : option Z :=
  match configData with
  | Some cfg =>
      match parseInt (F5_Contract_Length__c cfg) with
      | Some n => if n =? 0 then Some 7 else Some n
      | None => Some 7
      end
  | None => Some 7
  end.

Definition handleDraftValueChange (h : Host) (draftValues : list obj) (st : State)
  : State * list Event :=
  let filteredDraftValues := List.filter notTotals draftValues in
  if bool_decide (length filteredDraftValues = 0%nat) then (set_draftValues [] st, [])
  else
    let currentDataRows := List.filter notTotals (gridData st) in
    let updatedDataRows := map (updateRow filteredDraftValues) currentDataRows in
    let maxYears := editMaxYears (configData st) in
    let totalsRow := calculateTotals updatedDataRows maxYears in
    let updatedPendingChanges :=
      foldl (recordDraft updatedDataRows) (pendingChanges st) filteredDraftValues in
    let st' :=
      set_pendingChanges updatedPendingChanges
        (set_gridData (updatedDataRows ++ [totalsRow])
           (set_draftValues filteredDraftValues (set_hasChanges true st))) in
    let validation := validateTotals h (configData st) updatedDataRows in
    (st', if isValid validation then []
          else [ShowToast "Warning" (join nl (errors validation)) "warning"]).

(** [handleSave], run to completion; [datatable] says whether the template
    has the data table, [outcome] how the awaited calls end.  The list of
    changes handed to the persistence call is the list of the map's values;
    the map keeps no insertion order. *)
Definition handleSave (h : Host) (datatable : bool) (outcome : SaveOutcome) (st : State)
  : State * list Event :=
  if negb (hasChanges st) || bool_decide (size (pendingChanges st) = 0%nat)
  then (st, [ShowToast "Info" "No changes to save." "info"])
  else
    let dataRows := List.filter notTotals (gridData st) in
    let validation := validateTotals h (configData st) dataRows in
    if negb (isValid validation) then
      (st, [ShowToast "Error"
              ("Cannot save due to validation errors:" +:+ nl +:+ join nl (errors validation))
              "error"])
    else
      let st1 := set_isLoading true st in
      let changes := (map_to_list (pendingChanges st1)).*2 in
      let call := SaveLicenseData (recordId st1) changes in
      let failed error :=
        ShowToast "Error" ("Failed to save changes: " +:+ toStr (saveErrorMessage error)) "error" in
      match outcome with
      | SaveRejected error => (set_isLoading false st1, [call; failed error])
      | SaveResolved refreshError =>
          let st2 := set_draftValues [] (set_pendingChanges ∅ (set_hasChanges false st1)) in
          let done :=
            [call; ShowToast "Success" "License quantities saved successfully" "success"]
            ++ (if datatable then [ClearDatatableDrafts] else []) ++ [RefreshApex] in
          match refreshError with
          | None => (set_isLoading false st2, done)
          | Some error => (set_isLoading false st2, done ++ [failed error])
          end
      end.

Definition handleCancel (datatable : bool) (st : State) : State * list Event :=
  (set_draftValues [] (set_pendingChanges ∅ (set_hasChanges false st)),
   (if datatable then [ClearDatatableDrafts] else [])
   ++ [RefreshApex; ShowToast "Info" "Changes discarded." "info"]).

Definition wiredConfig (result : WireResult Config) (st : State) : State * list Event :=
  match resultData result with
  | Some cfg =>
      let st1 := set_configData (Some cfg) st in
      if bool_decide (0 < length (originalLicenseData st1))%nat
      then (processLicenseData (originalLicenseData st1) st1, [])
      else (st1, [])
  | None =>
      match resultError result with
      | Some _ => (st, [ShowToast "Error" "Failed to load configuration data" "error"])
      | None => (st, [])
      end
  end.

(** An error without a [body] makes the handler throw before the toast. *)
Definition wiredGetLicenseData (result : WireResult (list LicenseRecord)) (st : State)
  : State * list Event :=
  match resultData result with
  | Some records =>
      let st1 := set_originalLicenseData records st in
      match configData st1 with
      | Some _ => (processLicenseData records st1, [])
      | None => (st1, [])
      end
  | None =>
      match resultError result with
      | Some e =>
          match body e with
          | Some detail =>
              (st, [ShowToast "Error" ("Failed to load license data: " +:+ toStr detail) "error"])
          | None => (st, [])
          end
      | None => (st, [])
      end
  end.

(** [handleSave] in two halves, around its first [await].  The first half
    either returns (a guard fired: no call) or leaves the persistence call
    in flight; the flag says which.  The second half runs when the awaited
    calls have settled, on the state the component has by then. *)
Definition handleSave_start (h : Host) (st : State) : State * list Event * bool :=
  if negb (hasChanges st) || bool_decide (size (pendingChanges st) = 0%nat)
  then (st, [ShowToast "Info" "No changes to save." "info"], false)
  else
    let dataRows := List.filter notTotals (gridData st) in
    let validation := validateTotals h (configData st) dataRows in
    if negb (isValid validation) then
      (st, [ShowToast "Error"
              ("Cannot save due to validation errors:" +:+ nl +:+ join nl (errors validation))
              "error"], false)
    else
      let st1 := set_isLoading true st in
      let changes := (map_to_list (pendingChanges st1)).*2 in
      (st1, [SaveLicenseData (recordId st1) changes], true).

Definition handleSave_settle (datatable : bool) (outcome : SaveOutcome) (st : State)
  : State * list Event :=
  let failed error :=
    ShowToast "Error" ("Failed to save changes: " +:+ toStr (saveErrorMessage error)) "error" in
  match outcome with
  | SaveRejected error => (set_isLoading false st, [failed error])
  | SaveResolved refreshError =>
      let st2 := set_draftValues [] (set_pendingChanges ∅ (set_hasChanges false st)) in
      let done :=
        [ShowToast "Success" "License quantities saved successfully" "success"]
        ++ (if datatable then [ClearDatatableDrafts] else []) ++ [RefreshApex] in
      match refreshError with
      | None => (set_isLoading false st2, done)
      | Some error => (set_isLoading false st2, done ++ [failed error])
      end
  end.

(** The second half has an [await] of its own, on the refresh.  Between
    the persistence call and the refresh: the success toast, the clearing
    of the work and of the data table, and the call of [refreshApex]. *)
Definition handleSave_saved (datatable : bool) (st : State) : State * list Event :=
  (set_draftValues [] (set_pendingChanges ∅ (set_hasChanges false st)),
   [ShowToast "Success" "License quantities saved successfully" "success"]
   ++ (if datatable then [ClearDatatableDrafts] else []) ++ [RefreshApex]).

(** The [catch] and [finally] blocks: they run when the persistence call is
    rejected and when the refresh has settled; [failure] is the value a
    rejection carries, [None] when the refresh went through. *)
Definition handleSave_finish (failure : option (option ErrorObj)) (st : State)
  : State * list Event :=
  (set_isLoading false st,
   match failure with
   | Some error =>
       [ShowToast "Error" ("Failed to save changes: " +:+ toStr (saveErrorMessage error)) "error"]
   | None => []
   end).

Definition saveButtonDisabled (st : State) : bool := negb (hasChanges st) || isLoading st.

Definition cancelButtonDisabled (st : State) : bool := negb (hasChanges st) || isLoading st.

End Part001.

(** ** [src/force-app/main/default/lwc/licenseQuantityGrid/licenseQuantityGrid.js]

    The second component of the file (from its line 181 on).  A result of
    type [option] stands for a call that may throw: [None] is the uncaught
    [RangeError] of [toISOString] on an invalid date. *)

Module LwcGrid.
Import Js JsDate Model.

Definition totalsBase : obj :=
  {[ "id" := VStr "totals-row";
     "grade" := VStr "Total";
     "rowClass" := VStr "total-row slds-text-heading_small slds-text-color_success" ]}.

(** [data.reduce((sum, row) => sum + (row[yearKey] || 0), 0)] *)
Definition sumYear (data : list obj) (key : string) : value :=
  foldl (fun sum row => jsAdd sum (jsOr (get row key) (VNum 0))) (VNum 0) data.

Definition calculateTotals (data : list obj) (maxYears : option Z) : obj :=
  foldl (fun totals year => <[yearKey year := sumYear data (yearKey year)]> totals)
        totalsBase (yearsUpTo maxYears).

Definition newRow (index : nat) (grade : string) : obj :=
  {[ "id" := VStr ("row-" +:+ pretty index); "grade" := VStr grade; "rowClass" := VStr "" ]}.

Definition buildRow (dataMap : obj) (maxYears : option Z) (index : nat) (grade : string) : obj :=
  foldl (fun row year =>
           <[yearKey year := jsOr (get dataMap (grade +:+ "_" +:+ pretty year)) VNull]> row)
        (newRow index grade) (yearsUpTo maxYears).

Definition processLicenseData (data : list LicenseRecord) (st : State) : State :=
  let dataMap := buildDataMap data in
  let maxYears := configYears 5 (configData st) in
  let mainData := imap (buildRow dataMap maxYears) gradeLabels in
  let totalsRow := calculateTotals mainData maxYears in
  set_gridData (mainData ++ [totalsRow]) st.

(** [inputDate.match(/^(\d{4})-(\d{2})-(\d{2})$/)], the three groups as
    they are written. *)
Definition matchIso (s : string) : option (string * string * string) :=
  if bool_decide (String.length s = 10%nat)
     && forallb (fun i => match String.get i s with
                          | Some c => match digitOf c with Some _ => true | None => false end
                          | None => false
                          end) [0; 1; 2; 3; 5; 6; 8; 9]%nat
     && bool_decide (String.get 4 s = Some "-"%char)
     && bool_decide (String.get 7 s = Some "-"%char)
  then Some (String.substring 0 4 s, String.substring 5 2 s, String.substring 8 2 s)
  else None.

Definition americanDateFormat (inputDate : option string) : option string :=
  match inputDate with
  | Some s =>
      if present inputDate then
        match matchIso s with
        | Some (year, month, day) => Some (month +:+ "/" +:+ day +:+ "/" +:+ year)
        | None => None
        end
      else None
  | None => None
  end.

(** No [try] here: [None] is the exception, [Some None] the [null] for a
    missing date. *)
Definition addYearsToDateString (h : Host) (dateString : option string) (yearsToAdd : Z)
  : option (option string) :=
  match dateString with
  | Some s =>
      if present dateString then
        match newDate h s with
        | Some t =>
            match setFullYear h t (getFullYear h t + yearsToAdd) with
            | Some t' => Some (Some (toISODate t'))
            | None => None
            end
        | None => None
        end
      else Some None
  | None => Some None
  end.

Definition dateLabel (h : Host) (cfg : Config) (i : nat) : option value :=
  if bool_decide (i = 1%nat) then
    if present (F5_LMS_Start_Date__c cfg)
    then Some (ofLabel (americanDateFormat (F5_LMS_Start_Date__c cfg)))
    else Some (VStr "Year 1")
  else
    if present (F5_Initial_Renewal_date__c cfg)
    then
      d ← addYearsToDateString h (F5_Initial_Renewal_date__c cfg) (Z.of_nat i - 1);
      Some (ofLabel (americanDateFormat d))
    else Some (VStr ("Year " +:+ pretty (Z.of_nat i - 1))).

Definition zeroColumn : Column :=
  {| label := VStr "Grade"; fieldName := "grade"; type := "text"; editable := false |}.

Definition yearColumn (h : Host) (cfg : Config) (i : nat) : option Column :=
  l ← dateLabel h cfg i;
  Some {| label := l; fieldName := yearKey i; type := "number"; editable := true |}.

Definition columns (h : Host) (configData : option Config) : option (list Column) :=
  match configData with
  | None => Some []
  | Some cfg =>
      let maxCols := lengthOr 7 (F5_Contract_Length__c cfg) in
      cols ← mapM (yearColumn h cfg) (yearsUpTo maxCols);
      Some (zeroColumn :: cols)
  end.

Definition getYearLabel (h : Host) (configData : option Config) (yearNum : nat) : option value :=
  cols ← columns h configData;
  match cols !! yearNum with
  | Some column => Some (label column)
  | None => Some (VStr ("Year " +:+ pretty yearNum))
  end.

(** [total > maxLicense] for what the reducer can return. *)
Definition exceeds (h : Host) (total : value) (maxLicense : Z) : bool :=
  match total with
  | VNum z => maxLicense <? z
  | VStr s => stringGreater h s maxLicense
  | VNull => maxLicense <? 0
  | VUndef | VNaN => false
  end.

Definition limitMessage (yearLabel total : value) (maxLicense : Z) : string :=
  toStr yearLabel +:+ ": Total (" +:+ toStr total
    +:+ ") exceeds maximum license limit (" +:+ pretty maxLicense +:+ ")".

(** [configData?.F5_Maximum_License__c ? parseInt(..., 10) : null], and
    [None] as well where [!maxLicense] holds. *)
Definition maxLicenseOf (configData : option Config) : option Z :=
  match configData with
  | Some cfg =>
      if truthy (F5_Maximum_License__c cfg) then
        match parseInt (F5_Maximum_License__c cfg) with
        | Some m => if m =? 0 then None else Some m
        | None => None
        end
      else None
  | None => None
  end.

Definition validateTotals (h : Host) (configData : option Config) (dataRows : list obj)
  : option ValidationResult :=
  match maxLicenseOf configData with
  | None => Some {| isValid := true; errors := [] |}
  | Some maxLicense =>
      let maxYears := configYears 5 configData in
      errors ←
        foldl (fun acc year =>
                 errors ← acc;
                 let total := sumYear dataRows (yearKey year) in
                 if exceeds h total maxLicense then
                   yearLabel ← getYearLabel h configData year;
                   Some (errors ++ [limitMessage yearLabel total maxLicense])
                 else Some errors)
              (Some []) (yearsUpTo maxYears);
      Some {| isValid := bool_decide (length errors = 0%nat); errors := errors |}
  end.

Definition notTotals (o : obj) : bool := negb (strictEq (get o "id") (VStr "totals-row")).

Definition coercePending (v : value) : value :=
  if negb (strictEq v VNull) && negb (strictEq v VUndef) && negb (strictEq v (VStr "")) then
    match parseInt v with
    | Some n => if n <? 0 then VNull else VNum n
    | None => VNull
    end
  else VNull.

(** The index of the first element that satisfies [p]. *)
Fixpoint findIndex {A : Type} (p : A -> bool) (l : list A) : option nat :=
  match l with
  | [] => None
  | x :: r => if p x then Some 0%nat else S <$> findIndex p r
  end.

(** One round of [draftValues.forEach]: the draft is spread over the row
    as it is, and every field but [id] and [grade] becomes a pending
    change. *)
Definition mergeDraft (acc : list obj * gmap string PendingChange) (draft : obj)
  : list obj * gmap string PendingChange :=
  let '(originalDataRows, updatedPendingChanges) := acc in
  let sameId := fun row : obj => strictEq (get row "id") (get draft "id") in
  match List.find sameId originalDataRows with
  | None => acc
  | Some originalRow =>
      let grade := get originalRow "grade" in
      let rows :=
        match findIndex sameId originalDataRows with
        | Some rowIndex => <[rowIndex := draft ∪ originalRow]> originalDataRows
        | None => originalDataRows
        end in
      (rows,
       map_fold (fun field v pending =>
                   if bool_decide (field ≠ "id") && bool_decide (field ≠ "grade") then
                     let year := replaceFirst "year" "" field in
                     let key := toStr grade +:+ "_" +:+ year in
                     <[key := {| grade := grade; year := year; quantity := coercePending v |}]> pending
                   else pending)
                updatedPendingChanges draft)
  end.

(** [None] when [validateTotals] throws: the grid and the pending changes
    are assigned after it, so only [draftValues] and [hasChanges] have
    changed by then. *)
Definition handleDraftValueChange (h : Host) (draftValues : list obj) (st : State)
  : State * option (list Event) :=
  let draftValues := List.filter notTotals draftValues in
  let st0 := set_draftValues draftValues st in
  if bool_decide (length draftValues = 0%nat) then (st0, Some [])
  else
    let st1 := set_hasChanges true st0 in
    let '(originalDataRows, updatedPendingChanges) :=
      foldl mergeDraft (List.filter notTotals (gridData st1), pendingChanges st1) draftValues in
    match validateTotals h (configData st1) originalDataRows with
    | None => (st1, None)
    | Some validation =>
        let maxYears := configYears 5 (configData st1) in
        let totalsRow := calculateTotals originalDataRows maxYears in
        (set_pendingChanges updatedPendingChanges
           (set_gridData (originalDataRows ++ [totalsRow]) st1),
         Some (if isValid validation then []
               else [ShowToast "Warning"
                       ("Validation Warnings:" +:+ nl +:+ join nl (errors validation))
                       "warning"]))
    end.

(** [this.template.querySelector('lightning-datatable').draftValues = []]
    throws a [TypeError] when the template has no data table; its message is
    the runtime's. *)
Definition nullAssignment (typeErrorMessage : string) : option ErrorObj :=
  Some {| body := None; message := VStr typeErrorMessage |}.

(** [handleSave], run to completion.  [None] in place of the effects: the
    validator threw, outside the [try], and the promise is rejected. *)
Definition handleSave (h : Host) (datatable : bool) (typeErrorMessage : string)
    (outcome : SaveOutcome) (st : State) : State * option (list Event) :=
  if negb (hasChanges st) || bool_decide (size (pendingChanges st) = 0%nat)
  then (st, Some [ShowToast "Info" "No changes to save." "info"])
  else
    match validateTotals h (configData st) (List.filter notTotals (gridData st)) with
    | None => (st, None)
    | Some validation =>
        if negb (isValid validation) then
          (st, Some [ShowToast "Error"
                       ("Cannot save due to validation errors:" +:+ nl
                        +:+ join nl (errors validation))
                       "error"])
        else
          let st1 := set_isLoading true st in
          let changes := (map_to_list (pendingChanges st1)).*2 in
          let call := SaveLicenseData (recordId st1) changes in
          let failed error :=
            ShowToast "Error" ("Failed to save changes: " +:+ toStr (saveErrorMessage error))
                      "error" in
          match outcome with
          | SaveRejected error => (set_isLoading false st1, Some [call; failed error])
          | SaveResolved refreshError =>
              let st2 := set_draftValues [] (set_pendingChanges ∅ (set_hasChanges false st1)) in
              let done :=
                [call; ShowToast "Success" "License quantities saved successfully" "success"] in
              if datatable then
                match refreshError with
                | None => (set_isLoading false st2, Some (done ++ [ClearDatatableDrafts; RefreshApex]))
                | Some error =>
                    (set_isLoading false st2,
                     Some (done ++ [ClearDatatableDrafts; RefreshApex; failed error]))
                end
              else
                (set_isLoading false st2,
                 Some (done ++ [failed (nullAssignment typeErrorMessage)]))
          end
    end.

(** [None] in place of the effects: the assignment to the missing data
    table threw, before the refresh and the toast. *)
Definition handleCancel (datatable : bool) (st : State) : State * option (list Event) :=
  let st1 := set_draftValues [] (set_pendingChanges ∅ (set_hasChanges false st)) in
  if datatable
  then (st1, Some [ClearDatatableDrafts; RefreshApex;
                   ShowToast "Info" "Changes discarded." "info"])
  else (st1, None).

(** [wiredLicenseData] says whether the records wire has handed over a
    result before. *)
Definition wiredConfig (wiredLicenseData : bool) (result : WireResult Config) (st : State)
  : State * list Event :=
  match resultData result with
  | Some cfg => (set_configData (Some cfg) st, if wiredLicenseData then [RefreshApex] else [])
  | None => (st, [])
  end.

(** An error without a [body] makes the handler throw before the toast. *)
Definition wiredGetLicenseData (result : WireResult (list LicenseRecord)) (st : State)
  : State * list Event :=
  match resultData result with
  | Some records => (processLicenseData records st, [])
  | None =>
      match resultError result with
      | Some e =>
          match body e with
          | Some detail =>
              (st, [ShowToast "Error" ("Failed to load license data: " +:+ toStr detail) "error"])
          | None => (st, [])
          end
      | None => (st, [])
      end
  end.

Definition saveButtonDisabled (st : State) : bool := negb (hasChanges st) || isLoading st.

Definition cancelButtonDisabled (st : State) : bool := negb (hasChanges st) || isLoading st.

End LwcGrid.

(** ** [src/unnamed/part_000] *)

Module Part000.
Import Js Model.

Definition newRow (index : nat) (grade : string) : obj :=
  {[ "id" := VStr ("row-" +:+ pretty index); "grade" := VStr grade ]}.

Definition buildRow (dataMap : obj) (configData : option Config) (index : nat) (grade : string)
  : obj :=
  let maxYears := configYears 7 configData in
  foldl (fun row year =>
           <[yearKey year := jsOr (get dataMap (grade +:+ "_" +:+ pretty year)) VNull]> row)
        (newRow index grade) (yearsUpTo maxYears).

Definition processLicenseData (data : list LicenseRecord) (st : State) : State :=
  let dataMap := buildDataMap data in
  set_gridData (imap (buildRow dataMap (configData st)) gradeLabels) st.

(** [addYearsToDateString] is the one of [LwcGrid]; the label of a column
    is the date as it is stored, or as [toISOString] writes it. *)
Definition dateLabel (h : JsDate.Host) (cfg : Config) (i : nat) : option value :=
  if bool_decide (i = 1%nat) then
    if present (F5_LMS_Start_Date__c cfg)
    then Some (ofLabel (F5_LMS_Start_Date__c cfg))
    else Some (VStr "Year 1")
  else
    if present (F5_Initial_Renewal_date__c cfg)
    then
      d ← LwcGrid.addYearsToDateString h (F5_Initial_Renewal_date__c cfg) (Z.of_nat i - 1);
      Some (ofLabel d)
    else Some (VStr ("Year " +:+ pretty (Z.of_nat i - 1))).

Definition zeroColumn : Column :=
  {| label := VStr "Grade"; fieldName := "grade"; type := "text"; editable := false |}.

Definition yearColumn (h : JsDate.Host) (cfg : Config) (i : nat) : option Column :=
  l ← dateLabel h cfg i;
  Some {| label := l; fieldName := yearKey i; type := "number"; editable := true |}.

Definition columns (h : JsDate.Host) (configData : option Config) : option (list Column) :=
  match configData with
  | None => Some []
  | Some cfg =>
      let maxCols := lengthOr 5 (F5_Contract_Length__c cfg) in
      cols ← mapM (yearColumn h cfg) (yearsUpTo maxCols);
      Some (zeroColumn :: cols)
  end.

(** The handler has no filter and no totals row: every draft is merged,
    raw, into the row of [gridData] with its id, by the loop body of
    [LwcGrid]. *)
Definition handleDraftValueChange (draftValues : list obj) (st : State) : State :=
  let '(rows, updatedPendingChanges) :=
    foldl LwcGrid.mergeDraft (gridData st, pendingChanges st) draftValues in
  set_pendingChanges updatedPendingChanges (set_gridData rows (set_hasChanges true st)).

(** No validation here; the assignment to a missing data table throws
    inside the [try]. *)
Definition handleSave (datatable : bool) (typeErrorMessage : string)
    (outcome : SaveOutcome) (st : State) : State * list Event :=
  if negb (hasChanges st) || bool_decide (size (pendingChanges st) = 0%nat)
  then (st, [ShowToast "Info" "No changes to save." "info"])
  else
    let st1 := set_isLoading true st in
    let changes := (map_to_list (pendingChanges st1)).*2 in
    let call := SaveLicenseData (recordId st1) changes in
    let failed error :=
      ShowToast "Error" ("Failed to save changes: " +:+ toStr (saveErrorMessage error))
                "error" in
    match outcome with
    | SaveRejected error => (set_isLoading false st1, [call; failed error])
    | SaveResolved refreshError =>
        let st2 := set_pendingChanges ∅ (set_hasChanges false st1) in
        let done :=
          [call; ShowToast "Success" "License quantities saved successfully" "success"] in
        if datatable then
          match refreshError with
          | None => (set_isLoading false st2, done ++ [ClearDatatableDrafts; RefreshApex])
          | Some error =>
              (set_isLoading false st2, done ++ [ClearDatatableDrafts; RefreshApex; failed error])
          end
        else
          (set_isLoading false st2, done ++ [failed (LwcGrid.nullAssignment typeErrorMessage)])
    end.

Definition handleCancel (datatable : bool) (st : State) : State * option (list Event) :=
  let st1 := set_pendingChanges ∅ (set_hasChanges false st) in
  if datatable
  then (st1, Some [ClearDatatableDrafts; RefreshApex;
                   ShowToast "Info" "Changes discarded." "info"])
  else (st1, None).

Definition wiredGetLicenseData (result : WireResult (list LicenseRecord)) (st : State)
  : State * list Event :=
  match resultData result with
  | Some records => (processLicenseData records st, [])
  | None =>
      match resultError result with
      | Some e =>
          match body e with
          | Some detail =>
              (st, [ShowToast "Error" ("Failed to load license data: " +:+ toStr detail) "error"])
          | None => (st, [])
          end
      | None => (st, [])
      end
  end.

End Part000.

(** ** The first component of [licenseQuantityGrid.js]

    Five fixed year columns and no configuration; the handlers are those
    of [Part000], with [parseInt] called without a radix. *)

Module LwcGridFirst.
Import Js Model.

Definition yearColumns : list Column :=
  [ {| label := VStr "Grade"; fieldName := "grade"; type := "text"; editable := false |};
    {| label := VStr "Year 1"; fieldName := "year1"; type := "number"; editable := true |};
    {| label := VStr "Year 2"; fieldName := "year2"; type := "number"; editable := true |};
    {| label := VStr "Year 3"; fieldName := "year3"; type := "number"; editable := true |};
    {| label := VStr "Year 4"; fieldName := "year4"; type := "number"; editable := true |};
    {| label := VStr "Year 5"; fieldName := "year5"; type := "number"; editable := true |} ].

Definition buildRow (dataMap : obj) (index : nat) (grade : string) : obj :=
  foldl (fun row year =>
           <[yearKey year := jsOr (get dataMap (grade +:+ "_" +:+ pretty year)) VNull]> row)
        (Part000.newRow index grade) (yearsUpTo (Some 5)).

Definition processLicenseData (data : list LicenseRecord) (st : State) : State :=
  let dataMap := buildDataMap data in
  set_gridData (imap (buildRow dataMap) gradeLabels) st.

(** *** [parseInt(v)]: a [0x] or [0X] after the sign selects radix 16. *)

Definition hexDigitOf (c : ascii) : option Z :=
  let n := Z.of_nat (nat_of_ascii c) in
  if (48 <=? n) && (n <=? 57) then Some (n - 48)
  else if (97 <=? n) && (n <=? 102) then Some (n - 87)
  else if (65 <=? n) && (n <=? 70) then Some (n - 55)
  else None.

Fixpoint hexDigitsValue (s : string) (acc : option Z) : option Z :=
  match s with
  | EmptyString => acc
  | String c r =>
      match hexDigitOf c with
      | Some d => hexDigitsValue r (Some (16 * default 0 acc + d))
      | None => acc
      end
  end.

Definition parseIntAutoStr (s : string) : option Z :=
  let s1 := trimStart s in
  let '(sign, s2) :=
    match s1 with
    | String "-"%char r => (-1, r)
    | String "+"%char r => (1, r)
    | _ => (1, s1)
    end in
  match s2 with
  | String "0"%char (String "x"%char r) => Z.mul sign <$> hexDigitsValue r None
  | String "0"%char (String "X"%char r) => Z.mul sign <$> hexDigitsValue r None
  | _ => Z.mul sign <$> digitsValue s2 None
  end.

Definition parseIntAuto (v : value) : option Z := parseIntAutoStr (toStr v).

Definition coercePending (v : value) : value :=
  if negb (strictEq v VNull) && negb (strictEq v VUndef) && negb (strictEq v (VStr "")) then
    match parseIntAuto v with
    | Some n => if n <? 0 then VNull else VNum n
    | None => VNull
    end
  else VNull.

(** One round of [draftValues.forEach], over the whole grid. *)
Definition mergeDraft (acc : list obj * gmap string PendingChange) (draft : obj)
  : list obj * gmap string PendingChange :=
  let '(gridData, updatedPendingChanges) := acc in
  let sameId := fun row : obj => strictEq (get row "id") (get draft "id") in
  match List.find sameId gridData with
  | None => acc
  | Some originalRow =>
      let grade := get originalRow "grade" in
      let rows :=
        match LwcGrid.findIndex sameId gridData with
        | Some rowIndex => <[rowIndex := draft ∪ originalRow]> gridData
        | None => gridData
        end in
      (rows,
       map_fold (fun field v pending =>
                   if bool_decide (field ≠ "id") && bool_decide (field ≠ "grade") then
                     let year := replaceFirst "year" "" field in
                     let key := toStr grade +:+ "_" +:+ year in
                     <[key := {| grade := grade; year := year; quantity := coercePending v |}]> pending
                   else pending)
                updatedPendingChanges draft)
  end.

Definition handleDraftValueChange (draftValues : list obj) (st : State) : State :=
  let '(rows, updatedPendingChanges) :=
    foldl mergeDraft (gridData st, pendingChanges st) draftValues in
  set_pendingChanges updatedPendingChanges (set_gridData rows (set_hasChanges true st)).

End LwcGridFirst.

(** ** The specification's words

    Definitions that follow the specification rather than the code; the
    theorems compare them with the embedding above.  The module also says
    under which inputs the component of [Part001] runs: what the platform
    and the user hand to its handlers, in any order, and the pieces of a
    save between which they may do so. *)

Module Spec.
Import Js JsDate Model.

(** A cell's quantity, with [null] (and every other non-number) as 0. *)
Definition quantityOf (v : value) : Z :=
  match v with
  | VNum z => z
  | _ => 0
  end.

(** The sum of a year column over a list of rows. *)
Definition columnSum (rows : list obj) (year : nat) : Z :=
  foldr (fun row acc => quantityOf (get row (yearKey year)) + acc) 0 rows.

Definition isTotals (row : obj) : bool := strictEq (get row "id") (VStr "totals-row").

Definition nonTotalsRows (grid : list obj) : list obj :=
  List.filter (fun row => negb (isTotals row)) grid.

Definition totalsRow (grid : list obj) : option obj := List.find isTotals grid.

(** The year columns 1..N of a configuration, as [columns] lays them out. *)
Definition yearColumns (configData : option Config) : list nat :=
  match configData with
  | Some cfg => yearsUpTo (lengthOr 7 (F5_Contract_Length__c cfg))
  | None => []
  end.

(** The totals row holds, for every year column, the sum of the other
    rows. *)
Definition TotalsInvariant (configData : option Config) (grid : list obj) : Prop :=
  exists totals,
    totalsRow grid = Some totals /\
    forall year, year ∈ yearColumns configData ->
      get totals (yearKey year) = VNum (columnSum (nonTotalsRows grid) year).

(** A cell that holds a number or nothing, never text. *)
Definition notText (v : value) : Prop :=
  match v with
  | VStr _ => False
  | _ => True
  end.

(** The year cells of the editable rows hold no text. *)
Definition NumericCells (grid : list obj) : Prop :=
  forall row year, row ∈ nonTotalsRows grid -> notText (get row (yearKey year)).

(** At most nine rows, whose year cells hold nothing or an integer within
    [quantityBound]: the rows on which every sum of a column is exact. *)
Definition ExactRows (rows : list obj) : Prop :=
  (length rows <= length gradeLabels)%nat /\
  forall row year, row ∈ rows -> boundedNumber (get row (yearKey year)) = true.

(** What happens to the component of [Part001]: a wire hands over a
    result, the user edits, presses save or cancel, or one of the two calls
    that a save awaits settles. *)
Inductive Input : Type :=
| ConfigArrives (result : WireResult Config)
| RecordsArrive (result : WireResult (list LicenseRecord))
| Edit (drafts : list obj)
| SavePressed
| SaveCallRejected (error : option ErrorObj)
| SaveCallResolved (datatable : bool)
| RefreshSettled (failure : option (option ErrorObj))
| CancelPressed (datatable : bool).

(** The code that runs, on the state the component has at that time.  A
    save runs in pieces, from one [await] to the next: whatever arrives in
    between runs on the state the piece before it left. *)
Definition step (h : Host) (input : Input) (st : State) : State :=
  match input with
  | ConfigArrives result => (Part001.wiredConfig result st).1
  | RecordsArrive result => (Part001.wiredGetLicenseData result st).1
  | Edit drafts => (Part001.handleDraftValueChange h drafts st).1
  | SavePressed => (Part001.handleSave_start h st).1.1
  | SaveCallRejected error => (Part001.handleSave_finish (Some error) st).1
  | SaveCallResolved datatable => (Part001.handleSave_saved datatable st).1
  | RefreshSettled failure => (Part001.handleSave_finish failure st).1
  | CancelPressed datatable => (Part001.handleCancel datatable st).1
  end.

(** The calls that runs of [handleSave] are waiting for: persistence calls,
    and the refreshes that follow those that went through. *)
Record Awaited : Type := {
  saves : nat;
  refreshes : nat
}.

Definition noneAwaited : Awaited := {| saves := 0; refreshes := 0 |}.

Definition awaitedAfter (h : Host) (input : Input) (st : State) (awaited : Awaited)
  : Awaited :=
  match input with
  | SavePressed =>
      if (Part001.handleSave_start h st).2
      then {| saves := S (saves awaited); refreshes := refreshes awaited |}
      else awaited
  | SaveCallRejected _ =>
      {| saves := Nat.pred (saves awaited); refreshes := refreshes awaited |}
  | SaveCallResolved _ =>
      {| saves := Nat.pred (saves awaited); refreshes := S (refreshes awaited) |}
  | RefreshSettled _ =>
      {| saves := saves awaited; refreshes := Nat.pred (refreshes awaited) |}
  | ConfigArrives _ | RecordsArrive _ | Edit _ | CancelPressed _ => awaited
  end.

(** Only a call that is awaited can settle. *)
Definition possible (input : Input) (awaited : Awaited) : Prop :=
  match input with
  | SaveCallRejected _ | SaveCallResolved _ => (0 < saves awaited)%nat
  | RefreshSettled _ => (0 < refreshes awaited)%nat
  | ConfigArrives _ | RecordsArrive _ | Edit _ | SavePressed | CancelPressed _ => True
  end.

(** The states that the component reaches from the one it is constructed
    in, with the handlers in any order and with saves in flight, together
    with the calls awaited; [admits] says which inputs are considered. *)
Inductive reachable (h : Host) (admits : Input -> Prop) : Awaited -> State -> Prop :=
| reachable_init rid :
    reachable h admits noneAwaited (initialState rid)
| reachable_step awaited st input :
    reachable h admits awaited st -> admits input -> possible input awaited ->
    reachable h admits (awaitedAfter h input st awaited) (step h input st).

Definition anyInput (input : Input) : Prop := True.

(** The inputs within the range in which the embedding is exact. *)
Definition inRangeInput (input : Input) : Prop :=
  match input with
  | ConfigArrives result =>
      forall cfg, resultData result = Some cfg -> configInRange cfg = true
  | RecordsArrive result =>
      forall records, resultData result = Some records ->
        Forall (fun record => recordInRange record = true) records
  | Edit drafts => Forall draftInRange drafts
  | SavePressed | SaveCallRejected _ | SaveCallResolved _ | RefreshSettled _
  | CancelPressed _ => True
  end.

(** An input that makes the component publish a new grid: records that
    arrive under a configuration, a configuration that arrives over
    records, an edit batch with an entry left once the totals row is
    filtered out. *)
Definition publishes (input : Input) (st : State) : Prop :=
  match input with
  | RecordsArrive result => is_Some (resultData result) /\ is_Some (configData st)
  | ConfigArrives result => is_Some (resultData result) /\ originalLicenseData st <> []
  | Edit drafts => List.filter Part001.notTotals drafts <> []
  | SavePressed | SaveCallRejected _ | SaveCallResolved _ | RefreshSettled _
  | CancelPressed _ => False
  end.

(** Saving and cancelling keep the grid. *)
Definition keepsGrid (input : Input) : Prop :=
  match input with
  | SavePressed | SaveCallRejected _ | SaveCallResolved _ | RefreshSettled _
  | CancelPressed _ => True
  | ConfigArrives _ | RecordsArrive _ | Edit _ => False
  end.

(** The states whose grid the component has just published, and those
    that the pieces of a save and a cancel make of them. *)
Inductive published (h : Host) (admits : Input -> Prop) : Awaited -> State -> Prop :=
| published_new awaited st input :
    reachable h admits awaited st -> admits input -> possible input awaited ->
    publishes input st ->
    published h admits (awaitedAfter h input st awaited) (step h input st)
| published_kept awaited st input :
    published h admits awaited st -> admits input -> possible input awaited ->
    keepsGrid input ->
    published h admits (awaitedAfter h input st awaited) (step h input st).

(** The configured ceiling: an integer, or none. *)
Definition ceilingOf (configData : option Config) : option Z :=
  match configData with
  | Some cfg =>
      match F5_Maximum_License__c cfg with
      | VNum z => Some z
      | _ => None
      end
  | None => None
  end.

(** A ceiling of 0 counts as no ceiling. *)
Definition effectiveCeiling (ceiling : option Z) : option Z :=
  match ceiling with
  | Some c => if c =? 0 then None else Some c
  | None => None
  end.

(** [part] occurs in [s]. *)
Fixpoint occursIn (part s : string) : bool :=
  match stripPrefix part s with
  | Some _ => true
  | None =>
      match s with
      | EmptyString => false
      | String _ rest => occursIn part rest
      end
  end.

(** A message names a column's label, a sum and a ceiling when the label
    and the two numbers, in decimal, occur in it. *)
Definition names (message : string) (columnLabel : value) (total ceiling : Z) : Prop :=
  occursIn (toStr columnLabel) message = true /\
  occursIn (pretty total) message = true /\
  occursIn (pretty ceiling) message = true.

(** The display label of the column that shows a year, read off the list
    of column descriptors. *)
Definition displayLabel (columns : list Column) (year : nat) : value :=
  match List.find (fun column => bool_decide (fieldName column = yearKey year)) columns with
  | Some column => label column
  | None => VUndef
  end.

(** The validator's answer in the specification's words: valid and without
    a message when there is no ceiling; with one, exactly one message for
    each year column, in order, whose sum exceeds it, naming the column's
    label, the sum and the ceiling, and valid exactly when there is no
    message. *)
Definition SpecValidation (labelOf : nat -> value) (years : list nat) (ceiling : option Z)
    (rows : list obj) (result : ValidationResult) : Prop :=
  match ceiling with
  | None => isValid result = true /\ errors result = []
  | Some c =>
      Forall2 (fun year message => names message (labelOf year) (columnSum rows year) c)
              (List.filter (fun year => c <? columnSum rows year) years)
              (errors result) /\
      (isValid result = true <-> errors result = [])
  end.

(** Two data maps that [dataMap.get(key) || null] cannot tell apart. *)
Definition sameReading (m m' : obj) : Prop :=
  forall k, jsOr (get m k) VNull = jsOr (get m' k) VNull.

(** The text [YYYY-MM-DD]: digits and two dashes. *)
Definition isIsoForm (s : string) : Prop :=
  exists y1 y2 y3 y4 m1 m2 d1 d2 : ascii,
    s = String y1 (String y2 (String y3 (String y4 (String "-"
          (String m1 (String m2 (String "-" (String d1 (String d2 ""))))))))) /\
    Forall (fun c => is_Some (digitOf c)) [y1; y2; y3; y4; m1; m2; d1; d2].

End Spec.

Import Js JsDate Model.

(** ** The scenario of the specification

    Configuration [{contractLength: 3, ceiling: 100}], records
    [{K,1,40}, {1,1,50}], and the edit of K / year 1 to ["70"]. *)

Module Scenario.
Import Js JsDate Model.

(** A runtime on UTC. *)
Definition hostUtc : Host :=
  {| LocalTZA := 0; legacyDateParse := fun _ => None;
     stringGreater := fun _ _ => false |}.

Definition config : Config :=
  {| F5_Contract_Length__c := VNum 3;
     F5_LMS_Start_Date__c := None;
     F5_Initial_Renewal_date__c := None;
     F5_Maximum_License__c := VNum 100 |}.

Definition records : list LicenseRecord :=
  [ {| Grade_Level__c := VStr "K"; Year__c := VNum 1; License_Quantity__c := VNum 40 |};
    {| Grade_Level__c := VStr "1"; Year__c := VNum 1; License_Quantity__c := VNum 50 |} ].

Definition gotConfig (cfg : Config) : WireResult Config :=
  {| resultData := Some cfg; resultError := None |}.

Definition gotRecords (l : list LicenseRecord) : WireResult (list LicenseRecord) :=
  {| resultData := Some l; resultError := None |}.

(** The configuration has arrived, then the records. *)
Definition start : State :=
  (Part001.wiredConfig (gotConfig config) (initialState (VStr "a0B000000000001"))).1.

Definition loaded : State := (Part001.wiredGetLicenseData (gotRecords records) start).1.

Definition editK1 (raw : value) : list obj :=
  [ {[ "id" := VStr "row-0"; "year1" := raw ]} ].

Definition edited : State := (Part001.handleDraftValueChange hostUtc (editK1 (VStr "70")) loaded).1.

(** The same edit to ["10"], which stays under the ceiling. *)
Definition editedWithin : State :=
  (Part001.handleDraftValueChange hostUtc (editK1 (VStr "10")) loaded).1.

(** The scenario's configuration with a ceiling of 0. *)
Definition configZero : Config :=
  {| F5_Contract_Length__c := VNum 3;
     F5_LMS_Start_Date__c := None;
     F5_Initial_Renewal_date__c := None;
     F5_Maximum_License__c := VNum 0 |}.

Definition editedZero : State :=
  (Part001.handleDraftValueChange hostUtc (editK1 (VStr "70"))
     (Part001.wiredGetLicenseData (gotRecords records)
        (Part001.wiredConfig (gotConfig configZero)
           (initialState (VStr "a0B000000000001"))).1).1).1.

(** Records with a stored zero for K / year 1. *)
Definition zeroRecord : LicenseRecord :=
  {| Grade_Level__c := VStr "K"; Year__c := VNum 1; License_Quantity__c := VNum 0 |}.

Definition otherRecords : list LicenseRecord :=
  [ {| Grade_Level__c := VStr "1"; Year__c := VNum 1; License_Quantity__c := VNum 50 |} ].

(** The edit of K / year 1 to ["-5"], in [Part001] and in [LwcGrid]. *)
Definition editedNegative : State :=
  (Part001.handleDraftValueChange hostUtc (editK1 (VStr "-5")) loaded).1.

Definition lwcEditedNegative : State :=
  (LwcGrid.handleDraftValueChange hostUtc (editK1 (VStr "-5"))
     (LwcGrid.processLicenseData records start)).1.

(** A rejection with a structured detail and a plain message. *)
Definition rejection : option ErrorObj :=
  Some {| body := Some (VStr "FIELD_CUSTOM_VALIDATION_EXCEPTION"); message := VStr "Server Error" |}.

End Scenario.

(** ** Shapes of the component's state *)

Module Props.
Import Js JsDate Model.

(** A pending change is filed under [`${grade}_${year}`] and holds [null]
    or a non-negative integer within [quantityBound]. *)
Definition PendingWellFormed (pending : gmap string PendingChange) : Prop :=
  forall key change, pending !! key = Some change ->
    key = toStr (grade change) +:+ "_" +:+ year change /\
    (quantity change = VNull \/
     exists z, 0 <= z <= quantityBound /\ quantity change = VNum z).

(** With no call awaited the component is not loading, and a component
    that reports no changes holds none. *)
Definition Settled (awaited : Spec.Awaited) (st : State) : Prop :=
  (awaited = Spec.noneAwaited -> isLoading st = false) /\
  (hasChanges st = false -> pendingChanges st = ∅ /\ draftValues st = []).

(** The stored records are within range, and the editable rows of the
    grid are rows on which every sum is exact. *)
Definition ExactState (st : State) : Prop :=
  Forall (fun record => recordInRange record = true) (originalLicenseData st) /\
  Spec.ExactRows (Spec.nonTotalsRows (gridData st)).

(** What saving and cancelling leave behind. *)
Definition cleared (st : State) : State :=
  set_draftValues [] (set_pendingChanges ∅ (set_hasChanges false st)).

(** The character of a decimal digit. *)
Definition digitChar (d : Z) : ascii := pretty_N_char (Z.to_N d).

(** A date as [toISOString] writes its first ten characters, for a year
    in 0..9999, and as the labels show it. *)
Definition isoText (y m d : Z) : string :=
  padZeros 4 (pretty y) +:+ "-" +:+ pad2 m +:+ "-" +:+ pad2 d.

Definition usText (m d : Z) (year : string) : string :=
  pad2 m +:+ "/" +:+ pad2 d +:+ "/" +:+ year.

End Props.

(** ** Further inputs *)

Module Cases.
Import Js JsDate Model.

(** A draft for the totals row, and one for a row the grid does not have. *)
Definition totalsDraft : obj := {[ "id" := VStr "totals-row"; "year1" := VStr "5" ]}.

Definition strayDraft : obj := {[ "id" := VStr "row-42"; "year1" := VStr "5" ]}.

(** The edit of grade 1 / year 2 to ["7"]. *)
Definition editGrade1 : list obj := [ {[ "id" := VStr "row-1"; "year2" := VStr "7" ]} ].

(** A configuration without a contract length, and one with dates. *)
Definition configNoLength : Config :=
  {| F5_Contract_Length__c := VNull;
     F5_LMS_Start_Date__c := None;
     F5_Initial_Renewal_date__c := None;
     F5_Maximum_License__c := VNum 100 |}.

Definition configDated : Config :=
  {| F5_Contract_Length__c := VNum 3;
     F5_LMS_Start_Date__c := Some "2024-08-15";
     F5_Initial_Renewal_date__c := Some "2025-07-01";
     F5_Maximum_License__c := VNum 100 |}.

(** A renewal date that no parser reads. *)
Definition configUnreadable : Config :=
  {| F5_Contract_Length__c := VNum 3;
     F5_LMS_Start_Date__c := None;
     F5_Initial_Renewal_date__c := Some "soon";
     F5_Maximum_License__c := VNum 100 |}.

(** The scenario's edit of K / year 1 to ["70"] in the second component of
    [licenseQuantityGrid.js]. *)
Definition lwcEdited (h : Host) : State :=
  (LwcGrid.handleDraftValueChange h (Scenario.editK1 (VStr "70"))
     (LwcGrid.processLicenseData Scenario.records Scenario.start)).1.

(** A runtime one hour east of UTC. *)
Definition hostEast : Host :=
  {| LocalTZA := 3600000; legacyDateParse := fun _ => None;
     stringGreater := fun _ _ => false |}.

Definition withConfig (cfg : Config) : State :=
  set_configData (Some cfg) (initialState (VStr "a0B000000000001")).

End Cases.

(** * Facts about the JavaScript layer *)

Section JsFacts.

Lemma digitOf_not_space (c : ascii) :
  is_Some (digitOf c) -> isStrWhiteSpace c = false.
Proof.
  destruct c as [[] [] [] [] [] [] [] []]; vm_compute; intros [x Hx]; congruence.
Qed.

Lemma digitOf_not_sign (c : ascii) :
  is_Some (digitOf c) -> c <> "-"%char /\ c <> "+"%char.
Proof.
  destruct c as [[] [] [] [] [] [] [] []]; vm_compute; intros [x Hx];
    split; congruence.
Qed.

Lemma digitOf_pretty_N_char (x : N) :
  (x < 10)%N -> digitOf (pretty_N_char x) = Some (Z.of_N x).
Proof.
  intros Hx.
  assert (x = 0 \/ x = 1 \/ x = 2 \/ x = 3 \/ x = 4 \/ x = 5 \/ x = 6
          \/ x = 7 \/ x = 8 \/ x = 9)%N as Hcases by lia.
  repeat (destruct Hcases as [-> | Hcases]; [reflexivity |]).
  subst x. reflexivity.
Qed.

(** Reading back the digits that [pretty] wrote. *)
Lemma digitsValue_pretty_N_go (x : N) :
  forall s, (0 < x)%N ->
    digitsValue (pretty_N_go x s) None = digitsValue s (Some (Z.of_N x)).
Proof.
  induction (N.lt_wf_0 x) as [x _ IH]; intros s Hpos.
  rewrite pretty_N_go_step by done.
  assert (Hmod : (x `mod` 10 < 10)%N) by (apply N.mod_lt; lia).
  assert (Hx : Z.of_N x = 10 * Z.of_N (x `div` 10) + Z.of_N (x `mod` 10)).
  { rewrite (N.div_mod x 10) at 1 by lia. lia. }
  destruct (decide (x `div` 10 = 0)%N) as [Hz | Hnz].
  - rewrite Hz, pretty_N_go_0. simpl.
    rewrite digitOf_pretty_N_char by done. simpl.
    rewrite Hx, Hz. reflexivity.
  - rewrite IH; [| apply N.div_lt; lia | lia].
    simpl. rewrite digitOf_pretty_N_char by done. simpl.
    rewrite Hx. reflexivity.
Qed.

Lemma pretty_N_go_head (x : N) :
  forall s, (0 < x)%N ->
    exists c r, pretty_N_go x s = String c r /\ is_Some (digitOf c).
Proof.
  induction (N.lt_wf_0 x) as [x _ IH]; intros s Hpos.
  rewrite pretty_N_go_step by done.
  assert (Hmod : (x `mod` 10 < 10)%N) by (apply N.mod_lt; lia).
  destruct (decide (x `div` 10 = 0)%N) as [Hz | Hnz].
  - rewrite Hz, pretty_N_go_0.
    exists (pretty_N_char (x `mod` 10)%N), s. split; [reflexivity |].
    rewrite digitOf_pretty_N_char by done. eauto.
  - apply IH; [apply N.div_lt; lia | by apply N.neq_0_lt_0].
Qed.

Lemma parseIntStr_pretty_positive (p : positive) :
  parseIntStr (pretty p) = Some (Z.pos p).
Proof.
  unfold pretty, pretty_positive, pretty, pretty_N.
  rewrite decide_False by done.
  destruct (pretty_N_go_head (N.pos p) "" ltac:(lia)) as (c & r & Heq & Hdig).
  pose proof (digitsValue_pretty_N_go (N.pos p) "" ltac:(lia)) as Hval.
  unfold parseIntStr. rewrite Heq in *. simpl trimStart.
  rewrite (digitOf_not_space c Hdig).
  destruct (digitOf_not_sign c Hdig) as [Hm Hp].
  assert (Hsign : (match String c r with
                   | String "-"%char r0 => (-1, r0)
                   | String "+"%char r0 => (1, r0)
                   | _ => (1, String c r)
                   end) = (1, String c r)).
  { destruct c as [[] [] [] [] [] [] [] []]; try reflexivity; congruence. }
  rewrite Hsign, Hval. simpl. reflexivity.
Qed.

(** [parseInt] of an integer is that integer. *)
Lemma parseInt_VNum (z : Z) : parseInt (VNum z) = Some z.
Proof.
  unfold parseInt, toStr. destruct z as [| p | p].
  - reflexivity.
  - apply parseIntStr_pretty_positive.
  - change (pretty (Z.neg p)) with (String "-"%char (pretty p)).
    pose proof (parseIntStr_pretty_positive p) as Hp.
    unfold pretty, pretty_positive, pretty, pretty_N in *.
    rewrite decide_False in * by done.
    destruct (pretty_N_go_head (N.pos p) "" ltac:(lia)) as (c & r & Heq & Hdig).
    pose proof (digitsValue_pretty_N_go (N.pos p) "" ltac:(lia)) as Hval.
    remember (pretty_N_go (N.pos p) "") as digits eqn:Hdigits.
    unfold parseIntStr.
    change (trimStart (String "-"%char digits)) with (String "-"%char digits).
    cbv iota beta. rewrite Hval. reflexivity.
Qed.

End JsFacts.

(** * Facts about dates *)

Section DateFacts.

(** The year of an era from the day of the era, and the month and day
    from the day of the year (years that start in March). *)
Lemma yoe_of_doe (yoe doy : Z) :
  0 <= yoe < 400 -> 0 <= doy ->
  (doy <= 364 \/
   (doy = 365 /\ (yoe + 1) mod 4 = 0 /\
    ((yoe + 1) mod 100 <> 0 \/ (yoe + 1) mod 400 = 0))) ->
  let doe := yoe * 365 + yoe / 4 - yoe / 100 + doy in
  (doe - doe / 1460 + doe / 36524 - doe / 146096) / 365 = yoe /\ 0 <= doe < 146097.
Proof.
  intros Hy Hd Hlen doe. subst doe. Z.div_mod_to_equations. lia.
Qed.

Lemma md_of_doy (mp d : Z) :
  0 <= mp <= 11 -> 1 <= d <= 31 ->
  (mp = 11 -> d <= 29) -> (mp = 1 \/ mp = 3 \/ mp = 6 \/ mp = 8 -> d <= 30) ->
  let doy := (153 * mp + 2) / 5 + d - 1 in
  (5 * doy + 2) / 153 = mp /\ doy - (153 * mp + 2) / 5 + 1 = d.
Proof.
  intros Hm Hd H1 H2 doy. subst doy. Z.div_mod_to_equations. lia.
Qed.

Lemma isLeapYear_true (y : Z) :
  isLeapYear y = true <-> (y mod 4 = 0 /\ y mod 100 <> 0) \/ y mod 400 = 0.
Proof.
  unfold isLeapYear.
  rewrite orb_true_iff, andb_true_iff, negb_true_iff, !Z.eqb_eq, Z.eqb_neq. tauto.
Qed.

(** The day number of a calendar date leads back to that date. *)
Lemma civil_round_trip (y m d : Z) :
  1 <= m <= 12 -> 1 <= d <= daysInMonth y m ->
  civilFromDays (daysFromCivil y m d) = (y, m, d).
Proof.
  intros Hm Hd.
  unfold daysFromCivil. cbv zeta.
  set (y' := if m <=? 2 then y - 1 else y).
  set (era := y' / 400). set (yoe := y' - era * 400).
  set (mp := (m + 9) mod 12).
  set (q := (153 * mp + 2) / 5).
  set (doy := q + d - 1).
  assert (Hy' : y' = if m <=? 2 then y - 1 else y) by done.
  assert (Hyoe : 0 <= yoe < 400).
  { unfold yoe, era. Z.div_mod_to_equations. lia. }
  assert (Hera : y' = yoe + era * 400) by (unfold yoe; lia).
  assert (Hmp : mp = if m <=? 2 then m + 9 else m - 3).
  { unfold mp. destruct (Z.leb_spec m 2); Z.div_mod_to_equations; lia. }
  assert (Hmpr : 0 <= mp <= 11) by (destruct (Z.leb_spec m 2); lia).
  assert (Hleap : isLeapYear y = true ->
                  (y mod 4 = 0 /\ y mod 100 <> 0) \/ y mod 400 = 0)
    by apply isLeapYear_true.
  assert (Hdim : d <= 31 /\ (m = 2 -> d <= 28 \/ (d = 29 /\ isLeapYear y = true)) /\
                 (m = 4 \/ m = 6 \/ m = 9 \/ m = 11 -> d <= 30)).
  { unfold daysInMonth in Hd.
    destruct (Z.eqb_spec m 2) as [-> | Hne2].
    - destruct (isLeapYear y); split; [lia | split; [| lia] | lia | split; [| lia]];
        intros _; lia.
    - destruct (Z.eqb_spec m 4), (Z.eqb_spec m 6), (Z.eqb_spec m 9), (Z.eqb_spec m 11);
        simpl in Hd; lia. }
  destruct Hdim as (Hd31 & Hfeb & Hd30).
  assert (Hq : q = (153 * mp + 2) / 5) by done.
  assert (Hdoy : doy = q + d - 1) by done.
  clearbody y' era yoe mp q doy.
  assert (Hlen : doy <= 364 \/
            (doy = 365 /\ (yoe + 1) mod 4 = 0 /\
             ((yoe + 1) mod 100 <> 0 \/ (yoe + 1) mod 400 = 0))).
  { destruct (Z.leb_spec m 2) as [Hle | Hgt].
    - destruct (Z.eq_dec m 2) as [-> | Hne].
      + destruct (Hfeb eq_refl) as [H28 | [-> Hl]].
        * left. Z.div_mod_to_equations. lia.
        * right. specialize (Hleap Hl). Z.div_mod_to_equations. lia.
      + left. Z.div_mod_to_equations. lia.
    - left. Z.div_mod_to_equations. lia. }
  destruct (yoe_of_doe yoe doy Hyoe ltac:(Z.div_mod_to_equations; lia) Hlen)
    as [Hyoe' Hdoe].
  assert (Hmd : (5 * doy + 2) / 153 = mp /\ doy - q + 1 = d).
  { subst doy q. apply md_of_doy; destruct (Z.leb_spec m 2); lia. }
  destruct Hmd as [Hmp' Hd'].
  unfold civilFromDays. cbv zeta.
  set (doe := yoe * 365 + yoe / 4 - yoe / 100 + doy) in *.
  replace (era * 146097 + doe - 719468 + 719468) with (doe + era * 146097) by lia.
  rewrite Z_div_plus_full, (Z.div_small doe 146097) by lia.
  replace (doe + era * 146097 - (0 + era) * 146097) with doe by lia.
  rewrite Hyoe'.
  replace (doe - (365 * yoe + yoe / 4 - yoe / 100)) with doy by (unfold doe; lia).
  rewrite Hmp', <- Hq, Hd'.
  assert (Hm' : (if mp <? 10 then mp + 3 else mp - 9) = m).
  { destruct (Z.leb_spec m 2), (Z.ltb_spec mp 10); lia. }
  rewrite Hm'. f_equal. f_equal.
  destruct (Z.leb_spec m 2); lia.
Qed.

(** A calendar date in ISO form is midnight UTC of its day. *)
Lemma newDate_iso (h : Host) (s : string) (y m d : Z) :
  isoDateFields s = Some (y, m, d) ->
  1 <= m <= 12 -> 1 <= d <= daysInMonth y m ->
  s <> "" /\ newDate h s = Some (daysFromCivil y m d * msPerDay).
Proof.
  intros Hfields Hm Hd. split; [by intros -> |].
  unfold newDate. rewrite Hfields.
  rewrite (proj2 (Z.leb_le 1 m)), (proj2 (Z.leb_le m 12)),
          (proj2 (Z.leb_le 1 d)), (proj2 (Z.leb_le d _)) by lia.
  reflexivity.
Qed.

(** The local day of midnight UTC: the same day at or east of UTC, the day
    before west of it. *)
Lemma day_localTime (h : Host) (n : Z) :
  (0 <= LocalTZA h < msPerDay -> day (localTime h (n * msPerDay)) = n) /\
  (- msPerDay <= LocalTZA h < 0 -> day (localTime h (n * msPerDay)) = n - 1).
Proof.
  unfold day, localTime, msPerDay. split; intros Htz; Z.div_mod_to_equations; lia.
Qed.

End DateFacts.

(** * Facts about rows and year keys *)

Section RowFacts.

#[global] Instance yearKey_inj : Inj (=) (=) yearKey.
Proof.
  intros a b Heq. unfold yearKey in Heq. simpl in Heq.
  injection Heq as Heq. by apply (inj pretty).
Qed.

Lemma yearKey_not_fixed (year : nat) :
  yearKey year <> "id" /\ yearKey year <> "grade" /\
  yearKey year <> "rowClass" /\ yearKey year <> "gradeClass".
Proof. unfold yearKey. simpl. repeat split; discriminate. Qed.

(** A loop that assigns [row[f y] = g y] for each [y] of a list. *)
Lemma foldl_insert_other {A : Type} (f : nat -> string) (g : nat -> A)
    (l : list nat) (m : gmap string A) (k : string) :
  (forall y, y ∈ l -> f y <> k) ->
  foldl (fun acc y => <[f y := g y]> acc) m l !! k = m !! k.
Proof.
  revert m. induction l as [| a l IH]; intros m Hk; [done |].
  simpl. rewrite IH.
  - apply lookup_insert_ne. apply Hk. left.
  - intros y Hy. apply Hk. by right.
Qed.

Lemma foldl_insert_at {A : Type} (f : nat -> string) `{!Inj (=) (=) f} (g : nat -> A)
    (l : list nat) (m : gmap string A) (y : nat) :
  y ∈ l ->
  foldl (fun acc y => <[f y := g y]> acc) m l !! f y = Some (g y).
Proof.
  revert m. induction l as [| a l IH]; intros m Hy; [by apply elem_of_nil in Hy |].
  simpl. destruct (decide (y ∈ l)) as [Hin | Hout].
  - by apply IH.
  - apply elem_of_cons in Hy as [-> | Hy]; [| done].
    rewrite foldl_insert_other.
    + apply lookup_insert_eq.
    + intros z Hz Heq. apply (inj f) in Heq. by subst.
Qed.

Lemma get_insert_eq (o : obj) (k : string) (v : value) : get (<[k := v]> o) k = v.
Proof. unfold get. by rewrite lookup_insert_eq. Qed.

Lemma get_insert_ne (o : obj) (k k' : string) (v : value) :
  k <> k' -> get (<[k := v]> o) k' = get o k'.
Proof. intros Hne. unfold get. by rewrite lookup_insert_ne. Qed.

Lemma strictEq_VStr (v : value) (s : string) :
  strictEq v (VStr s) = true <-> v = VStr s.
Proof.
  destruct v; simpl; try (split; [discriminate | discriminate]).
  rewrite bool_decide_eq_true. split; [by intros -> | by intros [= ->]].
Qed.

Lemma elem_of_yearsUpTo (year : nat) (max : option Z) :
  year ∈ yearsUpTo max <->
  exists z, max = Some z /\ (1 <= year)%nat /\ Z.of_nat year <= z.
Proof.
  unfold yearsUpTo. destruct max as [z |].
  - rewrite elem_of_seq. split.
    + intros [H1 H2]. exists z. split; [done | lia].
    + intros (z' & [= <-] & H1 & H2). lia.
  - split; [by intros ?%elem_of_nil | by intros (z & ? & _)].
Qed.

End RowFacts.

(** * Totals and rows of [Part001] *)

Section Part001Rows.
Import Spec.

Lemma calculateTotals_id (rows : list obj) (maxYears : option Z) :
  get (Part001.calculateTotals rows maxYears) "id" = VStr "totals-row".
Proof.
  unfold Part001.calculateTotals, get.
  rewrite (foldl_insert_other yearKey
             (fun year => VNum (Part001.sumYear rows (yearKey year)))).
  - reflexivity.
  - intros y _. apply yearKey_not_fixed.
Qed.

Lemma calculateTotals_year (rows : list obj) (maxYears : option Z) (year : nat) :
  year ∈ yearsUpTo maxYears ->
  get (Part001.calculateTotals rows maxYears) (yearKey year)
  = VNum (Part001.sumYear rows (yearKey year)).
Proof.
  intros Hin. unfold Part001.calculateTotals, get.
  by rewrite (foldl_insert_at yearKey
                (fun year => VNum (Part001.sumYear rows (yearKey year)))).
Qed.

(** On a cell without text the reducer reads the quantity, [null] as 0. *)
Lemma cellNumber_quantityOf (v : value) :
  notText v -> Part001.cellNumber v = quantityOf v.
Proof.
  destruct v as [| | | z | s]; intros Hv; try reflexivity; [| done].
  unfold Part001.cellNumber. simpl. by rewrite parseInt_VNum.
Qed.

Lemma sumYear_from (rows : list obj) (key : string) (a : Z) :
  foldl (fun sum row => sum + Part001.cellNumber (get row key)) a rows
  = a + Part001.sumYear rows key.
Proof.
  unfold Part001.sumYear. revert a.
  induction rows as [| row rows IH]; intros a; simpl; [lia |].
  rewrite IH, (IH (0 + _)). lia.
Qed.

Lemma sumYear_columnSum (rows : list obj) (year : nat) :
  (forall row, row ∈ rows -> notText (get row (yearKey year))) ->
  Part001.sumYear rows (yearKey year) = columnSum rows year.
Proof.
  induction rows as [| row rows IH]; intros Hrows; [done |].
  unfold Part001.sumYear. simpl. rewrite sumYear_from.
  rewrite cellNumber_quantityOf by (apply Hrows; left).
  rewrite IH by (intros r Hr; apply Hrows; by right). lia.
Qed.

(** A grid made of editable rows followed by a totals row. *)
Lemma nonTotalsRows_app (rows : list obj) (totals : obj) :
  Forall (fun row => Part001.notTotals row = true) rows ->
  isTotals totals = true ->
  nonTotalsRows (rows ++ [totals]) = rows.
Proof.
  intros Hrows Ht. unfold nonTotalsRows. rewrite List.filter_app. simpl.
  rewrite Ht. simpl. rewrite app_nil_r.
  induction Hrows as [| row rows Hrow _ IH]; [done |].
  simpl. unfold Part001.notTotals in Hrow. unfold isTotals at 1.
  rewrite Hrow. by rewrite IH.
Qed.

Lemma totalsRow_app (rows : list obj) (totals : obj) :
  Forall (fun row => Part001.notTotals row = true) rows ->
  isTotals totals = true ->
  totalsRow (rows ++ [totals]) = Some totals.
Proof.
  intros Hrows Ht. unfold totalsRow.
  induction Hrows as [| row rows Hrow _ IH]; simpl.
  - by rewrite Ht.
  - unfold Part001.notTotals in Hrow. unfold isTotals at 1.
    apply negb_true_iff in Hrow. by rewrite Hrow.
Qed.

Lemma filter_notTotals_all (rows : list obj) :
  Forall (fun row => Part001.notTotals row = true) (List.filter Part001.notTotals rows).
Proof.
  apply List.Forall_forall. intros row Hin. by apply List.filter_In in Hin as [_ ?].
Qed.

Lemma calculateTotals_isTotals (rows : list obj) (maxYears : option Z) :
  isTotals (Part001.calculateTotals rows maxYears) = true.
Proof. unfold isTotals. by rewrite calculateTotals_id. Qed.

(** Rows as [processLicenseData] builds them. *)
Lemma buildRow_lookup_fixed (dataMap : obj) (maxYears : option Z) (index : nat)
    (grade k : string) :
  (forall year, yearKey year <> k) ->
  Part001.buildRow dataMap maxYears index grade !! k = Part001.newRow index grade !! k.
Proof.
  intros Hk. unfold Part001.buildRow.
  apply (foldl_insert_other yearKey
           (fun year => Part001.cellOfRecord (get dataMap (grade +:+ "_" +:+ pretty year)))).
  intros y _. apply Hk.
Qed.

Lemma buildRow_id (dataMap : obj) (maxYears : option Z) (index : nat) (grade : string) :
  get (Part001.buildRow dataMap maxYears index grade) "id" = VStr ("row-" +:+ pretty index).
Proof.
  unfold get at 1. rewrite buildRow_lookup_fixed; [done |].
  intros y. apply yearKey_not_fixed.
Qed.

Lemma buildRow_grade (dataMap : obj) (maxYears : option Z) (index : nat) (grade : string) :
  get (Part001.buildRow dataMap maxYears index grade) "grade" = VStr grade.
Proof.
  unfold get at 1. rewrite buildRow_lookup_fixed; [done |].
  intros y. apply yearKey_not_fixed.
Qed.

Lemma buildRow_year (dataMap : obj) (maxYears : option Z) (index : nat) (grade : string)
    (year : nat) :
  year ∈ yearsUpTo maxYears ->
  get (Part001.buildRow dataMap maxYears index grade) (yearKey year)
  = Part001.cellOfRecord (get dataMap (grade +:+ "_" +:+ pretty year)).
Proof.
  intros Hin. unfold get at 1. unfold Part001.buildRow.
  by rewrite (foldl_insert_at yearKey
                (fun year => Part001.cellOfRecord (get dataMap (grade +:+ "_" +:+ pretty year)))).
Qed.

Lemma cellOfRecord_notText (v : value) : notText (Part001.cellOfRecord v).
Proof.
  unfold Part001.cellOfRecord.
  destruct (strictEq v VNull || strictEq v VUndef); [done |].
  by destruct (parseInt v).
Qed.

Lemma newRow_year (index : nat) (grade : string) (year : nat) :
  Part001.newRow index grade !! yearKey year = None.
Proof.
  destruct (yearKey_not_fixed year) as (H1 & H2 & H3 & H4).
  unfold Part001.newRow.
  repeat (rewrite lookup_insert_ne by done).
  by apply lookup_singleton_ne.
Qed.

Lemma buildRow_notText (dataMap : obj) (maxYears : option Z) (index : nat) (grade : string)
    (year : nat) :
  notText (get (Part001.buildRow dataMap maxYears index grade) (yearKey year)).
Proof.
  destruct (decide (year ∈ yearsUpTo maxYears)) as [Hin | Hout].
  - rewrite buildRow_year by done. apply cellOfRecord_notText.
  - unfold get at 1. unfold Part001.buildRow.
    rewrite (foldl_insert_other yearKey
               (fun year => Part001.cellOfRecord (get dataMap (grade +:+ "_" +:+ pretty year)))).
    + by rewrite newRow_year.
    + intros y Hy Heq. apply (inj yearKey) in Heq. by subst.
Qed.

Lemma buildRow_notTotals (dataMap : obj) (maxYears : option Z) (index : nat) (grade : string) :
  Part001.notTotals (Part001.buildRow dataMap maxYears index grade) = true.
Proof.
  unfold Part001.notTotals. rewrite buildRow_id. reflexivity.
Qed.

End Part001Rows.

(** * The edit merger of [Part001] *)

Section Part001Edit.
Import Spec.

(** What the loop over the keys of a draft leaves in the copy of the row. *)
Lemma applyDraft_lookup (draft row : obj) (k : string) :
  Part001.applyDraft draft row !! k
  = if decide (k = "id") then row !! k
    else match draft !! k with
         | Some v => Some (Part001.coerceCell v)
         | None => row !! k
         end.
Proof.
  unfold Part001.applyDraft. revert k.
  apply (map_fold_weak_ind
           (fun (r : obj) (m : obj) =>
              forall k, r !! k
                = if decide (k = "id") then row !! k
                  else match m !! k with
                       | Some v => Some (Part001.coerceCell v)
                       | None => row !! k
                       end)).
  - intros k. rewrite lookup_empty. by destruct (decide (k = "id")).
  - intros i x m r Hfresh IH k.
    case_bool_decide as Hi.
    + destruct (decide (i = k)) as [-> | Hne].
      * rewrite !lookup_insert_eq. by rewrite decide_False.
      * rewrite !lookup_insert_ne by done. apply IH.
    + assert (i = "id") as -> by (destruct (decide (i = "id")); [done | by destruct Hi]).
      rewrite IH. destruct (decide (k = "id")) as [-> | Hne]; [done |].
      by rewrite lookup_insert_ne.
Qed.

Lemma applyDraft_id (draft row : obj) :
  get (Part001.applyDraft draft row) "id" = get row "id".
Proof. unfold get. by rewrite applyDraft_lookup. Qed.

Lemma coerceCell_cases (v : value) :
  Part001.coerceCell v = VNull \/ exists z, 0 <= z /\ Part001.coerceCell v = VNum z.
Proof.
  unfold Part001.coerceCell.
  destruct (strictEq v VNull || strictEq v VUndef || strictEq v (VStr "")); [by left |].
  destruct (parseInt v) as [n |]; [| by left].
  right. exists (Z.max 0 n). split; [lia | done].
Qed.

Lemma coerceCell_notText (v : value) : notText (Part001.coerceCell v).
Proof.
  destruct (coerceCell_cases v) as [-> | (z & _ & ->)]; done.
Qed.

Lemma updateRow_id (drafts : list obj) (row : obj) :
  get (Part001.updateRow drafts row) "id" = get row "id".
Proof.
  unfold Part001.updateRow. destruct (List.find _ drafts); [apply applyDraft_id | done].
Qed.

Lemma updateRow_notText (drafts : list obj) (row : obj) (year : nat) :
  notText (get row (yearKey year)) ->
  notText (get (Part001.updateRow drafts row) (yearKey year)).
Proof.
  intros Hrow. unfold Part001.updateRow.
  destruct (List.find _ drafts) as [draft |]; [| done].
  unfold get at 1. rewrite applyDraft_lookup.
  rewrite decide_False by apply yearKey_not_fixed.
  destruct (draft !! yearKey year) as [v |]; [apply coerceCell_notText | done].
Qed.

Lemma updateRow_notTotals (drafts : list obj) (row : obj) :
  Part001.notTotals row = true -> Part001.notTotals (Part001.updateRow drafts row) = true.
Proof. unfold Part001.notTotals. by rewrite updateRow_id. Qed.

Lemma updated_all_notTotals (drafts : list obj) (grid : list obj) :
  Forall (fun row => Part001.notTotals row = true)
         (map (Part001.updateRow drafts) (List.filter Part001.notTotals grid)).
Proof.
  apply Forall_map. eapply Forall_impl; [apply filter_notTotals_all |].
  intros row Hrow. simpl. by apply updateRow_notTotals.
Qed.

(** The grid a processed edit batch publishes. *)
Lemma handleDraftValueChange_grid (h : Host) (drafts : list obj) (st : State) :
  List.filter Part001.notTotals drafts <> [] ->
  gridData (Part001.handleDraftValueChange h drafts st).1
  = map (Part001.updateRow (List.filter Part001.notTotals drafts))
        (List.filter Part001.notTotals (gridData st))
    ++ [Part001.calculateTotals
          (map (Part001.updateRow (List.filter Part001.notTotals drafts))
               (List.filter Part001.notTotals (gridData st)))
          (Part001.editMaxYears (configData st))].
Proof.
  intros Hne. unfold Part001.handleDraftValueChange.
  rewrite bool_decide_eq_false_2; [done |].
  by destruct (List.filter Part001.notTotals drafts).
Qed.

Lemma handleDraftValueChange_empty (h : Host) (drafts : list obj) (st : State) :
  List.filter Part001.notTotals drafts = [] ->
  Part001.handleDraftValueChange h drafts st = (set_draftValues [] st, []).
Proof.
  intros Hnil. unfold Part001.handleDraftValueChange. by rewrite Hnil.
Qed.

Lemma handleDraftValueChange_config (h : Host) (drafts : list obj) (st : State) :
  configData (Part001.handleDraftValueChange h drafts st).1 = configData st.
Proof.
  unfold Part001.handleDraftValueChange. by case_bool_decide.
Qed.

(** The first half of a save leaves the state alone or marks it as
    loading; the flag tells which. *)
Lemma handleSave_start_cases (h : Host) (st : State) :
  ((Part001.handleSave_start h st).2 = false /\ (Part001.handleSave_start h st).1.1 = st) \/
  ((Part001.handleSave_start h st).2 = true /\
   (Part001.handleSave_start h st).1.1 = set_isLoading true st).
Proof.
  unfold Part001.handleSave_start.
  destruct (negb (hasChanges st) || _); [by left |].
  destruct (negb (isValid _)); [by left | by right].
Qed.

(** The second half is its two pieces, one after the other: the [catch]
    and [finally] blocks alone when the persistence call is rejected, and
    both pieces when it went through. *)
Lemma handleSave_settle_pieces (datatable : bool) (outcome : SaveOutcome) (st : State) :
  Part001.handleSave_settle datatable outcome st
  = match outcome with
    | SaveRejected error => Part001.handleSave_finish (Some error) st
    | SaveResolved failure =>
        let saved := Part001.handleSave_saved datatable st in
        let finish := Part001.handleSave_finish failure saved.1 in
        (finish.1, saved.2 ++ finish.2)
    end.
Proof.
  unfold Part001.handleSave_settle, Part001.handleSave_finish, Part001.handleSave_saved.
  destruct outcome as [error | [error |]]; cbn [fst snd]; [done | | by rewrite app_nil_r].
  by rewrite <- !app_assoc.
Qed.

Lemma processLicenseData_config (data : list LicenseRecord) (st : State) :
  configData (Part001.processLicenseData data st) = configData st.
Proof.
  unfold Part001.processLicenseData.
  destruct (configData st) eqn:Hcfg; simpl; congruence.
Qed.

Lemma processLicenseData_records (data : list LicenseRecord) (st : State) :
  originalLicenseData (Part001.processLicenseData data st) = originalLicenseData st.
Proof.
  unfold Part001.processLicenseData. by destruct (configData st).
Qed.

Lemma processLicenseData_grid (data : list LicenseRecord) (st : State) (cfg : Config) :
  configData st = Some cfg ->
  gridData (Part001.processLicenseData data st)
  = imap (Part001.buildRow (buildDataMap data) (lengthOr 7 (F5_Contract_Length__c cfg)))
         gradeLabels
    ++ [Part001.calculateTotals
          (imap (Part001.buildRow (buildDataMap data) (lengthOr 7 (F5_Contract_Length__c cfg)))
                gradeLabels)
          (lengthOr 7 (F5_Contract_Length__c cfg))].
Proof. intros Hcfg. unfold Part001.processLicenseData. by rewrite Hcfg. Qed.

Lemma built_all_notTotals (dataMap : obj) (maxYears : option Z) (grades : list string) :
  Forall (fun row => Part001.notTotals row = true)
         (imap (Part001.buildRow dataMap maxYears) grades).
Proof.
  apply Forall_forall. intros row Hin.
  apply elem_of_lookup_imap in Hin as (i & g & -> & _).
  apply buildRow_notTotals.
Qed.

End Part001Edit.

(** The shape of a published grid: editable rows, then the totals row. *)
Create HintDb grid discriminated.

#[global] Hint Resolve built_all_notTotals updated_all_notTotals
  calculateTotals_isTotals : grid.

Ltac grid_shape := solve [eauto with grid].

(** * The invariants of [Part001] *)

Section Part001Invariant.
Import Spec Props.

(** The year columns are among the years the edit recomputes. *)
Lemma yearColumns_edit (configData : option Config) (year : nat) :
  year ∈ yearColumns configData -> year ∈ yearsUpTo (Part001.editMaxYears configData).
Proof.
  destruct configData as [cfg |]; [| by intros ?%elem_of_nil].
  unfold yearColumns, Part001.editMaxYears, lengthOr.
  destruct (F5_Contract_Length__c cfg) as [| | | z | s] eqn:Hcl; simpl;
    try (by intros ?).
  - rewrite parseInt_VNum. destruct (z =? 0) eqn:Hz; simpl; [| done].
    apply Z.eqb_eq in Hz as ->. done.
  - case_bool_decide as Hs; simpl.
    + subst s. done.
    + destruct (parseInt (VStr s)) as [n |]; [| by intros ?%elem_of_nil].
      destruct (n =? 0) eqn:Hn; [| done].
      apply Z.eqb_eq in Hn as ->. by intros ?%elem_of_nil.
Qed.

Lemma processLicenseData_numeric (data : list LicenseRecord) (st : State) :
  NumericCells (gridData st) -> NumericCells (gridData (Part001.processLicenseData data st)).
Proof.
  intros Hst. destruct (configData st) as [cfg |] eqn:Hcfg.
  - rewrite (processLicenseData_grid data st cfg Hcfg).
    intros row year Hin.
    rewrite nonTotalsRows_app in Hin
      by grid_shape.
    apply elem_of_lookup_imap in Hin as (i & g & -> & _).
    apply buildRow_notText.
  - unfold Part001.processLicenseData. by rewrite Hcfg.
Qed.

Lemma wiredConfig_numeric (result : WireResult Config) (st : State) :
  NumericCells (gridData st) -> NumericCells (gridData (Part001.wiredConfig result st).1).
Proof.
  intros Hst. unfold Part001.wiredConfig.
  destruct (resultData result) as [cfg |].
  - case_bool_decide; cbn [fst]; [apply processLicenseData_numeric |]; exact Hst.
  - by destruct (resultError result).
Qed.

Lemma wiredGetLicenseData_numeric (result : WireResult (list LicenseRecord)) (st : State) :
  NumericCells (gridData st) ->
  NumericCells (gridData (Part001.wiredGetLicenseData result st).1).
Proof.
  intros Hst. unfold Part001.wiredGetLicenseData.
  destruct (resultData result) as [records |].
  - destruct (configData _) eqn:Hcfg; cbn [fst];
      [apply processLicenseData_numeric |]; exact Hst.
  - destruct (resultError result) as [e |]; [by destruct (body e) | done].
Qed.

(** What a save and a cancel leave of the grid, the configuration and the
    stored records: all of them. *)
Lemma keepsGrid_step (h : Host) (input : Input) (st : State) :
  keepsGrid input ->
  gridData (step h input st) = gridData st /\
  configData (step h input st) = configData st /\
  originalLicenseData (step h input st) = originalLicenseData st.
Proof.
  destruct input as [result | result | drafts | | error | datatable | failure | datatable];
    intros Hkeeps; try done; cbn [step].
  by destruct (handleSave_start_cases h st) as [[_ ->] | [_ ->]].
Qed.

Lemma step_numeric (h : Host) (input : Input) (st : State) :
  NumericCells (gridData st) -> NumericCells (gridData (step h input st)).
Proof.
  intros IH.
  destruct input as [result | result | drafts | | error | datatable | failure | datatable];
    try exact IH.
  - by apply wiredConfig_numeric.
  - by apply wiredGetLicenseData_numeric.
  - cbn [step].
    destruct (decide (List.filter Part001.notTotals drafts = [])) as [Hnil | Hne].
    + by rewrite handleDraftValueChange_empty.
    + rewrite handleDraftValueChange_grid by done.
      intros row year Hin.
      rewrite nonTotalsRows_app in Hin
        by grid_shape.
      apply list_elem_of_fmap in Hin as (row0 & -> & Hin0).
      apply updateRow_notText, IH. exact Hin0.
  - by rewrite (proj1 (keepsGrid_step h SavePressed st I)).
Qed.

(** Every reachable grid keeps text out of the year cells of its editable
    rows. *)
Lemma reachable_numeric (h : Host) (admits : Input -> Prop) (awaited : Awaited)
    (st : State) :
  reachable h admits awaited st -> NumericCells (gridData st).
Proof.
  induction 1 as [rid | awaited st input _ IH _ _].
  - intros row year Hin. by apply elem_of_nil in Hin.
  - by apply step_numeric.
Qed.

(** *** Within the exact range *)

Lemma boundedNumber_notText (v : value) : boundedNumber v = true -> notText v.
Proof. by destruct v. Qed.

Lemma boundedNumber_quantityOf (v : value) :
  boundedNumber v = true -> Z.abs (quantityOf v) <= quantityBound.
Proof.
  destruct v as [| | | z | s]; simpl; intros Hv; try done.
  by apply Z.leb_le.
Qed.

Lemma inRange_parseInt (v : value) (z : Z) :
  inRange v = true -> parseInt v = Some z -> Z.abs z <= quantityBound.
Proof. unfold inRange. intros Hv Hz. rewrite Hz in Hv. by apply Z.leb_le. Qed.

(** Nine quantities within [quantityBound] add up within
    [maxSafeInteger]. *)
Lemma columnSum_exact (rows : list obj) (year : nat) :
  ExactRows rows -> Z.abs (columnSum rows year) <= maxSafeInteger.
Proof.
  intros [Hlen Hcells].
  assert (Z.abs (columnSum rows year) <= Z.of_nat (length rows) * quantityBound) as Hsum.
  { clear Hlen. induction rows as [| row rows IH]; [done |].
    pose proof (boundedNumber_quantityOf _ (Hcells row year ltac:(left))) as Hrow.
    specialize (IH (fun r y Hr => Hcells r y ltac:(by right))).
    change (columnSum (row :: rows) year)
      with (quantityOf (get row (yearKey year)) + columnSum rows year).
    cbn [length]. unfold quantityBound in *. lia. }
  simpl in Hlen. unfold quantityBound, maxSafeInteger in *. lia.
Qed.

Lemma cellOfRecord_bounded (v : value) :
  inRange v = true -> boundedNumber (Part001.cellOfRecord v) = true.
Proof.
  intros Hv. unfold Part001.cellOfRecord.
  destruct (strictEq v VNull || strictEq v VUndef); [done |].
  destruct (parseInt v) as [z |] eqn:Hz; [| done].
  simpl. apply Z.leb_le. by apply (inRange_parseInt v).
Qed.

Lemma buildDataMap_inRange (data : list LicenseRecord) (k : string) :
  Forall (fun record => recordInRange record = true) data ->
  inRange (get (buildDataMap data) k) = true.
Proof.
  intros Hdata. unfold buildDataMap.
  assert (Hgen : forall m : obj, inRange (get m k) = true ->
            inRange (get (foldl (fun dataMap record =>
                                   <[recordKey record := License_Quantity__c record]> dataMap)
                                m data) k) = true).
  { induction Hdata as [| r data Hr _ IH]; intros m Hm; [done |].
    simpl. apply IH. destruct (decide (recordKey r = k)) as [<- | Hne].
    - rewrite get_insert_eq. unfold recordInRange in Hr.
      by apply andb_true_iff in Hr as [_ Hr].
    - by rewrite get_insert_ne. }
  apply Hgen. unfold get. by rewrite lookup_empty.
Qed.

Lemma buildRow_bounded (dataMap : obj) (maxYears : option Z) (index : nat) (grade : string)
    (year : nat) :
  (forall k, inRange (get dataMap k) = true) ->
  boundedNumber (get (Part001.buildRow dataMap maxYears index grade) (yearKey year)) = true.
Proof.
  intros Hmap. destruct (decide (year ∈ yearsUpTo maxYears)) as [Hin | Hout].
  - rewrite buildRow_year by done. by apply cellOfRecord_bounded.
  - unfold get at 1. unfold Part001.buildRow.
    rewrite (foldl_insert_other yearKey
               (fun year => Part001.cellOfRecord (get dataMap (grade +:+ "_" +:+ pretty year)))).
    + by rewrite newRow_year.
    + intros y Hy Heq. apply (inj yearKey) in Heq. by subst.
Qed.

Lemma coerceCell_bounded (v : value) :
  inRange v = true -> boundedNumber (Part001.coerceCell v) = true.
Proof.
  intros Hv. unfold Part001.coerceCell.
  destruct (strictEq v VNull || strictEq v VUndef || strictEq v (VStr "")); [done |].
  destruct (parseInt v) as [z |] eqn:Hz; [| done].
  pose proof (inRange_parseInt v z Hv Hz) as Hbound.
  simpl. apply Z.leb_le. unfold quantityBound in *. lia.
Qed.

Lemma updateRow_bounded (drafts : list obj) (row : obj) (year : nat) :
  Forall draftInRange drafts ->
  boundedNumber (get row (yearKey year)) = true ->
  boundedNumber (get (Part001.updateRow drafts row) (yearKey year)) = true.
Proof.
  intros Hdrafts Hrow. unfold Part001.updateRow.
  destruct (List.find _ drafts) as [draft |] eqn:Hfind; [| done].
  apply List.find_some in Hfind as [Hin _].
  apply list_elem_of_In in Hin.
  pose proof (proj1 (Forall_forall _ _) Hdrafts draft Hin) as Hdraft.
  unfold get at 1. rewrite applyDraft_lookup.
  rewrite decide_False by apply yearKey_not_fixed.
  destruct (draft !! yearKey year) as [v |] eqn:Hv; [| done].
  apply coerceCell_bounded. by apply (Hdraft (yearKey year)).
Qed.

Lemma processLicenseData_exact (data : list LicenseRecord) (st : State) :
  Forall (fun record => recordInRange record = true) data ->
  ExactRows (nonTotalsRows (gridData st)) ->
  ExactRows (nonTotalsRows (gridData (Part001.processLicenseData data st))).
Proof.
  intros Hdata Hst. destruct (configData st) as [cfg |] eqn:Hcfg.
  - rewrite (processLicenseData_grid data st cfg Hcfg).
    rewrite nonTotalsRows_app by grid_shape.
    split; [by rewrite length_imap |].
    intros row year Hin.
    apply elem_of_lookup_imap in Hin as (i & g & -> & _).
    apply buildRow_bounded. intros k. by apply buildDataMap_inRange.
  - unfold Part001.processLicenseData. by rewrite Hcfg.
Qed.

(** With inputs within range, the stored records stay within range and the
    editable rows are nine at most, with year cells that hold nothing or an
    integer within [quantityBound]. *)
Lemma step_exact (h : Host) (input : Input) (st : State) :
  inRangeInput input -> ExactState st -> ExactState (step h input st).
Proof.
  intros Hinput [Hrecords Hrows].
  destruct input as [result | result | drafts | | error | datatable | failure | datatable];
    try done.
  - cbn [step]. unfold Part001.wiredConfig.
    destruct (resultData result) as [cfg |].
    + case_bool_decide; cbn [fst].
      * split; [by rewrite processLicenseData_records | by apply processLicenseData_exact].
      * by split.
    + by destruct (resultError result).
  - cbn [step]. unfold Part001.wiredGetLicenseData.
    destruct (resultData result) as [records |] eqn:Hdata.
    + pose proof (Hinput records Hdata) as Hnew.
      destruct (configData _) eqn:Hcfg; cbn [fst].
      * split; [by rewrite processLicenseData_records | by apply processLicenseData_exact].
      * by split.
    + destruct (resultError result) as [e |]; [by destruct (body e) | done].
  - cbn [step]. cbn [inRangeInput] in Hinput.
    destruct (decide (List.filter Part001.notTotals drafts = [])) as [Hnil | Hne].
    + by rewrite handleDraftValueChange_empty.
    + split.
      * unfold Part001.handleDraftValueChange.
        rewrite bool_decide_eq_false_2; [done |].
        by destruct (List.filter Part001.notTotals drafts).
      * rewrite handleDraftValueChange_grid by done.
        rewrite nonTotalsRows_app by grid_shape.
        destruct Hrows as [Hlen Hcells].
        split; [by rewrite length_map |].
        intros row year Hin.
        apply list_elem_of_fmap in Hin as (row0 & -> & Hin0).
        apply updateRow_bounded; [| by apply Hcells].
        apply Forall_forall. intros draft Hdraft.
        apply list_elem_of_In, List.filter_In in Hdraft as [Hdraft _].
        apply list_elem_of_In in Hdraft.
        by apply (proj1 (Forall_forall _ _) Hinput).
  - destruct (keepsGrid_step h SavePressed st I) as (Hg & _ & Ho).
    unfold ExactState. by rewrite Hg, Ho.
Qed.

Lemma reachable_exact (h : Host) (awaited : Awaited) (st : State) :
  reachable h inRangeInput awaited st -> ExactState st.
Proof.
  induction 1 as [rid | awaited st input _ IH Hinput _].
  - split; [done |]. split; [simpl; lia |].
    intros row year Hin. by apply elem_of_nil in Hin.
  - by apply step_exact.
Qed.

(** Fewer inputs reach fewer states. *)
Lemma reachable_mono (h : Host) (admits admits' : Input -> Prop) (awaited : Awaited)
    (st : State) :
  (forall input, admits input -> admits' input) ->
  reachable h admits awaited st -> reachable h admits' awaited st.
Proof.
  intros Hsub. induction 1 as [rid | awaited st input _ IH Hinput Hpossible].
  - apply reachable_init.
  - apply reachable_step; auto.
Qed.

Lemma published_reachable (h : Host) (admits : Input -> Prop) (awaited : Awaited)
    (st : State) :
  published h admits awaited st -> reachable h admits awaited st.
Proof.
  induction 1 as [awaited st input Hst Hinput Hpossible _
                 | awaited st input _ IH Hinput Hpossible _];
    by apply reachable_step.
Qed.

(** The grid right after a build satisfies the invariant of the totals
    row. *)
Lemma processLicenseData_totals (data : list LicenseRecord) (st : State) (cfg : Config) :
  configData st = Some cfg ->
  TotalsInvariant (configData (Part001.processLicenseData data st))
                  (gridData (Part001.processLicenseData data st)).
Proof.
  intros Hcfg.
  rewrite processLicenseData_config, (processLicenseData_grid data st cfg Hcfg), Hcfg.
  set (rows := imap _ gradeLabels).
  exists (Part001.calculateTotals rows (lengthOr 7 (F5_Contract_Length__c cfg))).
  split; [apply totalsRow_app; grid_shape |].
  intros year Hyear. simpl in Hyear.
  rewrite nonTotalsRows_app
    by grid_shape.
  rewrite calculateTotals_year by done. f_equal.
  apply sumYear_columnSum. intros row Hrow.
  apply elem_of_lookup_imap in Hrow as (i & g & -> & _).
  apply buildRow_notText.
Qed.

(** The scenario's states, and the one with a ceiling of 0, are reached
    with inputs within range. *)
Lemma scenario_drafts_inRange (raw : string) :
  inRange (VStr raw) = true -> Forall draftInRange (Scenario.editK1 (VStr raw)).
Proof.
  intros Hraw. apply Forall_cons_2; [| apply Forall_nil_2].
  intros k v Hk. unfold Scenario.editK1 in Hk.
  apply lookup_insert_Some in Hk as [[_ <-] | [_ Hk]]; [done |].
  apply lookup_singleton_Some in Hk as [_ <-]. exact Hraw.
Qed.

Lemma scenario_loaded_reachable (cfg : Config) :
  configInRange cfg = true ->
  reachable Scenario.hostUtc inRangeInput noneAwaited
    (Part001.wiredGetLicenseData (Scenario.gotRecords Scenario.records)
       (Part001.wiredConfig (Scenario.gotConfig cfg)
          (initialState (VStr "a0B000000000001"))).1).1.
Proof.
  intros Hcfg.
  apply (reachable_step _ _ noneAwaited _ (RecordsArrive (Scenario.gotRecords Scenario.records)));
    [| | exact I].
  - apply (reachable_step _ _ noneAwaited _ (ConfigArrives (Scenario.gotConfig cfg))); [| | exact I].
    + apply reachable_init.
    + intros cfg' [= <-]. exact Hcfg.
  - intros records [= <-]. by repeat (apply Forall_cons_2; [reflexivity |]).
Qed.

Lemma scenario_edited_reachable :
  reachable Scenario.hostUtc inRangeInput noneAwaited Scenario.edited.
Proof.
  apply (reachable_step _ _ noneAwaited Scenario.loaded (Edit (Scenario.editK1 (VStr "70"))));
    [| | exact I].
  - by apply (scenario_loaded_reachable Scenario.config).
  - by apply scenario_drafts_inRange.
Qed.

Lemma scenario_editedZero_reachable :
  reachable Scenario.hostUtc inRangeInput noneAwaited Scenario.editedZero.
Proof.
  apply (reachable_step _ _ noneAwaited _ (Edit (Scenario.editK1 (VStr "70")))); [| | exact I].
  - by apply (scenario_loaded_reachable Scenario.configZero).
  - by apply scenario_drafts_inRange.
Qed.

End Part001Invariant.

(** * Claims *)

Section Claims.
Import Spec.

(** The totals of year 1 in the scenario: 90 when loaded, 120 after the
    edit. *)
Example scenario_totals :
  (fun row => get row "year1") <$> gridData Scenario.loaded !! 9%nat = Some (VNum 90) /\
  (fun row => get row "year1") <$> gridData Scenario.edited !! 9%nat = Some (VNum 120).
Proof. vm_compute. split; reflexivity. Qed.

Lemma LwcGrid_getYearLabel_Some (h : Host) (configData : option Config) (year : nat) :
  is_Some (LwcGrid.columns h configData) -> is_Some (LwcGrid.getYearLabel h configData year).
Proof.
  intros [cols Hcols]. unfold LwcGrid.getYearLabel. rewrite Hcols.
  cbn [mbind option_bind]. by destruct (cols !! year).
Qed.

(** The older validator returns as soon as the column labels can be
    computed. *)
Lemma LwcGrid_validateTotals_Some (h : Host) (configData : option Config) (rows : list obj) :
  is_Some (LwcGrid.columns h configData) ->
  is_Some (LwcGrid.validateTotals h configData rows).
Proof.
  intros Hcols. unfold LwcGrid.validateTotals.
  destruct (LwcGrid.maxLicenseOf configData) as [maxLicense |]; [| by eexists].
  cbv zeta. generalize (yearsUpTo (configYears 5 configData)). intros years.
  assert (forall acc : list string,
            is_Some (foldl (fun acc year =>
                              errors ← acc;
                              let total := LwcGrid.sumYear rows (yearKey year) in
                              if LwcGrid.exceeds h total maxLicense then
                                yearLabel ← LwcGrid.getYearLabel h configData year;
                                Some (errors ++ [LwcGrid.limitMessage yearLabel total maxLicense])
                              else Some errors)
                           (Some acc) years)) as Hfold.
  { induction years as [| year years IH]; intros acc; [by eexists |].
    cbn [foldl mbind option_bind]. cbv zeta.
    destruct (LwcGrid.exceeds h _ maxLicense); [| apply IH].
    destruct (LwcGrid_getYearLabel_Some h configData year Hcols) as [l ->].
    cbn [mbind option_bind]. apply IH. }
  cbv zeta in Hfold. destruct (Hfold []) as [errors ->]. by eexists.
Qed.

(** The grid that a processed edit batch of the older handler publishes. *)
Lemma LwcGrid_handleDraftValueChange_grid (h : Host) (drafts : list obj) (st : State) :
  List.filter LwcGrid.notTotals drafts <> [] ->
  is_Some (LwcGrid.columns h (configData st)) ->
  let merged := (foldl LwcGrid.mergeDraft
                   (List.filter LwcGrid.notTotals (gridData st), pendingChanges st)
                   (List.filter LwcGrid.notTotals drafts)).1 in
  gridData (LwcGrid.handleDraftValueChange h drafts st).1
  = merged ++ [LwcGrid.calculateTotals merged (configYears 5 (configData st))] /\
  configData (LwcGrid.handleDraftValueChange h drafts st).1 = configData st.
Proof.
  intros Hne Hcols merged. subst merged.
  unfold LwcGrid.handleDraftValueChange.
  rewrite bool_decide_eq_false_2 by by destruct (List.filter LwcGrid.notTotals drafts).
  cbn [gridData pendingChanges configData set_hasChanges set_draftValues].
  destruct (foldl LwcGrid.mergeDraft _ _) as [rows pending].
  destruct (LwcGrid_validateTotals_Some h (configData st) rows Hcols) as [validation ->].
  done.
Qed.

(** C1. The invariant of the totals row fails in the second component of
    [licenseQuantityGrid.js], on the scenario of the specification.  The
    edit of K / year 1 to ["70"] is merged into the row as the text it is,
    and [calculateTotals] adds with [+]: from the text on the sum is a
    concatenation, and the totals row shows ["070500000000"] for year 1
    where the rows hold 70 and 50.  This is so whatever the runtime
    answers when the validator compares that text with the ceiling. *)
Theorem lwc_text_edit_breaks_the_totals (h : Host) :
  let grid := gridData (Cases.lwcEdited h) in
  (fun row => get row "year1") <$> grid !! 0%nat = Some (VStr "70") /\
  (fun row => get row "year1") <$> grid !! 1%nat = Some (VNum 50) /\
  (fun row => get row "year1") <$> totalsRow grid = Some (VStr "070500000000") /\
  ~ TotalsInvariant (configData (Cases.lwcEdited h)) grid.
Proof.
  destruct (LwcGrid_handleDraftValueChange_grid h (Scenario.editK1 (VStr "70"))
              (LwcGrid.processLicenseData Scenario.records Scenario.start))
    as [Hgrid Hconfig].
  { vm_compute. discriminate. }
  { vm_compute. eauto. }
  cbv zeta in Hgrid. cbv zeta. unfold Cases.lwcEdited. rewrite Hgrid, Hconfig.
  clear Hgrid Hconfig.
  match goal with
  | |- _ /\ _ /\ ?T /\ _ => assert T as Htext by (vm_compute; reflexivity)
  end.
  split; [vm_compute; reflexivity |]. split; [vm_compute; reflexivity |].
  split; [exact Htext |].
  intros (totals & Htotals & Hsum).
  specialize (Hsum 1%nat ltac:(by left)).
  rewrite Htotals in Htext. injection Htext as Htext.
  change (yearKey 1) with "year1" in Hsum.
  rewrite Hsum in Htext. discriminate.
Qed.

(** X30. In [Part001], with records, configurations and draft values
    within the range in which the runtime's numbers are exact, every grid
    the component publishes (after a build from records and configuration,
    after every processed edit batch, and through the saves and cancels
    that follow, whatever is in flight) has a totals row that holds, for
    each year column 1..N, the sum of the other rows' values for that year
    with [null] as 0; and each of these sums is within
    [maxSafeInteger]. *)
Theorem totals_row_is_column_sum (h : Host) (awaited : Awaited) (st : State) :
  published h inRangeInput awaited st ->
  TotalsInvariant (configData st) (gridData st) /\
  forall year, Z.abs (columnSum (nonTotalsRows (gridData st)) year) <= maxSafeInteger.
Proof.
  intros Hpublished. split.
  - induction Hpublished as [awaited st input Hst Hinput _ Hpublishes
                            | awaited st input _ IH _ _ Hkeeps].
    + destruct input as [result | result | drafts | | error | datatable | failure
                        | datatable];
        try done; cbn [step publishes] in *.
      * destruct Hpublishes as [[cfg Hcfg] Hrecords].
        unfold Part001.wiredConfig. rewrite Hcfg.
        rewrite bool_decide_eq_true_2.
        -- cbn [fst]. by apply (processLicenseData_totals _ _ cfg).
        -- cbn [originalLicenseData set_configData].
           destruct (originalLicenseData st); [done | simpl; lia].
      * destruct Hpublishes as [[records Hrecords] [cfg Hcfg] ].
        unfold Part001.wiredGetLicenseData. rewrite Hrecords.
        cbn [configData set_originalLicenseData]. rewrite Hcfg. cbn [fst].
        by apply (processLicenseData_totals records _ cfg).
      * rewrite handleDraftValueChange_config, handleDraftValueChange_grid by done.
        set (rows := map _ (List.filter Part001.notTotals (gridData st))).
        exists (Part001.calculateTotals rows (Part001.editMaxYears (configData st))).
        split; [apply totalsRow_app; grid_shape |].
        intros year Hyear.
        rewrite nonTotalsRows_app
          by grid_shape.
        rewrite calculateTotals_year by by apply yearColumns_edit. f_equal.
        apply sumYear_columnSum. intros row Hrow.
        apply list_elem_of_fmap in Hrow as (row0 & -> & Hrow0).
        apply updateRow_notText.
        by apply (reachable_numeric h inRangeInput awaited st Hst).
    + by destruct (keepsGrid_step h input st Hkeeps) as (-> & -> & _).
  - intros year. apply columnSum_exact.
    by destruct (reachable_exact h awaited st (published_reachable _ _ _ _ Hpublished)).
Qed.

(** The scenario's grid after the edit of K / year 1 to "70". *)
Lemma totals_row_is_column_sum_witness :
  published Scenario.hostUtc inRangeInput noneAwaited Scenario.edited /\
  TotalsInvariant (configData Scenario.edited) (gridData Scenario.edited).
Proof.
  assert (Hpub : published Scenario.hostUtc inRangeInput noneAwaited Scenario.edited).
  { apply (published_new _ _ noneAwaited Scenario.loaded (Edit (Scenario.editK1 (VStr "70"))));
      [| | exact I | vm_compute; discriminate].
    - by apply (scenario_loaded_reachable Scenario.config).
    - by apply scenario_drafts_inRange. }
  split; [exact Hpub |].
  exact (proj1 (totals_row_is_column_sum Scenario.hostUtc noneAwaited Scenario.edited
                  Hpub)).
Defined.

Lemma calculateTotals_grade (rows : list obj) (maxYears : option Z) :
  get (Part001.calculateTotals rows maxYears) "grade" = VStr "Total".
Proof.
  unfold Part001.calculateTotals, get.
  rewrite (foldl_insert_other yearKey
             (fun year => VNum (Part001.sumYear rows (yearKey year)))).
  - reflexivity.
  - intros y _. apply yearKey_not_fixed.
Qed.

(** C7. Building the grid is a function of the configuration and the
    records: the rows come in the fixed order K, 1..8 with the totals row
    last, building again changes nothing, and the grid does not depend on
    the state the build starts from. *)
Theorem build_is_ordered_and_idempotent (data : list LicenseRecord) (st : State) (cfg : Config) :
  configData st = Some cfg ->
  let built := Part001.processLicenseData data st in
  map (fun row => get row "grade") (gridData built)
    = map VStr ["K"; "1"; "2"; "3"; "4"; "5"; "6"; "7"; "8"; "Total"] /\
  map (fun row => get row "id") (gridData built)
    = map VStr ["row-0"; "row-1"; "row-2"; "row-3"; "row-4"; "row-5"; "row-6";
                "row-7"; "row-8"; "totals-row"] /\
  Part001.processLicenseData data built = built /\
  forall st', configData st' = Some cfg ->
    gridData (Part001.processLicenseData data st') = gridData built.
Proof.
  intros Hcfg built. subst built.
  repeat split.
  - rewrite (processLicenseData_grid data st cfg Hcfg).
    rewrite map_app. unfold gradeLabels. cbn [imap map app compose].
    by rewrite !buildRow_grade, calculateTotals_grade.
  - rewrite (processLicenseData_grid data st cfg Hcfg).
    rewrite map_app. unfold gradeLabels. cbn [imap map app compose].
    by rewrite !buildRow_id, calculateTotals_id.
  - unfold Part001.processLicenseData at 1.
    rewrite processLicenseData_config, Hcfg.
    unfold Part001.processLicenseData. rewrite Hcfg. reflexivity.
  - intros st' Hcfg'.
    by rewrite (processLicenseData_grid data st' cfg Hcfg'),
               (processLicenseData_grid data st cfg Hcfg).
Qed.

Lemma build_is_ordered_and_idempotent_witness :
  configData Scenario.start = Some Scenario.config /\
  Part001.processLicenseData Scenario.records Scenario.loaded = Scenario.loaded.
Proof.
  split; [reflexivity |].
  exact (proj1 (proj2 (proj2
    (build_is_ordered_and_idempotent Scenario.records
       (set_originalLicenseData Scenario.records Scenario.start) Scenario.config
       eq_refl)))).
Defined.

(** C5. Saving with nothing pending only shows the notice "No changes to
    save." and leaves the state as it is; saving while the validation of
    the grid fails only shows an error notice: no call to the persistence
    layer is made and the state, with its pending changes and its grid, is
    the one before. *)
Theorem save_is_guarded (h : Host) (datatable : bool) (outcome : SaveOutcome) (st : State) :
  (hasChanges st = false \/ size (pendingChanges st) = 0%nat ->
   Part001.handleSave h datatable outcome st
   = (st, [ShowToast "Info" "No changes to save." "info"])) /\
  (hasChanges st = true -> size (pendingChanges st) <> 0%nat ->
   isValid (Part001.validateTotals h (configData st)
              (List.filter Part001.notTotals (gridData st))) = false ->
   Part001.handleSave h datatable outcome st
   = (st, [ShowToast "Error"
             ("Cannot save due to validation errors:" +:+ nl
              +:+ join nl (errors (Part001.validateTotals h (configData st)
                                     (List.filter Part001.notTotals (gridData st)))))
             "error"])).
Proof.
  unfold Part001.handleSave. split.
  - intros [Hclean | Hempty].
    + by rewrite Hclean.
    + rewrite (bool_decide_eq_true_2 _ Hempty). by rewrite orb_true_r.
  - intros Hdirty Hpending Hinvalid.
    rewrite Hdirty, (bool_decide_eq_false_2 _ Hpending), Hinvalid. reflexivity.
Qed.

Lemma save_is_guarded_witness :
  Part001.handleSave Scenario.hostUtc true (SaveResolved None) Scenario.loaded
  = (Scenario.loaded, [ShowToast "Info" "No changes to save." "info"]) /\
  (Part001.handleSave Scenario.hostUtc true (SaveResolved None) Scenario.edited).1
  = Scenario.edited.
Proof.
  split.
  - apply (proj1 (save_is_guarded Scenario.hostUtc true (SaveResolved None) Scenario.loaded)).
    left. reflexivity.
  - rewrite (proj2 (save_is_guarded Scenario.hostUtc true (SaveResolved None) Scenario.edited));
      [reflexivity | reflexivity | vm_compute; discriminate | reflexivity].
Defined.

(** C4. When the persistence call of a save fails, the pending changes, the
    edit buffer, the dirty flag and the grid are what they were before the
    save, and the one notice shown is an error whose message carries the
    reason of the failure: the structured detail when there is one, else the
    plain message when there is one, else (an error with neither, or no
    error value at all) the generic text. *)
Theorem failed_save_keeps_work (h : Host) (datatable : bool) (error : option ErrorObj)
    (st : State) :
  hasChanges st = true -> size (pendingChanges st) <> 0%nat ->
  isValid (Part001.validateTotals h (configData st)
             (List.filter Part001.notTotals (gridData st))) = true ->
  let after := Part001.handleSave h datatable (SaveRejected error) st in
  (pendingChanges after.1 = pendingChanges st /\
   draftValues after.1 = draftValues st /\
   hasChanges after.1 = true /\
   gridData after.1 = gridData st /\
   isLoading after.1 = false) /\
  after.2 = [SaveLicenseData (recordId st) (map_to_list (pendingChanges st)).*2;
             ShowToast "Error"
               ("Failed to save changes: " +:+ toStr (saveErrorMessage error)) "error"] /\
  (forall e detail, error = Some e -> body e = Some detail -> truthy detail = true ->
     saveErrorMessage error = detail) /\
  (forall e, error = Some e ->
     (body e = None \/ exists detail, body e = Some detail /\ truthy detail = false) ->
     truthy (message e) = true -> saveErrorMessage error = message e) /\
  (forall e, error = Some e ->
     (body e = None \/ exists detail, body e = Some detail /\ truthy detail = false) ->
     truthy (message e) = false ->
     saveErrorMessage error = VStr "An unknown error occurred.") /\
  (error = None -> saveErrorMessage error = VStr "An unknown error occurred.").
Proof.
  intros Hdirty Hpending Hvalid after. subst after.
  unfold Part001.handleSave.
  rewrite Hdirty, (bool_decide_eq_false_2 _ Hpending), Hvalid. simpl.
  repeat split; try done.
  - intros e detail -> Hbody Htruthy. simpl. by rewrite Hbody, Htruthy.
  - intros e -> [Hbody | (detail & Hbody & Hfalsy)] Hmsg; simpl; rewrite Hbody.
    + by rewrite Hmsg.
    + by rewrite Hfalsy, Hmsg.
  - intros e -> [Hbody | (detail & Hbody & Hfalsy)] Hmsg; simpl; rewrite Hbody.
    + by rewrite Hmsg.
    + by rewrite Hfalsy, Hmsg.
  - by intros ->.
Qed.

Lemma failed_save_keeps_work_witness :
  pendingChanges
    (Part001.handleSave Scenario.hostUtc true (SaveRejected Scenario.rejection)
       Scenario.editedWithin).1
  = pendingChanges Scenario.editedWithin.
Proof.
  refine (proj1 (proj1 (failed_save_keeps_work Scenario.hostUtc true Scenario.rejection
                          Scenario.editedWithin _ _ _))).
  - reflexivity.
  - vm_compute. discriminate.
  - reflexivity.
Defined.

(** C10. A configured ceiling of exactly 0 switches the validator off: it
    answers valid with no message for every grid, in [Part001] and in
    [LwcGrid], so a save with pending changes goes on to the persistence
    call whatever the totals are. *)
Theorem zero_ceiling_disables_validation (h : Host) (cfg : Config) :
  F5_Maximum_License__c cfg = VNum 0 ->
  (forall rows, Part001.validateTotals h (Some cfg) rows = {| isValid := true; errors := [] |}) /\
  (forall rows, LwcGrid.validateTotals h (Some cfg) rows
                = Some {| isValid := true; errors := [] |}) /\
  (forall datatable outcome st,
     configData st = Some cfg -> hasChanges st = true -> size (pendingChanges st) <> 0%nat ->
     exists rest,
       (Part001.handleSave h datatable outcome st).2
       = SaveLicenseData (recordId st) (map_to_list (pendingChanges st)).*2 :: rest).
Proof.
  intros Hzero.
  assert (Hvalid : forall rows,
             Part001.validateTotals h (Some cfg) rows = {| isValid := true; errors := [] |}).
  { intros rows. unfold Part001.validateTotals. by rewrite Hzero. }
  split; [exact Hvalid |]. split.
  - intros rows. unfold LwcGrid.validateTotals, LwcGrid.maxLicenseOf. by rewrite Hzero.
  - intros datatable outcome st Hcfg Hdirty Hpending.
    unfold Part001.handleSave.
    rewrite Hdirty, (bool_decide_eq_false_2 _ Hpending), Hcfg, Hvalid. simpl.
    destruct outcome as [e | [e |]]; simpl; eauto.
Qed.

Lemma zero_ceiling_disables_validation_witness :
  isValid (Part001.validateTotals Scenario.hostUtc (Some Scenario.configZero)
             (List.filter Part001.notTotals (gridData Scenario.editedZero))) = true.
Proof.
  rewrite (proj1 (zero_ceiling_disables_validation Scenario.hostUtc Scenario.configZero
                    eq_refl)).
  reflexivity.
Defined.

(** The loop that collects the messages is a filter followed by a map. *)
Lemma foldl_messages (exceeds exceeds' : nat -> bool) (text text' : nat -> string)
    (years : list nat) (acc : list string) :
  (forall year, year ∈ years -> exceeds year = exceeds' year /\ text year = text' year) ->
  foldl (fun errors year => if exceeds year then errors ++ [text year] else errors) acc years
  = acc ++ map text' (List.filter exceeds' years).
Proof.
  revert acc. induction years as [| y years IH]; intros acc Hext; simpl.
  - by rewrite app_nil_r.
  - destruct (Hext y ltac:(left)) as [He Ht].
    rewrite IH by (intros z Hz; apply Hext; by right).
    rewrite <- He. destruct (exceeds y); simpl; [| done].
    by rewrite <- Ht, <- app_assoc.
Qed.

(** Within the year columns [getYearLabel] reads the label of the column. *)
Lemma getYearLabel_column (h : Host) (cfg : Config) (year : nat) :
  year ∈ yearsUpTo (lengthOr 7 (F5_Contract_Length__c cfg)) ->
  Part001.columns h (Some cfg) !! year = Some (Part001.yearColumn h cfg year) /\
  Part001.getYearLabel h (Some cfg) year = Part001.dateLabel h cfg year.
Proof.
  intros Hin.
  assert (Hcol : Part001.columns h (Some cfg) !! year = Some (Part001.yearColumn h cfg year)).
  { unfold Part001.columns.
    destruct (lengthOr 7 (F5_Contract_Length__c cfg)) as [n |]; simpl in *;
      [| by apply elem_of_nil in Hin].
    apply elem_of_seq in Hin as [Hlo Hhi].
    destruct year as [| y]; [lia |]. simpl.
    rewrite list_lookup_fmap, lookup_seq_lt by lia. reflexivity. }
  split; [exact Hcol |].
  unfold Part001.getYearLabel. by rewrite Hcol.
Qed.

(** *** What a message names *)

Lemma occursIn_unfold (part s : string) :
  occursIn part s
  = match stripPrefix part s with
    | Some _ => true
    | None =>
        match s with
        | EmptyString => false
        | String _ rest => occursIn part rest
        end
    end.
Proof. by destruct s. Qed.

Lemma stripPrefix_app (p s : string) : stripPrefix p (p +:+ s) = Some s.
Proof.
  induction p as [| a p IH]; [by destruct s |].
  change (String a p +:+ s) with (String a (p +:+ s)). simpl.
  by rewrite bool_decide_eq_true_2.
Qed.

Lemma occursIn_here (part s : string) : occursIn part (part +:+ s) = true.
Proof. by rewrite occursIn_unfold, stripPrefix_app. Qed.

Lemma occursIn_later (part before s : string) :
  occursIn part s = true -> occursIn part (before +:+ s) = true.
Proof.
  intros Hs. induction before as [| a before IH]; [done |].
  change (String a before +:+ s) with (String a (before +:+ s)).
  rewrite occursIn_unfold. by destruct (stripPrefix part _).
Qed.

(** The message of [Part001] names the label, the sum and the ceiling. *)
Lemma limitMessage_names (yearLabel : value) (total ceiling : Z) :
  names (Part001.limitMessage yearLabel total (Some ceiling)) yearLabel total ceiling.
Proof.
  unfold names, Part001.limitMessage. cbn [ofNum toStr].
  split; [apply occursIn_here |].
  split; repeat (apply occursIn_here || apply occursIn_later).
Qed.

(** The column that shows a year carries the label computed for it. *)
Lemma displayLabel_column (h : Host) (cfg : Config) (year : nat) :
  year ∈ yearsUpTo (lengthOr 7 (F5_Contract_Length__c cfg)) ->
  displayLabel (Part001.columns h (Some cfg)) year = Part001.dateLabel h cfg year.
Proof.
  intros Hin. unfold displayLabel, Part001.columns.
  generalize dependent (yearsUpTo (lengthOr 7 (F5_Contract_Length__c cfg))).
  intros years Hin. cbn [List.find Part001.zeroColumn fieldName].
  rewrite bool_decide_eq_false_2
    by (intros Heq; by destruct (yearKey_not_fixed year) as (_ & Hgrade & _)).
  induction years as [| y years IH]; [by apply elem_of_nil in Hin |].
  cbn [map List.find Part001.yearColumn fieldName].
  destruct (decide (y = year)) as [-> | Hne].
  - by rewrite bool_decide_eq_true_2.
  - rewrite bool_decide_eq_false_2 by (intros Heq; by apply (inj yearKey) in Heq).
    apply IH. by apply elem_of_cons in Hin as [-> | Hin].
Qed.

(** With a ceiling that is a number other than 0 and rows without text in
    their year cells, the loop of the validator is a filter of the year
    columns by their sums, followed by a map. *)
Lemma validateTotals_messages (h : Host) (cfg : Config) (rows : list obj) (c : Z) :
  F5_Maximum_License__c cfg = VNum c -> c <> 0 ->
  (forall row year, row ∈ rows -> notText (get row (yearKey year))) ->
  Part001.validateTotals h (Some cfg) rows
  = let messages :=
      map (fun year => Part001.limitMessage (Part001.dateLabel h cfg year)
                         (columnSum rows year) (Some c))
          (List.filter (fun year => c <? columnSum rows year) (yearColumns (Some cfg))) in
    {| isValid := bool_decide (messages = []); errors := messages |}.
Proof.
  intros Hmax Hc Hrows. unfold Part001.validateTotals. rewrite Hmax.
  simpl truthy. rewrite (proj2 (Z.eqb_neq c 0) Hc).
  simpl negb. cbv iota. rewrite parseInt_VNum. cbv zeta.
  rewrite (foldl_messages _ (fun year => c <? columnSum rows year) _
             (fun year => Part001.limitMessage (Part001.dateLabel h cfg year)
                            (columnSum rows year) (Some c))).
  - simpl app. unfold yearColumns. f_equal.
    destruct (map _ _) as [| m ms]; [done |].
    rewrite bool_decide_eq_false_2 by done. by rewrite bool_decide_eq_false_2.
  - intros year Hyear.
    rewrite sumYear_columnSum by (intros row Hrow; by apply Hrows).
    destruct (getYearLabel_column h cfg year Hyear) as [_ ->]. done.
Qed.

Lemma ExactRows_notText (rows : list obj) (row : obj) (year : nat) :
  ExactRows rows -> row ∈ rows -> notText (get row (yearKey year)).
Proof. intros [_ Hcells] Hin. by apply boundedNumber_notText, Hcells. Qed.

(** The editable rows of the scenario after the edit, under either
    ceiling. *)
Lemma scenario_edited_exact : ExactRows (nonTotalsRows (gridData Scenario.edited)).
Proof. exact (proj2 (reachable_exact _ _ _ scenario_edited_reachable)). Qed.

Lemma scenario_editedZero_exact : ExactRows (nonTotalsRows (gridData Scenario.editedZero)).
Proof. exact (proj2 (reachable_exact _ _ _ scenario_editedZero_reachable)). Qed.

(** The message of the scenario: year 1 sums to 120 against a ceiling of
    100. *)
Example scenario_validation :
  Part001.validateTotals Scenario.hostUtc (Some Scenario.config)
    (nonTotalsRows (gridData Scenario.edited))
  = {| isValid := false;
       errors := ["Year 1: Total (120) exceeds maximum license limit (100)"] |}.
Proof. vm_compute. reflexivity. Qed.

(** C6, as stated, fails: with a configured ceiling of 0 and a year whose
    sum is 120 the validator reports no message. *)
Lemma validator_as_stated_counterexample :
  ~ (forall (h : Host) (configData : option Config) (rows : list obj),
       (forall cfg, configData = Some cfg ->
          boundedNumber (F5_Maximum_License__c cfg) = true /\
          inRange (F5_Contract_Length__c cfg) = true) ->
       ExactRows rows ->
       SpecValidation (displayLabel (Part001.columns h configData)) (yearColumns configData)
         (ceilingOf configData) rows (Part001.validateTotals h configData rows)).
Proof.
  intros Hclaim.
  specialize (Hclaim Scenario.hostUtc (Some Scenario.configZero)
                (nonTotalsRows (gridData Scenario.editedZero))).
  destruct Hclaim as [Hmessages _].
  - by intros cfg [= <-].
  - exact scenario_editedZero_exact.
  - apply Forall2_length in Hmessages. vm_compute in Hmessages. discriminate.
Qed.

(** C6, amended. For a ceiling that is absent or an integer, a ceiling and
    a contract length within [quantityBound], and at most nine rows whose
    year cells hold nothing or an integer within [quantityBound]: the
    validator answers valid with no message when there is no configuration,
    no ceiling, or a ceiling of 0; otherwise it goes through the year
    columns 1..N in order, sums the rows' values with [null] as 0, and
    reports exactly one message for each year whose sum exceeds the
    ceiling, in which the display label of that column, the sum and the
    ceiling occur; it answers valid exactly when there is no message. *)
Theorem validator_refines_spec (h : Host) (configData : option Config) (rows : list obj) :
  (forall cfg, configData = Some cfg ->
     boundedNumber (F5_Maximum_License__c cfg) = true /\
     inRange (F5_Contract_Length__c cfg) = true) ->
  ExactRows rows ->
  SpecValidation (displayLabel (Part001.columns h configData)) (yearColumns configData)
    (effectiveCeiling (ceilingOf configData)) rows
    (Part001.validateTotals h configData rows).
Proof.
  intros Hconfig Hrows.
  destruct configData as [cfg |]; [| done].
  destruct (Hconfig cfg eq_refl) as [Hceiling _].
  unfold ceilingOf.
  destruct (F5_Maximum_License__c cfg) as [| | | c | s] eqn:Hmax;
    try (unfold Part001.validateTotals; by rewrite Hmax).
  cbn [effectiveCeiling].
  destruct (c =? 0) eqn:Hc.
  { apply Z.eqb_eq in Hc as ->. unfold Part001.validateTotals. by rewrite Hmax. }
  apply Z.eqb_neq in Hc.
  rewrite (validateTotals_messages h cfg rows c Hmax Hc)
    by (intros row year Hin; by apply (ExactRows_notText rows)).
  cbv zeta. cbn [SpecValidation isValid errors]. split.
  - apply Forall2_fmap_r, Forall_Forall2_diag, Forall_forall.
    intros year Hyear.
    apply list_elem_of_In, List.filter_In in Hyear as [Hyear _].
    apply list_elem_of_In in Hyear.
    rewrite (displayLabel_column h cfg year Hyear).
    apply limitMessage_names.
  - by rewrite bool_decide_eq_true.
Qed.

Lemma validator_refines_spec_witness :
  ExactRows (nonTotalsRows (gridData Scenario.edited)) /\
  SpecValidation (displayLabel (Part001.columns Scenario.hostUtc (Some Scenario.config)))
    (yearColumns (Some Scenario.config))
    (effectiveCeiling (ceilingOf (Some Scenario.config)))
    (nonTotalsRows (gridData Scenario.edited))
    (Part001.validateTotals Scenario.hostUtc (Some Scenario.config)
       (nonTotalsRows (gridData Scenario.edited))).
Proof.
  split; [exact scenario_edited_exact |].
  refine (validator_refines_spec Scenario.hostUtc (Some Scenario.config)
            (nonTotalsRows (gridData Scenario.edited)) _ scenario_edited_exact).
  intros cfg [= <-]. split; reflexivity.
Defined.

(** ** The builders that read the quantity through [|| null] *)

Lemma pretty_Z_of_nat (n : nat) : pretty (Z.of_nat n) = pretty n.
Proof. destruct n; reflexivity. Qed.

Lemma foldl_ext_all {A B : Type} (f g : A -> B -> A) (l : list B) (a : A) :
  (forall x y, f x y = g x y) -> foldl f a l = foldl g a l.
Proof.
  intros Hext. revert a. induction l as [| y l IH]; intros a; simpl; [done |].
  by rewrite Hext, IH.
Qed.

Lemma sameReading_insert (m m' : obj) (k : string) (v : value) :
  sameReading m m' -> sameReading (<[k := v]> m) (<[k := v]> m').
Proof.
  intros Hsame k'. destruct (decide (k = k')) as [-> | Hne].
  - by rewrite !get_insert_eq.
  - rewrite !get_insert_ne by done. apply Hsame.
Qed.

Lemma sameReading_records (data : list LicenseRecord) (m m' : obj) :
  sameReading m m' ->
  sameReading
    (foldl (fun dataMap record => <[recordKey record := License_Quantity__c record]> dataMap)
           m data)
    (foldl (fun dataMap record => <[recordKey record := License_Quantity__c record]> dataMap)
           m' data).
Proof.
  revert m m'. induction data as [| r data IH]; intros m m' Hsame; simpl; [done |].
  by apply IH, sameReading_insert.
Qed.

Lemma records_lookup_other (data : list LicenseRecord) (m : obj) (k : string) :
  Forall (fun x => recordKey x <> k) data ->
  foldl (fun dataMap record => <[recordKey record := License_Quantity__c record]> dataMap)
        m data !! k = m !! k.
Proof.
  revert m. induction data as [| r data IH]; intros m Hdata; simpl; [done |].
  inversion Hdata as [| ? ? Hr Hrest]; subst.
  rewrite IH by done. by apply lookup_insert_ne.
Qed.

(** A record with quantity 0 that no other record overrides leaves the
    same reading as no record at all. *)
Lemma zero_record_sameReading (data1 data2 : list LicenseRecord) (r : LicenseRecord) :
  License_Quantity__c r = VNum 0 ->
  Forall (fun x => recordKey x <> recordKey r) data1 ->
  sameReading (buildDataMap (data1 ++ r :: data2)) (buildDataMap (data1 ++ data2)).
Proof.
  intros Hzero Hfresh. unfold buildDataMap. rewrite !foldl_app. simpl.
  apply sameReading_records. intros k.
  destruct (decide (recordKey r = k)) as [<- | Hne].
  - rewrite get_insert_eq, Hzero. unfold get.
    rewrite records_lookup_other by done. by rewrite lookup_empty.
  - by rewrite get_insert_ne.
Qed.

Lemma zero_record_lookup (data1 data2 : list LicenseRecord) (r : LicenseRecord) :
  License_Quantity__c r = VNum 0 ->
  Forall (fun x => recordKey x <> recordKey r) data2 ->
  get (buildDataMap (data1 ++ r :: data2)) (recordKey r) = VNum 0.
Proof.
  intros Hzero Hlater. unfold buildDataMap, get. rewrite foldl_app. simpl.
  rewrite records_lookup_other by done. by rewrite lookup_insert_eq, Hzero.
Qed.

Lemma LwcGrid_buildRow_ext (m m' : obj) (maxYears : option Z) (index : nat) (grade : string) :
  sameReading m m' ->
  LwcGrid.buildRow m maxYears index grade = LwcGrid.buildRow m' maxYears index grade.
Proof.
  intros Hsame. unfold LwcGrid.buildRow. apply foldl_ext_all.
  intros row year. by rewrite Hsame.
Qed.

Lemma Part000_buildRow_ext (m m' : obj) (configData : option Config) (index : nat)
    (grade : string) :
  sameReading m m' ->
  Part000.buildRow m configData index grade = Part000.buildRow m' configData index grade.
Proof.
  intros Hsame. unfold Part000.buildRow. apply foldl_ext_all.
  intros row year. by rewrite Hsame.
Qed.

Lemma LwcGrid_buildRow_year (dataMap : obj) (maxYears : option Z) (index : nat)
    (grade : string) (year : nat) :
  year ∈ yearsUpTo maxYears ->
  get (LwcGrid.buildRow dataMap maxYears index grade) (yearKey year)
  = jsOr (get dataMap (grade +:+ "_" +:+ pretty year)) VNull.
Proof.
  intros Hin. unfold get at 1. unfold LwcGrid.buildRow.
  by rewrite (foldl_insert_at yearKey
                (fun year => jsOr (get dataMap (grade +:+ "_" +:+ pretty year)) VNull)).
Qed.

Lemma Part000_buildRow_year (dataMap : obj) (configData : option Config) (index : nat)
    (grade : string) (year : nat) :
  year ∈ yearsUpTo (configYears 7 configData) ->
  get (Part000.buildRow dataMap configData index grade) (yearKey year)
  = jsOr (get dataMap (grade +:+ "_" +:+ pretty year)) VNull.
Proof.
  intros Hin. unfold get at 1. unfold Part000.buildRow.
  by rewrite (foldl_insert_at yearKey
                (fun year => jsOr (get dataMap (grade +:+ "_" +:+ pretty year)) VNull)).
Qed.

(** *** The totals of [LwcGrid] on cells without text *)

Lemma LwcGrid_sumYear_from (rows : list obj) (year : nat) (a : Z) :
  (forall row, row ∈ rows -> notText (get row (yearKey year))) ->
  foldl (fun sum row => jsAdd sum (jsOr (get row (yearKey year)) (VNum 0))) (VNum a) rows
  = VNum (a + columnSum rows year).
Proof.
  revert a. induction rows as [| row rows IH]; intros a Hrows; simpl.
  - f_equal. lia.
  - assert (Hcell : jsOr (get row (yearKey year)) (VNum 0)
                    = VNum (quantityOf (get row (yearKey year)))).
    { pose proof (Hrows row ltac:(left)) as Hrow.
      destruct (get row (yearKey year)) as [| | | z | t]; try done.
      unfold jsOr. simpl. destruct (z =? 0) eqn:Hz; [| done].
      apply Z.eqb_eq in Hz as ->. done. }
    rewrite Hcell. simpl.
    rewrite IH by (intros r Hr; apply Hrows; by right).
    f_equal. lia.
Qed.

Lemma buildDataMap_notText (data : list LicenseRecord) (k : string) :
  Forall (fun r => notText (License_Quantity__c r)) data ->
  notText (get (buildDataMap data) k).
Proof.
  intros Hdata. unfold buildDataMap.
  assert (Hgen : forall m : obj, notText (get m k) ->
            notText (get (foldl (fun dataMap record =>
                                   <[recordKey record := License_Quantity__c record]> dataMap)
                                m data) k)).
  { induction Hdata as [| r data Hr _ IH]; intros m Hm; [done |].
    simpl. apply IH. destruct (decide (recordKey r = k)) as [<- | Hne].
    - by rewrite get_insert_eq.
    - by rewrite get_insert_ne. }
  apply Hgen. unfold get. by rewrite lookup_empty.
Qed.

Lemma LwcGrid_buildRow_notText (dataMap : obj) (maxYears : option Z) (index : nat)
    (grade : string) (year : nat) :
  (forall k, notText (get dataMap k)) ->
  notText (get (LwcGrid.buildRow dataMap maxYears index grade) (yearKey year)).
Proof.
  intros Hmap. destruct (decide (year ∈ yearsUpTo maxYears)) as [Hin | Hout].
  - rewrite LwcGrid_buildRow_year by done.
    pose proof (Hmap (grade +:+ "_" +:+ pretty year)) as Hcell.
    unfold jsOr. by destruct (truthy _).
  - unfold get at 1. unfold LwcGrid.buildRow.
    rewrite (foldl_insert_other yearKey
               (fun year => jsOr (get dataMap (grade +:+ "_" +:+ pretty year)) VNull)).
    + destruct (yearKey_not_fixed year) as (H1 & H2 & H3 & _).
      unfold LwcGrid.newRow.
      repeat (rewrite lookup_insert_ne by done).
      by rewrite lookup_singleton_ne.
    + intros y Hy Heq. apply (inj yearKey) in Heq. by subst.
Qed.

(** Right after a build from records whose quantities are numbers or
    [null], the totals row of [LwcGrid] holds the column sums of the years
    it was built for. *)
Lemma LwcGrid_build_totals (data : list LicenseRecord) (st : State) (year : nat) :
  Forall (fun r => notText (License_Quantity__c r)) data ->
  year ∈ yearsUpTo (configYears 5 (configData st)) ->
  exists rows totals,
    gridData (LwcGrid.processLicenseData data st) = rows ++ [totals] /\
    length rows = 9%nat /\
    get totals (yearKey year) = VNum (columnSum rows year).
Proof.
  intros Hdata Hyear. unfold LwcGrid.processLicenseData. cbn [gridData set_gridData].
  set (rows := imap _ gradeLabels).
  exists rows, (LwcGrid.calculateTotals rows (configYears 5 (configData st))).
  split; [done |]. split; [unfold rows; by rewrite length_imap |].
  unfold get at 1. unfold LwcGrid.calculateTotals.
  rewrite (foldl_insert_at yearKey (fun year => LwcGrid.sumYear rows (yearKey year)))
    by done.
  simpl. unfold LwcGrid.sumYear.
  rewrite LwcGrid_sumYear_from; [done |].
  intros row Hrow. apply elem_of_lookup_imap in Hrow as (i & g & -> & _).
  apply LwcGrid_buildRow_notText. intros k. by apply buildDataMap_notText.
Qed.

(** C9. In the builders of [Part000] and [LwcGrid] a record whose quantity
    is 0 puts [null], not 0, into its cell, and the grid built with such a
    record is the grid built without it: after a rebuild a stored zero
    cannot be told from an absent record. *)
Theorem zero_quantity_is_stored_as_null (data1 data2 : list LicenseRecord)
    (r : LicenseRecord) (st : State) (index : nat) (grade : string) (year : nat) :
  gradeLabels !! index = Some grade ->
  Grade_Level__c r = VStr grade ->
  Year__c r = VNum (Z.of_nat year) ->
  License_Quantity__c r = VNum 0 ->
  Forall (fun x => recordKey x <> recordKey r) data1 ->
  Forall (fun x => recordKey x <> recordKey r) data2 ->
  (year ∈ yearsUpTo (configYears 7 (configData st)) ->
   exists row,
     gridData (Part000.processLicenseData (data1 ++ r :: data2) st) !! index = Some row /\
     get row (yearKey year) = VNull) /\
  (year ∈ yearsUpTo (configYears 5 (configData st)) ->
   exists row,
     gridData (LwcGrid.processLicenseData (data1 ++ r :: data2) st) !! index = Some row /\
     get row (yearKey year) = VNull) /\
  Part000.processLicenseData (data1 ++ r :: data2) st
  = Part000.processLicenseData (data1 ++ data2) st /\
  LwcGrid.processLicenseData (data1 ++ r :: data2) st
  = LwcGrid.processLicenseData (data1 ++ data2) st.
Proof.
  intros Hgrade Hg Hy Hzero Hbefore Hafter.
  assert (Hkey : recordKey r = grade +:+ "_" +:+ pretty year).
  { unfold recordKey. rewrite Hg, Hy. simpl. by rewrite pretty_Z_of_nat. }
  pose proof (zero_record_lookup data1 data2 r Hzero Hafter) as Hlookup.
  pose proof (zero_record_sameReading data1 data2 r Hzero Hbefore) as Hsame.
  rewrite Hkey in Hlookup.
  repeat split.
  - intros Hyear. eexists. split.
    + unfold Part000.processLicenseData. cbn [gridData set_gridData].
      rewrite list_lookup_imap, Hgrade. reflexivity.
    + rewrite Part000_buildRow_year by done. by rewrite Hlookup.
  - intros Hyear. eexists. split.
    + unfold LwcGrid.processLicenseData. cbn [gridData set_gridData].
      rewrite lookup_app_l
        by (rewrite length_imap; by apply lookup_lt_Some in Hgrade).
      rewrite list_lookup_imap, Hgrade. reflexivity.
    + rewrite LwcGrid_buildRow_year by done. by rewrite Hlookup.
  - unfold Part000.processLicenseData. f_equal.
    apply imap_ext. intros i g _. by apply Part000_buildRow_ext.
  - unfold LwcGrid.processLicenseData.
    assert (Hrows : imap (LwcGrid.buildRow (buildDataMap (data1 ++ r :: data2))
                            (configYears 5 (configData st))) gradeLabels
                    = imap (LwcGrid.buildRow (buildDataMap (data1 ++ data2))
                              (configYears 5 (configData st))) gradeLabels).
    { apply imap_ext. intros i g _. by apply LwcGrid_buildRow_ext. }
    cbv zeta. by rewrite Hrows.
Qed.

Lemma zero_quantity_is_stored_as_null_witness :
  LwcGrid.processLicenseData (Scenario.zeroRecord :: Scenario.otherRecords) Scenario.start
  = LwcGrid.processLicenseData Scenario.otherRecords Scenario.start.
Proof.
  refine (proj2 (proj2 (proj2
    (zero_quantity_is_stored_as_null [] Scenario.otherRecords Scenario.zeroRecord
       Scenario.start 0%nat "K" 1%nat _ _ _ _ _ _)))).
  - reflexivity.
  - reflexivity.
  - reflexivity.
  - reflexivity.
  - constructor.
  - repeat constructor. vm_compute. discriminate.
Defined.

(** ** The two coercions of an edit *)

Lemma parseInt_Some_not_empty (v : value) (z : Z) :
  parseInt v = Some z ->
  strictEq v VNull = false /\ strictEq v VUndef = false /\ strictEq v (VStr "") = false.
Proof.
  destruct v as [| | | n | s]; try (vm_compute; discriminate); [done |].
  intros Hparse. repeat split; try done.
  simpl. apply bool_decide_eq_false. intros ->. vm_compute in Hparse. discriminate.
Qed.

(** Except on a negative number the grid and the pending change get the
    same value. *)
Lemma coercions_agree (v : value) :
  (forall z, parseInt v = Some z -> 0 <= z) ->
  Part001.coerceCell v = Part001.coercePending v.
Proof.
  intros Hnonneg. unfold Part001.coerceCell, Part001.coercePending.
  destruct (strictEq v VNull); [done |].
  destruct (strictEq v VUndef); [done |].
  destruct (strictEq v (VStr "")); [done |]. simpl.
  destruct (parseInt v) as [z |]; [| done].
  specialize (Hnonneg z eq_refl).
  rewrite (proj2 (Z.ltb_ge z 0)) by done. f_equal. lia.
Qed.

(** C2. The merge writes one value into the grid row and another into the
    pending change when the raw value reads as a negative number: the row
    gets 0, the pending change [null]. *)
Theorem negative_edit_coerced_twice (v : value) (z : Z) :
  parseInt v = Some z -> z < 0 ->
  Part001.coerceCell v = VNum 0 /\ Part001.coercePending v = VNull.
Proof.
  intros Hparse Hneg.
  destruct (parseInt_Some_not_empty v z Hparse) as (Hnull & Hundef & Hempty).
  unfold Part001.coerceCell, Part001.coercePending.
  rewrite Hnull, Hundef, Hempty, Hparse. simpl.
  rewrite (proj2 (Z.ltb_lt z 0)) by done.
  split; [f_equal; lia | done].
Qed.

Lemma negative_edit_coerced_twice_witness :
  Part001.coerceCell (VStr "-5") = VNum 0 /\ Part001.coercePending (VStr "-5") = VNull.
Proof.
  apply (negative_edit_coerced_twice (VStr "-5") (-5)); [reflexivity | reflexivity].
Defined.

(** *** The round trip of one edited cell *)

Lemma startsWith_year (s : string) :
  startsWith "year" s = true -> s = "year" +:+ replaceFirst "year" "" s.
Proof.
  unfold startsWith.
  do 4 (destruct s as [| ? s]; [simpl; repeat case_bool_decide; done |]).
  simpl. repeat (case_bool_decide; [subst | done]). done.
Qed.

Lemma replaceFirst_yearKey (year : nat) :
  replaceFirst "year" "" (yearKey year) = pretty year /\
  startsWith "year" (yearKey year) = true.
Proof. done. Qed.

Lemma find_by_id {A : Type} (key : A -> value) (s : string) (l : list A) (i : nat) (x : A) :
  l !! i = Some x -> key x = VStr s ->
  (forall j y, (j < i)%nat -> l !! j = Some y -> key y <> VStr s) ->
  List.find (fun y => strictEq (key y) (VStr s)) l = Some x.
Proof.
  revert i. induction l as [| y l IH]; intros i Hi Hx Hbefore; [done |].
  destruct i as [| i]; simpl in *.
  - injection Hi as ->. rewrite Hx. simpl. by rewrite bool_decide_eq_true_2.
  - destruct (strictEq (key y) (VStr s)) eqn:Hy.
    + apply strictEq_VStr in Hy. by destruct (Hbefore 0%nat y ltac:(lia) eq_refl).
    + apply (IH i); [done | done |].
      intros j z Hj Hz. apply (Hbefore (S j) z); [lia | done].
Qed.

(** The pending change that the loop over a draft's fields records for a
    year field. *)
Lemma recordFields_lookup (g : value) (pending : gmap string PendingChange) (draft : obj)
    (year : nat) (v : value) :
  draft !! yearKey year = Some v ->
  map_fold (fun field v pending =>
              if bool_decide (field <> "id") && bool_decide (field <> "grade")
                 && startsWith "year" field then
                let year := replaceFirst "year" "" field in
                let key := toStr g +:+ "_" +:+ year in
                <[key := {| grade := g; year := year; quantity := Part001.coercePending v |}]>
                  pending
              else pending)
           pending draft
    !! (toStr g +:+ "_" +:+ pretty year)
  = Some {| grade := g; year := pretty year; quantity := Part001.coercePending v |}.
Proof.
  revert v.
  apply (map_fold_weak_ind
           (fun (acc : gmap string PendingChange) (m : obj) =>
              forall v, m !! yearKey year = Some v ->
                acc !! (toStr g +:+ "_" +:+ pretty year)
                = Some {| grade := g; year := pretty year;
                          quantity := Part001.coercePending v |})).
  - intros v Hv. by rewrite lookup_empty in Hv.
  - intros field x m acc Hfresh IH v Hv.
    destruct (decide (field = yearKey year)) as [-> | Hne].
    + rewrite lookup_insert_eq in Hv. injection Hv as ->.
      destruct (yearKey_not_fixed year) as (Hid & Hgrade & _).
      rewrite !bool_decide_eq_true_2 by done.
      destruct (replaceFirst_yearKey year) as [-> ->]. simpl.
      apply lookup_insert_eq.
    + rewrite lookup_insert_ne in Hv by done.
      destruct (bool_decide (field <> "id") && bool_decide (field <> "grade")
                && startsWith "year" field) eqn:Hcond; [| by apply IH].
      apply andb_true_iff in Hcond as [_ Hstarts].
      rewrite lookup_insert_ne; [by apply IH |].
      intros Hkey. apply (inj (String.append _)) in Hkey.
      apply (inj (String.append _)) in Hkey.
      apply Hne. rewrite (startsWith_year field Hstarts), Hkey. reflexivity.
Qed.

Lemma handleDraftValueChange_pending (h : Host) (drafts : list obj) (st : State) :
  List.filter Part001.notTotals drafts <> [] ->
  pendingChanges (Part001.handleDraftValueChange h drafts st).1
  = foldl (Part001.recordDraft
             (map (Part001.updateRow (List.filter Part001.notTotals drafts))
                  (List.filter Part001.notTotals (gridData st))))
          (pendingChanges st) (List.filter Part001.notTotals drafts).
Proof.
  intros Hne. unfold Part001.handleDraftValueChange.
  rewrite bool_decide_eq_false_2; [done |].
  by destruct (List.filter Part001.notTotals drafts).
Qed.

(** After a batch with one entry for row [index], the grid reads
    [coerceCell v] in the edited cell and the pending changes hold, under
    the key of that grade and year, [coercePending v]. *)
Lemma edit_round_trip (h : Host) (st : State) (cfg : Config) (records : list LicenseRecord)
    (index : nat) (g : string) (year : nat) (draft : obj) (v : value) :
  configData st = Some cfg ->
  gradeLabels !! index = Some g ->
  get draft "id" = VStr ("row-" +:+ pretty index) ->
  draft !! "grade" = None ->
  draft !! yearKey year = Some v ->
  let after := (Part001.handleDraftValueChange h [draft]
                  (Part001.processLicenseData records st)).1 in
  (fun row => get row (yearKey year)) <$> gridData after !! index
  = Some (Part001.coerceCell v) /\
  pendingChanges after !! (g +:+ "_" +:+ pretty year)
  = Some {| grade := VStr g; year := pretty year; quantity := Part001.coercePending v |}.
Proof.
  intros Hcfg Hg Hid Hnograde Hv after. subst after.
  assert (Hkeep : List.filter Part001.notTotals [draft] = [draft]).
  { simpl. unfold Part001.notTotals. by rewrite Hid. }
  assert (Hne : List.filter Part001.notTotals [draft] <> []) by by rewrite Hkeep.
  set (N := lengthOr 7 (F5_Contract_Length__c cfg)).
  set (rows := imap (Part001.buildRow (buildDataMap records) N) gradeLabels).
  assert (Hrows : List.filter Part001.notTotals
                    (gridData (Part001.processLicenseData records st)) = rows).
  { rewrite (processLicenseData_grid records st cfg Hcfg).
    apply (nonTotalsRows_app rows); grid_shape. }
  set (row := Part001.buildRow (buildDataMap records) N index g).
  assert (Hrow : rows !! index = Some row).
  { unfold rows. by rewrite list_lookup_imap, Hg. }
  assert (Hupdated : Part001.updateRow [draft] row = Part001.applyDraft draft row).
  { unfold Part001.updateRow. simpl. unfold row at 1. rewrite buildRow_id, Hid.
    simpl. by rewrite bool_decide_eq_true_2. }
  split.
  - rewrite handleDraftValueChange_grid, Hkeep, Hrows by done.
    rewrite lookup_app_l
      by (rewrite length_map; by apply lookup_lt_Some in Hrow).
    rewrite list_lookup_fmap, Hrow. simpl. f_equal.
    rewrite Hupdated. unfold get. rewrite applyDraft_lookup.
    rewrite decide_False by apply yearKey_not_fixed. by rewrite Hv.
  - rewrite handleDraftValueChange_pending, Hkeep, Hrows by done.
    cbn [foldl]. unfold Part001.recordDraft. rewrite Hid.
    rewrite (find_by_id (fun r => get r "id") _ _ index (Part001.updateRow [draft] row)).
    + assert (Hgrade : get (Part001.updateRow [draft] row) "grade" = VStr g).
      { rewrite Hupdated. unfold get. rewrite applyDraft_lookup, Hnograde.
        rewrite decide_False by done.
        change (default VUndef (row !! "grade")) with (get row "grade").
        unfold row. by rewrite buildRow_grade. }
      rewrite !Hgrade.
      by apply (recordFields_lookup (VStr g)).
    + by rewrite list_lookup_fmap, Hrow.
    + unfold row. by rewrite updateRow_id, buildRow_id.
    + intros j y Hj Hy Heq.
      rewrite list_lookup_fmap in Hy. unfold rows in Hy.
      rewrite list_lookup_imap in Hy.
      destruct (gradeLabels !! j) as [gj |]; [| done].
      simpl in Hy. injection Hy as <-.
      rewrite updateRow_id, buildRow_id in Heq.
      simpl in Heq. injection Heq as Heq.
      change (pretty j = pretty index) in Heq.
      apply (inj (pretty : nat -> string)) in Heq. lia.
Qed.

(** C3. Editing K / year 1 to "-5": in [Part001] the grid reads 0 back
    while the one pending change for K / year 1 holds [null]; in [LwcGrid]
    the grid reads the raw text back and the totals row holds a
    concatenation. *)
Theorem negative_edit_round_trip :
  let cell (st : State) (index : nat) :=
    (fun row => get row "year1") <$> gridData st !! index in
  cell Scenario.editedNegative 0%nat = Some (VNum 0) /\
  pendingChanges Scenario.editedNegative !! "K_1"
  = Some {| grade := VStr "K"; year := "1"; quantity := VNull |} /\
  cell Scenario.lwcEditedNegative 0%nat = Some (VStr "-5") /\
  cell Scenario.lwcEditedNegative 9%nat = Some (VStr "0-5500000000").
Proof. vm_compute. repeat split. Qed.

(** A valid quantity, an empty text and an unreadable text do make the
    round trip. *)
Example edit_round_trip_samples :
  let after raw := (Part001.handleDraftValueChange Scenario.hostUtc
                      (Scenario.editK1 raw) Scenario.loaded).1 in
  let cell raw := (fun row => get row "year1") <$> gridData (after raw) !! 0%nat in
  let pending raw := quantity <$> pendingChanges (after raw) !! "K_1" in
  (cell (VStr "70") = Some (VNum 70) /\ pending (VStr "70") = Some (VNum 70)) /\
  (cell (VStr "") = Some VNull /\ pending (VStr "") = Some VNull) /\
  (cell (VStr "abc") = Some VNull /\ pending (VStr "abc") = Some VNull) /\
  (cell (VNum 12) = Some (VNum 12) /\ pending (VNum 12) = Some (VNum 12)).
Proof. vm_compute. repeat split. Qed.

(** ** The date labels *)

(** The formatter of [LwcGrid] moves the three groups of an ISO date and
    answers [null] to everything else. *)
Lemma LwcGrid_format_iso (y1 y2 y3 y4 m1 m2 d1 d2 : ascii) :
  Forall (fun c => is_Some (digitOf c)) [y1; y2; y3; y4; m1; m2; d1; d2] ->
  LwcGrid.americanDateFormat
    (Some (String y1 (String y2 (String y3 (String y4 (String "-"
       (String m1 (String m2 (String "-" (String d1 (String d2 "")))))))))))
  = Some (String m1 (String m2 (String "/" (String d1 (String d2 (String "/"
       (String y1 (String y2 (String y3 (String y4 "")))))))))).
Proof.
  intros Hdigits.
  repeat (apply Forall_cons in Hdigits as [[? ?] Hdigits]).
  unfold LwcGrid.americanDateFormat, LwcGrid.matchIso. simpl.
  repeat match goal with H : digitOf _ = Some _ |- _ => rewrite H; clear H end.
  reflexivity.
Qed.

Lemma LwcGrid_matchIso_form (s : string) (groups : string * string * string) :
  LwcGrid.matchIso s = Some groups -> isIsoForm s.
Proof.
  unfold LwcGrid.matchIso. intros Hmatch.
  destruct (bool_decide (String.length s = 10%nat)) eqn:Hlen; [| done].
  apply bool_decide_eq_true in Hlen.
  do 10 (destruct s as [| ? s]; [done |]). destruct s; [| done].
  simpl in Hmatch.
  repeat match type of Hmatch with
         | context [digitOf ?c] =>
             let E := fresh "E" in destruct (digitOf c) eqn:E; [| done]
         end.
  simpl in Hmatch.
  repeat match type of Hmatch with
         | context [bool_decide (Some ?c = Some "-"%char)] =>
             let E := fresh "E" in
             destruct (bool_decide (Some c = Some "-"%char)) eqn:E; [| done];
             apply bool_decide_eq_true in E; injection E as ->
         end.
  eexists _, _, _, _, _, _, _, _. split; [reflexivity |].
  repeat constructor; eauto.
Qed.

Lemma LwcGrid_format_other (inputDate : option string) :
  (forall s, inputDate = Some s -> ~ isIsoForm s) ->
  LwcGrid.americanDateFormat inputDate = None.
Proof.
  intros Hother. unfold LwcGrid.americanDateFormat.
  destruct inputDate as [s |]; [| done].
  destruct (present (Some s)); [| done].
  destruct (LwcGrid.matchIso s) as [[[y m] d] |] eqn:Hmatch; [| done].
  destruct (Hother s eq_refl). by eapply LwcGrid_matchIso_form.
Qed.

(** With a date the runtime cannot read, the first column of [Part001]
    gets the label [null], not the text "Year 1". *)
Lemma unreadable_start_date_label (h : Host) (cfg : Config) (s : string) :
  F5_LMS_Start_Date__c cfg = Some s -> s <> "" -> newDate h s = None ->
  Part001.dateLabel h cfg 1 = VNull.
Proof.
  intros Hstart Hne Hparse. unfold Part001.dateLabel, Part001.americanDateFormat.
  rewrite Hstart. simpl. rewrite (bool_decide_eq_false_2 _ Hne). simpl.
  by rewrite Hparse.
Qed.

(** At or east of UTC the formatter of [Part001] gives the month, the day
    and the year of a calendar date in ISO form (the year without leading
    zeros); west of UTC it gives those of the day before. *)
Lemma american_format_east (h : Host) (s : string) (y m d : Z) :
  0 <= LocalTZA h < msPerDay ->
  isoDateFields s = Some (y, m, d) ->
  1 <= m <= 12 -> 1 <= d <= daysInMonth y m ->
  Part001.americanDateFormat h (Some s)
  = Some (pad2 m +:+ "/" +:+ pad2 d +:+ "/" +:+ pretty y).
Proof.
  intros Htz Hfields Hm Hd.
  destruct (newDate_iso h s y m d Hfields Hm Hd) as [Hne Hdate].
  unfold Part001.americanDateFormat. simpl present.
  rewrite (bool_decide_eq_false_2 _ Hne), Hdate. simpl negb. cbv iota.
  unfold getMonth, getDate, getFullYear.
  rewrite (proj1 (day_localTime h _) Htz), civil_round_trip by done.
  simpl fst. simpl snd. by replace (m - 1 + 1) with m by lia.
Qed.

Lemma american_format_west (h : Host) (s : string) (y m d : Z) :
  - msPerDay <= LocalTZA h < 0 ->
  isoDateFields s = Some (y, m, d) ->
  1 <= m <= 12 -> 1 <= d <= daysInMonth y m ->
  Part001.americanDateFormat h (Some s)
  = let '(y', m', d') := civilFromDays (daysFromCivil y m d - 1) in
    Some (pad2 m' +:+ "/" +:+ pad2 d' +:+ "/" +:+ pretty y').
Proof.
  intros Htz Hfields Hm Hd.
  destruct (newDate_iso h s y m d Hfields Hm Hd) as [Hne Hdate].
  unfold Part001.americanDateFormat. simpl present.
  rewrite (bool_decide_eq_false_2 _ Hne), Hdate. simpl negb. cbv iota.
  unfold getMonth, getDate, getFullYear.
  rewrite (proj2 (day_localTime h _) Htz).
  destruct (civilFromDays (daysFromCivil y m d - 1)) as [[y' m'] d'].
  simpl fst. simpl snd. by replace (m' - 1 + 1) with m' by lia.
Qed.

(** C8. The formatter of [Part001] reads the month, the day and the year
    in local time from a date that was parsed as midnight UTC: five hours
    behind UTC the ISO date 2024-01-15 comes out as 01/14/2024. *)
Theorem american_format_shifts_the_day (parse : string -> option Z)
    (greater : string -> Z -> bool) :
  Part001.americanDateFormat
    {| LocalTZA := -18000000; legacyDateParse := parse; stringGreater := greater |}
    (Some "2024-01-15")
  = Some "01/14/2024".
Proof. reflexivity. Qed.

(** On UTC, and in [LwcGrid] everywhere, the same date keeps its day. *)
Example american_format_samples :
  Part001.americanDateFormat Scenario.hostUtc (Some "2024-01-15") = Some "01/15/2024" /\
  LwcGrid.americanDateFormat (Some "2024-01-15") = Some "01/15/2024" /\
  LwcGrid.americanDateFormat (Some "15/01/2024") = None /\
  Part001.americanDateFormat Scenario.hostUtc None = None /\
  Part001.americanDateFormat Scenario.hostUtc (Some "") = None.
Proof. repeat split; reflexivity. Qed.

End Claims.

(** * The edit handler of [Part001], batch by batch *)

Section Part001Batches.
Import Spec Props.

Lemma filter_idem {A : Type} (p : A -> bool) (l : list A) :
  List.filter p (List.filter p l) = List.filter p l.
Proof.
  induction l as [|x l IH]; [done|]. simpl.
  destruct (p x) eqn:Hp; [|done]. simpl. by rewrite Hp, IH.
Qed.

(** X1. A draft for the totals row never reaches the grid or the pending
    changes: the handler does with a batch what it does with the batch
    without its totals-row entries, and a batch of such entries only
    empties [draftValues].  The handler of [LwcGrid] drops them in the same
    way. *)
Theorem totals_row_drafts_are_dropped (h : Host) (drafts : list obj) (st : State) :
  Part001.handleDraftValueChange h drafts st
  = Part001.handleDraftValueChange h (List.filter Part001.notTotals drafts) st /\
  (Forall (fun draft => get draft "id" = VStr "totals-row") drafts ->
   Part001.handleDraftValueChange h drafts st = (set_draftValues [] st, [])) /\
  LwcGrid.handleDraftValueChange h drafts st
  = LwcGrid.handleDraftValueChange h (List.filter LwcGrid.notTotals drafts) st.
Proof.
  split; [|split].
  - unfold Part001.handleDraftValueChange. by rewrite filter_idem.
  - intros Hall. apply handleDraftValueChange_empty.
    induction Hall as [|draft l Hid _ IH]; [done|].
    simpl. unfold Part001.notTotals at 1. rewrite Hid. exact IH.
  - unfold LwcGrid.handleDraftValueChange. by rewrite filter_idem.
Qed.

Lemma totals_row_drafts_are_dropped_witness :
  Part001.handleDraftValueChange Scenario.hostUtc [Cases.totalsDraft] Scenario.edited
  = (set_draftValues [] Scenario.edited, []).
Proof.
  apply (proj1 (proj2 (totals_row_drafts_are_dropped Scenario.hostUtc [Cases.totalsDraft]
                         Scenario.edited))).
  repeat constructor.
Defined.

(** X2. A processed batch rebuilds the grid as the editable rows, in their
    order, followed by one totals row.  Each row keeps its id, and keeps
    every cell that no draft with its id names. *)
Theorem edit_keeps_other_cells (h : Host) (drafts : list obj) (st : State)
    (i : nat) (row : obj) :
  List.filter Part001.notTotals drafts <> [] ->
  List.filter Part001.notTotals (gridData st) !! i = Some row ->
  let after := gridData (Part001.handleDraftValueChange h drafts st).1 in
  length after = S (length (List.filter Part001.notTotals (gridData st))) /\
  exists row',
    after !! i = Some row' /\
    row' !! "id" = row !! "id" /\
    forall k,
      (forall draft, draft ∈ drafts -> strictEq (get draft "id") (get row "id") = true ->
                     draft !! k = None) ->
      row' !! k = row !! k.
Proof.
  intros Hne Hrow after. subst after.
  rewrite handleDraftValueChange_grid by done.
  split.
  { rewrite length_app, length_map. simpl. lia. }
  exists (Part001.updateRow (List.filter Part001.notTotals drafts) row).
  split.
  { rewrite lookup_app_l.
    - by rewrite list_lookup_fmap, Hrow.
    - rewrite length_map. by eapply lookup_lt_Some. }
  unfold Part001.updateRow.
  destruct (List.find _ _) as [draft|] eqn:Hfind; [|done].
  apply find_some in Hfind as [Hin Hid].
  split.
  { rewrite applyDraft_lookup. by destruct (decide _). }
  intros k Hk. rewrite applyDraft_lookup.
  destruct (decide (k = "id")); [done|].
  rewrite (Hk draft); [done| |done].
  apply list_elem_of_In. apply filter_In in Hin. tauto.
Qed.

Lemma edit_keeps_other_cells_witness :
  exists row',
    gridData (Part001.handleDraftValueChange Scenario.hostUtc (Scenario.editK1 (VStr "70"))
                Scenario.loaded).1 !! 1%nat = Some row' /\
    row' !! "year1" = Some (VNum 50).
Proof.
  destruct (edit_keeps_other_cells Scenario.hostUtc (Scenario.editK1 (VStr "70"))
              Scenario.loaded 1
              (Part001.buildRow (buildDataMap Scenario.records) (Some 3) 1 "1"))
    as [_ (row' & Hrow' & _ & Hkeep)].
  - discriminate.
  - reflexivity.
  - exists row'. split; [exact Hrow'|].
    rewrite (Hkeep "year1"); [reflexivity|].
    intros draft Hin Hid.
    apply list_elem_of_singleton in Hin. subst draft. discriminate Hid.
Defined.

(** The pending changes after a batch, by induction over what the handler
    inserts. *)
Lemma recordDraft_ind (P : gmap string PendingChange -> Prop) (rows : list obj)
    (pending : gmap string PendingChange) (draft : obj) :
  P pending ->
  (forall g field v p,
     P p ->
     P (<[toStr g +:+ "_" +:+ replaceFirst "year" "" field :=
            {| grade := g; year := replaceFirst "year" "" field;
               quantity := Part001.coercePending v |}]> p)) ->
  P (Part001.recordDraft rows pending draft).
Proof.
  intros Hp Hstep. unfold Part001.recordDraft.
  destruct (List.find _ _) as [originalRow|]; [|done].
  apply (map_fold_weak_ind (fun r _ => P r)); [done|].
  intros field v m r _ Hr.
  destruct (bool_decide _ && bool_decide _ && startsWith _ _); [|done].
  by apply Hstep.
Qed.

Lemma handleDraftValueChange_pending_ind (P : gmap string PendingChange -> Prop)
    (h : Host) (drafts : list obj) (st : State) :
  P (pendingChanges st) ->
  (forall g field v p,
     P p ->
     P (<[toStr g +:+ "_" +:+ replaceFirst "year" "" field :=
            {| grade := g; year := replaceFirst "year" "" field;
               quantity := Part001.coercePending v |}]> p)) ->
  P (pendingChanges (Part001.handleDraftValueChange h drafts st).1).
Proof.
  intros Hp Hstep.
  destruct (List.filter Part001.notTotals drafts) as [|d l] eqn:Hf.
  { by rewrite handleDraftValueChange_empty. }
  rewrite handleDraftValueChange_pending by (rewrite Hf; discriminate).
  generalize (map (Part001.updateRow (List.filter Part001.notTotals drafts))
                  (List.filter Part001.notTotals (gridData st))).
  intros rows. clear Hf. revert Hp. generalize (pendingChanges st).
  induction (List.filter Part001.notTotals drafts) as [|draft ds IH]; intros pending Hp.
  - done.
  - simpl. apply IH. by apply recordDraft_ind.
Qed.

(** X3. No edit batch takes a pending change away, and none turns a
    component with changes into one without: a change is only ever
    overwritten by a later one for the same grade and year. *)
Theorem edit_keeps_pending_changes (h : Host) (drafts : list obj) (st : State) (key : string) :
  is_Some (pendingChanges st !! key) ->
  is_Some (pendingChanges (Part001.handleDraftValueChange h drafts st).1 !! key) /\
  (hasChanges st = true -> hasChanges (Part001.handleDraftValueChange h drafts st).1 = true).
Proof.
  intros Hkey. split.
  - apply (handleDraftValueChange_pending_ind (fun p => is_Some (p !! key))); [done|].
    intros g field v p Hp. apply lookup_insert_is_Some.
    destruct (decide (toStr g +:+ "_" +:+ replaceFirst "year" "" field = key)); auto.
  - intros Hdirty. unfold Part001.handleDraftValueChange.
    by destruct (bool_decide _).
Qed.

Lemma edit_keeps_pending_changes_witness :
  is_Some (pendingChanges
             (Part001.handleDraftValueChange Scenario.hostUtc Cases.editGrade1
                Scenario.edited).1 !! "K_1").
Proof.
  apply (edit_keeps_pending_changes Scenario.hostUtc Cases.editGrade1 Scenario.edited "K_1").
  vm_compute. eauto.
Defined.

End Part001Batches.
(** * The life cycle of [Part001] *)

Section Part001Cycle.
Import Spec Props.

(** What the wire handlers leave alone. *)
Lemma wiredConfig_work (result : WireResult Config) (st : State) :
  let st' := (Part001.wiredConfig result st).1 in
  pendingChanges st' = pendingChanges st /\ hasChanges st' = hasChanges st /\
  draftValues st' = draftValues st /\ isLoading st' = isLoading st.
Proof.
  unfold Part001.wiredConfig, Part001.processLicenseData.
  destruct (resultData result); simpl.
  - by destruct (bool_decide _).
  - by destruct (resultError result).
Qed.

Lemma wiredGetLicenseData_work (result : WireResult (list LicenseRecord)) (st : State) :
  let st' := (Part001.wiredGetLicenseData result st).1 in
  pendingChanges st' = pendingChanges st /\ hasChanges st' = hasChanges st /\
  draftValues st' = draftValues st /\ isLoading st' = isLoading st.
Proof.
  unfold Part001.wiredGetLicenseData, Part001.processLicenseData.
  destruct (resultData result); simpl.
  - by destruct (configData st).
  - destruct (resultError result) as [e|]; [|done]. by destruct (body e).
Qed.

Lemma coercePending_bounded (v : value) :
  inRange v = true ->
  Part001.coercePending v = VNull \/
  exists z, 0 <= z <= quantityBound /\ Part001.coercePending v = VNum z.
Proof.
  intros Hv. unfold Part001.coercePending.
  destruct (negb _ && negb _ && negb _); [| by left].
  destruct (parseInt v) as [n |] eqn:Hn; [| by left].
  pose proof (inRange_parseInt v n Hv Hn) as Hbound.
  destruct (n <? 0) eqn:Hneg; [by left |].
  right. exists n. split; [lia | done].
Qed.

(** The pending changes stay well formed through the entries that a draft
    within range adds. *)
Lemma recordDraft_well_formed (rows : list obj) (pending : gmap string PendingChange)
    (draft : obj) :
  draftInRange draft -> PendingWellFormed pending ->
  PendingWellFormed (Part001.recordDraft rows pending draft).
Proof.
  intros Hdraft Hpending. unfold Part001.recordDraft.
  destruct (List.find _ _) as [originalRow |]; [| done].
  revert Hdraft.
  apply (map_fold_weak_ind (fun r (m : obj) => draftInRange m -> PendingWellFormed r));
    [done |].
  intros field v m r Hfresh IH Hm.
  apply map_Forall_insert in Hm as [Hv Hm]; [| done].
  specialize (IH Hm).
  destruct (bool_decide _ && bool_decide _ && startsWith _ _); [| done].
  intros key change Hkey.
  destruct (decide (toStr (get originalRow "grade") +:+ "_" +:+ replaceFirst "year" "" field
                    = key)) as [<- | Hne].
  - rewrite lookup_insert_eq in Hkey. injection Hkey as <-. simpl.
    split; [done |]. by apply coercePending_bounded.
  - rewrite lookup_insert_ne in Hkey by done. by apply IH.
Qed.

Lemma handleDraftValueChange_well_formed (h : Host) (drafts : list obj) (st : State) :
  Forall draftInRange drafts -> PendingWellFormed (pendingChanges st) ->
  PendingWellFormed (pendingChanges (Part001.handleDraftValueChange h drafts st).1).
Proof.
  intros Hdrafts Hpending.
  destruct (List.filter Part001.notTotals drafts) as [| d l] eqn:Hf.
  { by rewrite handleDraftValueChange_empty. }
  rewrite handleDraftValueChange_pending by (rewrite Hf; discriminate).
  generalize (map (Part001.updateRow (List.filter Part001.notTotals drafts))
                  (List.filter Part001.notTotals (gridData st))).
  intros rows. clear Hf.
  assert (Forall draftInRange (List.filter Part001.notTotals drafts)) as Hfiltered.
  { apply Forall_forall. intros draft Hdraft.
    apply list_elem_of_In, List.filter_In in Hdraft as [Hdraft _].
    apply list_elem_of_In in Hdraft.
    by apply (proj1 (Forall_forall _ _) Hdrafts). }
  revert Hpending. generalize (pendingChanges st).
  induction Hfiltered as [| draft ds Hdraft _ IH]; intros pending Hpending; [done |].
  simpl. apply IH. by apply recordDraft_well_formed.
Qed.

(** X4. Whatever the handlers have done since the component was
    constructed, in any order and with saves in flight, as long as what
    the wires and the edits hand over is within the range in which the
    runtime's numbers are exact: every pending change is filed under the
    key made of its own grade and year, and its quantity is [null] or a
    non-negative integer within [quantityBound].  No negative number,
    [NaN] or text is then handed to the persistence call. *)
Theorem reachable_pending_well_formed (h : Host) (awaited : Awaited) (st : State) :
  reachable h inRangeInput awaited st -> PendingWellFormed (pendingChanges st).
Proof.
  induction 1 as [rid | awaited st input _ IH Hinput _].
  - intros key change Hkey. cbn in Hkey. by rewrite lookup_empty in Hkey.
  - destruct input as [result | result | drafts | | error | datatable | failure
                      | datatable];
      cbn [step]; try exact IH.
    + by rewrite (proj1 (wiredConfig_work result st)).
    + by rewrite (proj1 (wiredGetLicenseData_work result st)).
    + by apply handleDraftValueChange_well_formed.
    + by destruct (handleSave_start_cases h st) as [[_ ->] | [_ ->]].
    + intros key change Hkey. cbn in Hkey. by rewrite lookup_empty in Hkey.
    + intros key change Hkey. cbn in Hkey. by rewrite lookup_empty in Hkey.
Qed.

Lemma reachable_pending_well_formed_witness :
  reachable Scenario.hostUtc inRangeInput noneAwaited Scenario.edited /\
  PendingWellFormed (pendingChanges Scenario.edited).
Proof.
  split.
  - exact scenario_edited_reachable.
  - apply (reachable_pending_well_formed Scenario.hostUtc noneAwaited Scenario.edited).
    exact scenario_edited_reachable.
Defined.

(** X5. In every state the component reaches, with the handlers in any
    order and with saves in flight: a component that reports no changes
    holds no pending change and no draft; and when no call of a save is
    awaited the component is not loading, so that the two controls are
    disabled exactly when [hasChanges] is false. *)
Theorem reachable_settled (h : Host) (awaited : Awaited) (st : State) :
  reachable h anyInput awaited st ->
  Settled awaited st /\
  (awaited = noneAwaited ->
   Part001.saveButtonDisabled st = negb (hasChanges st) /\
   Part001.cancelButtonDisabled st = negb (hasChanges st)).
Proof.
  intros Hreach.
  assert (Settled awaited st) as Hsettled.
  { induction Hreach as [rid | awaited st input _ IH _ Hpossible]; [done |].
    destruct IH as [Hloading Hclean].
    destruct input as [result | result | drafts | | error | datatable | failure
                      | datatable];
      cbn [step awaitedAfter possible] in *.
    - destruct (wiredConfig_work result st) as (Hp & Hc & Hd & Hl).
      unfold Settled. by rewrite Hp, Hc, Hd, Hl.
    - destruct (wiredGetLicenseData_work result st) as (Hp & Hc & Hd & Hl).
      unfold Settled. by rewrite Hp, Hc, Hd, Hl.
    - unfold Part001.handleDraftValueChange.
      destruct (bool_decide _); simpl.
      + split; [done |]. intros Hc. by destruct (Hclean Hc).
      + split; [done |]. discriminate.
    - destruct (handleSave_start_cases h st) as [[-> ->] | [-> ->]]; [done |].
      split; [discriminate | done].
    - split; done.
    - split; [discriminate | done].
    - split; done.
    - split; done. }
  split; [done |].
  intros Hnone. destruct Hsettled as [Hloading _].
  unfold Part001.saveButtonDisabled, Part001.cancelButtonDisabled.
  rewrite (Hloading Hnone). by rewrite orb_false_r.
Qed.

Lemma reachable_settled_witness :
  Part001.saveButtonDisabled Scenario.edited = false /\
  Part001.saveButtonDisabled Scenario.loaded = true.
Proof.
  assert (forall input, inRangeInput input -> anyInput input) as Hany by done.
  split.
  - by rewrite (proj1 (proj2 (reachable_settled Scenario.hostUtc noneAwaited Scenario.edited
                                (reachable_mono _ _ _ _ _ Hany scenario_edited_reachable))
                         eq_refl)).
  - by rewrite (proj1 (proj2 (reachable_settled Scenario.hostUtc noneAwaited Scenario.loaded
                                (reachable_mono _ _ _ _ _ Hany
                                   (scenario_loaded_reachable Scenario.config eq_refl)))
                         eq_refl)).
Defined.

(** X6. [handleSave] is its first half followed, when the call went out,
    by the second on the state the first left; and while the call is in
    flight both controls are disabled, whatever the state was. *)
Theorem save_in_flight_disables_controls (h : Host) (datatable : bool)
    (outcome : SaveOutcome) (st : State) :
  let start := Part001.handleSave_start h st in
  let settle := Part001.handleSave_settle datatable outcome start.1.1 in
  Part001.handleSave h datatable outcome st
  = (if start.2 then (settle.1, start.1.2 ++ settle.2) else start.1) /\
  (start.2 = true ->
   start.1.1 = set_isLoading true st /\
   Part001.saveButtonDisabled start.1.1 = true /\
   Part001.cancelButtonDisabled start.1.1 = true).
Proof.
  unfold Part001.handleSave_start, Part001.handleSave.
  destruct (negb _ || bool_decide _); [done|].
  destruct (negb _); [done|].
  split.
  - by destruct outcome as [error|[error|]].
  - intros _. unfold Part001.saveButtonDisabled, Part001.cancelButtonDisabled. simpl.
    by rewrite !orb_true_r.
Qed.

Lemma save_in_flight_disables_controls_witness :
  Part001.saveButtonDisabled Scenario.editedWithin = false /\
  Part001.saveButtonDisabled
    (Part001.handleSave_start Scenario.hostUtc Scenario.editedWithin).1.1 = true.
Proof.
  split; [reflexivity|].
  apply (proj2 (save_in_flight_disables_controls Scenario.hostUtc true (SaveResolved None)
                  Scenario.editedWithin)).
  reflexivity.
Defined.

(** X7. An edit that arrives while the call is in flight is lost when the
    call succeeds: the call carries the changes that were pending when it
    started, and the second half empties the map it finds, so what the edit
    added is neither sent nor kept, while the grid goes on showing it. *)
Theorem edit_during_save_is_dropped (h : Host) (datatable : bool) (drafts : list obj)
    (refreshError : option (option ErrorObj)) (st : State) :
  (Part001.handleSave_start h st).2 = true ->
  let st1 := (Part001.handleSave_start h st).1.1 in
  let st2 := (Part001.handleDraftValueChange h drafts st1).1 in
  let st3 := (Part001.handleSave_settle datatable (SaveResolved refreshError) st2).1 in
  (Part001.handleSave_start h st).1.2
  = [SaveLicenseData (recordId st) (map_to_list (pendingChanges st)).*2] /\
  pendingChanges st3 = ∅ /\ hasChanges st3 = false /\ draftValues st3 = [] /\
  gridData st3 = gridData st2.
Proof.
  unfold Part001.handleSave_start.
  destruct (negb _ || bool_decide _); [discriminate|].
  destruct (negb _); [discriminate|].
  intros _. simpl. unfold Part001.handleSave_settle.
  by destruct refreshError.
Qed.

Lemma edit_during_save_is_dropped_witness :
  let st1 := (Part001.handleSave_start Scenario.hostUtc Scenario.editedWithin).1.1 in
  let st2 := (Part001.handleDraftValueChange Scenario.hostUtc Cases.editGrade1 st1).1 in
  let st3 := (Part001.handleSave_settle true (SaveResolved None) st2).1 in
  is_Some (pendingChanges st2 !! "1_2") /\ pendingChanges st3 = ∅.
Proof.
  split.
  - vm_compute. eauto.
  - apply (edit_during_save_is_dropped Scenario.hostUtc true Cases.editGrade1 None
             Scenario.editedWithin).
    reflexivity.
Defined.

(** X8. A save that goes through leaves no pending change, no draft and
    [hasChanges] false, with the grid as it was; its effects are the call,
    the success toast, the clearing of the data table when there is one and
    the refresh.  When the refresh is rejected the error toast of a failed
    save follows all the same.  Saving again right away does nothing but say
    so. *)
Theorem successful_save_clears_work (h : Host) (datatable : bool)
    (refreshError : option (option ErrorObj)) (st : State) :
  hasChanges st = true -> size (pendingChanges st) <> 0%nat ->
  isValid (Part001.validateTotals h (configData st)
             (List.filter Part001.notTotals (gridData st))) = true ->
  let after := Part001.handleSave h datatable (SaveResolved refreshError) st in
  after.1 = set_isLoading false (cleared st) /\
  after.2 = [SaveLicenseData (recordId st) (map_to_list (pendingChanges st)).*2;
             ShowToast "Success" "License quantities saved successfully" "success"]
            ++ (if datatable then [ClearDatatableDrafts] else [])
            ++ [RefreshApex]
            ++ match refreshError with
               | Some error =>
                   [ShowToast "Error"
                      ("Failed to save changes: " +:+ toStr (saveErrorMessage error)) "error"]
               | None => []
               end /\
  forall datatable' outcome,
    Part001.handleSave h datatable' outcome after.1
    = (after.1, [ShowToast "Info" "No changes to save." "info"]).
Proof.
  intros Hdirty Hsize Hvalid after. subst after.
  assert ((Part001.handleSave h datatable (SaveResolved refreshError) st).1
          = set_isLoading false (cleared st)) as Hstate.
  { unfold Part001.handleSave.
    rewrite Hdirty, Hvalid. rewrite bool_decide_eq_false_2 by done. simpl.
    by destruct refreshError. }
  split; [exact Hstate|]. split.
  - unfold Part001.handleSave.
    rewrite Hdirty, Hvalid. rewrite bool_decide_eq_false_2 by done. simpl.
    by destruct refreshError, datatable.
  - intros datatable' outcome. rewrite Hstate. reflexivity.
Qed.

Lemma successful_save_clears_work_witness :
  (Part001.handleSave Scenario.hostUtc true (SaveResolved None) Scenario.editedWithin).1
  = set_isLoading false (cleared Scenario.editedWithin).
Proof.
  apply (successful_save_clears_work Scenario.hostUtc true None Scenario.editedWithin).
  - reflexivity.
  - vm_compute. discriminate.
  - vm_compute. reflexivity.
Defined.

(** X9. Cancelling clears the pending changes and the drafts but leaves
    the grid as the edits made it; the grid is back only when the records
    wire delivers again, and then the component is where it was after the
    load, with nothing pending. *)
Theorem cancel_then_refresh_restores_the_load (h : Host) (datatable : bool)
    (drafts : list obj) (records : list LicenseRecord) (st : State) :
  is_Some (configData st) ->
  let delivery := {| resultData := Some records; resultError := None |} in
  let loaded := (Part001.wiredGetLicenseData delivery st).1 in
  let edited := (Part001.handleDraftValueChange h drafts loaded).1 in
  let cancelled := Part001.handleCancel datatable edited in
  gridData cancelled.1 = gridData edited /\
  cancelled.1 = cleared edited /\
  cancelled.2 = (if datatable then [ClearDatatableDrafts] else [])
                ++ [RefreshApex; ShowToast "Info" "Changes discarded." "info"] /\
  (Part001.wiredGetLicenseData delivery cancelled.1).1 = cleared loaded.
Proof.
  intros [cfg Hcfg] delivery loaded edited cancelled.
  split; [done|]. split; [done|]. split; [done|].
  subst cancelled edited loaded delivery.
  destruct st as [rid grid loading dirty pending drafts0 cfg0 original].
  simpl in Hcfg. subst cfg0.
  unfold Part001.handleCancel, Part001.handleDraftValueChange, Part001.wiredGetLicenseData,
    Part001.processLicenseData, cleared.
  cbn -[imap Part001.buildRow Part001.calculateTotals Part001.updateRow List.filter
        Part001.validateTotals Part001.recordDraft].
  by destruct (bool_decide _).
Qed.

Lemma cancel_then_refresh_restores_the_load_witness :
  (Part001.wiredGetLicenseData (Scenario.gotRecords Scenario.records)
     (Part001.handleCancel true Scenario.edited).1).1
  = cleared Scenario.loaded.
Proof.
  apply (cancel_then_refresh_restores_the_load Scenario.hostUtc true
           (Scenario.editK1 (VStr "70")) Scenario.records Scenario.start).
  vm_compute. eauto.
Defined.

(** X10. With records to show, the two wires may deliver in either order:
    the component ends in the same state.  With no records, the order
    shows: when the empty list comes first the later configuration does not
    build the grid, which stays as it was, while the other order builds the
    nine rows and the totals row. *)
Theorem wires_commute_when_there_are_records (cfg : Config) (records : list LicenseRecord)
    (st : State) :
  let config := {| resultData := Some cfg; resultError := None |} in
  let delivery l := {| resultData := Some l; resultError := None |} in
  (records <> [] ->
   (Part001.wiredConfig config (Part001.wiredGetLicenseData (delivery records) st).1).1
   = (Part001.wiredGetLicenseData (delivery records) (Part001.wiredConfig config st).1).1) /\
  (configData st = None ->
   gridData (Part001.wiredConfig config (Part001.wiredGetLicenseData (delivery []) st).1).1
   = gridData st /\
   length (gridData (Part001.wiredGetLicenseData (delivery [])
                       (Part001.wiredConfig config st).1).1) = 10%nat).
Proof.
  intros config delivery. subst config delivery.
  destruct st as [rid grid loading dirty pending drafts0 cfg0 original].
  unfold Part001.wiredConfig, Part001.wiredGetLicenseData, Part001.processLicenseData.
  split.
  - intros Hne. destruct records as [|r records]; [done|].
    cbn -[imap Part001.buildRow Part001.calculateTotals].
    by destruct cfg0, (bool_decide (0 < length original)%nat).
  - cbn -[imap Part001.buildRow Part001.calculateTotals]. intros ->.
    split; [done|].
    destruct (bool_decide (0 < length original)%nat);
      cbn -[imap Part001.buildRow Part001.calculateTotals];
      by rewrite length_app, length_imap.
Qed.

Lemma wires_commute_when_there_are_records_witness :
  (Part001.wiredConfig (Scenario.gotConfig Scenario.config)
     (Part001.wiredGetLicenseData (Scenario.gotRecords Scenario.records)
        (initialState (VStr "a0B000000000001"))).1).1
  = Scenario.loaded /\
  gridData (Part001.wiredConfig (Scenario.gotConfig Scenario.config)
              (Part001.wiredGetLicenseData (Scenario.gotRecords [])
                 (initialState (VStr "a0B000000000001"))).1).1 = [].
Proof.
  split.
  - apply (proj1 (wires_commute_when_there_are_records Scenario.config Scenario.records
                    (initialState (VStr "a0B000000000001")))).
    discriminate.
  - apply (proj2 (wires_commute_when_there_are_records Scenario.config Scenario.records
                    (initialState (VStr "a0B000000000001")))).
    reflexivity.
Defined.

End Part001Cycle.
(** * Columns and the rows under them *)

Section Columns.
Import Spec Props.

(** The keys of a row after the loop over the years. *)
Lemma foldl_insert_is_Some {A : Type} (f : nat -> string) (g : nat -> A)
    (l : list nat) (m : gmap string A) (k : string) :
  is_Some (foldl (fun acc y => <[f y := g y]> acc) m l !! k)
  <-> is_Some (m !! k) \/ exists y, y ∈ l /\ f y = k.
Proof.
  revert m. induction l as [|a l IH]; intros m; simpl.
  - split; [auto|]. intros [?|(y & Hy & _)]; [done|]. by apply elem_of_nil in Hy.
  - rewrite IH, lookup_insert_is_Some'. split.
    + intros [[Heq|Hm]|(y & Hy & Hk)].
      * right. exists a. split; [left|done].
      * by left.
      * right. exists y. split; [by right|done].
    + intros [Hm|(y & Hy & Hk)]; [by left; right|].
      apply elem_of_cons in Hy as [->|Hy]; [by left; left|].
      right. by exists y.
Qed.

Lemma Part001_newRow_keys (index : nat) (grade k : string) :
  is_Some (Part001.newRow index grade !! k) <-> k ∈ ["id"; "grade"; "rowClass"; "gradeClass"].
Proof.
  unfold Part001.newRow. rewrite <- insert_empty.
  rewrite !lookup_insert_is_Some', lookup_empty, <- not_eq_None_Some.
  rewrite !elem_of_cons, elem_of_nil. intuition auto.
Qed.

Lemma Part001_totalsBase_keys (k : string) :
  is_Some (Part001.totalsBase !! k) <-> k ∈ ["id"; "grade"; "rowClass"; "gradeClass"].
Proof.
  unfold Part001.totalsBase. rewrite <- insert_empty.
  rewrite !lookup_insert_is_Some', lookup_empty, <- not_eq_None_Some.
  rewrite !elem_of_cons, elem_of_nil. intuition auto.
Qed.

(** X11. The columns of [Part001] and the rows it builds fit: under a
    configuration the field names are [grade] and [year1] .. [yearN], only
    the grade column is read-only, and every row of the built grid, the
    totals row included, has a cell for exactly these fields besides its
    [id] and its two style classes. *)
Theorem columns_match_built_rows (h : Host) (data : list LicenseRecord) (st : State)
    (cfg : Config) :
  configData st = Some cfg ->
  let years := yearsUpTo (lengthOr 7 (F5_Contract_Length__c cfg)) in
  let cols := Part001.columns h (configData st) in
  map fieldName cols = "grade" :: map yearKey years /\
  map editable cols = false :: map (fun _ => true) years /\
  forall row k,
    row ∈ gridData (Part001.processLicenseData data st) ->
    is_Some (row !! k)
    <-> k ∈ map fieldName cols \/ k ∈ ["id"; "rowClass"; "gradeClass"].
Proof.
  intros Hcfg years cols. subst cols. rewrite Hcfg.
  assert (map fieldName (Part001.columns h (Some cfg)) = "grade" :: map yearKey years)
    as Hnames.
  { unfold Part001.columns. simpl. f_equal. by rewrite map_map. }
  split; [exact Hnames|]. split.
  { unfold Part001.columns. simpl. f_equal. by rewrite map_map. }
  intros row k Hrow. rewrite Hnames.
  rewrite (processLicenseData_grid data st cfg Hcfg) in Hrow.
  assert (forall base : obj,
            (is_Some (base !! k) <-> k ∈ ["id"; "grade"; "rowClass"; "gradeClass"]) ->
            forall g : nat -> value,
              is_Some (foldl (fun acc y => <[yearKey y := g y]> acc) base years !! k)
              <-> k ∈ "grade" :: map yearKey years \/ k ∈ ["id"; "rowClass"; "gradeClass"])
    as Hkeys.
  { intros base Hbase g. rewrite foldl_insert_is_Some, Hbase.
    rewrite !elem_of_cons, elem_of_nil, list_elem_of_fmap. split.
    - intros [Hfixed|(y & Hy & <-)]; [intuition auto|]. left. right. eauto.
    - intros [[->|(y & -> & Hy)]|Hfixed]; [left; auto|right; eauto|].
      left. intuition auto. }
  apply elem_of_app in Hrow as [Hrow|Hrow].
  - apply elem_of_lookup_imap in Hrow as (index & grade & -> & _).
    unfold Part001.buildRow. apply Hkeys, Part001_newRow_keys.
  - apply list_elem_of_singleton in Hrow as ->.
    unfold Part001.calculateTotals. apply Hkeys, Part001_totalsBase_keys.
Qed.

Lemma columns_match_built_rows_witness :
  map fieldName (Part001.columns Scenario.hostUtc (configData Scenario.start))
  = ["grade"; "year1"; "year2"; "year3"].
Proof.
  apply (columns_match_built_rows Scenario.hostUtc Scenario.records Scenario.start
           Scenario.config).
  reflexivity.
Defined.

(** The field names of a column list built by [mapM]. *)
Lemma mapM_yearColumn_names (column : nat -> option Column) (years : list nat)
    (cols : list Column) :
  (forall i c, column i = Some c -> fieldName c = yearKey i) ->
  mapM column years = Some cols -> map fieldName cols = map yearKey years.
Proof.
  intros Hname Hcols. apply mapM_Some in Hcols.
  induction Hcols as [|i c years cols Hc _ IH]; [done|].
  simpl. by rewrite (Hname i c Hc), IH.
Qed.

Lemma LwcGrid_columns_names (h : Host) (cfg : Config) (cols : list Column) :
  LwcGrid.columns h (Some cfg) = Some cols ->
  map fieldName cols
  = "grade" :: map yearKey (yearsUpTo (lengthOr 7 (F5_Contract_Length__c cfg))).
Proof.
  unfold LwcGrid.columns. simpl.
  destruct (mapM _ _) as [cols'|] eqn:Hcols; [|done].
  intros [= <-]. simpl. f_equal.
  apply (mapM_yearColumn_names (LwcGrid.yearColumn h cfg)); [|done].
  intros i c. unfold LwcGrid.yearColumn.
  destruct (LwcGrid.dateLabel h cfg i); [|done]. by intros [= <-].
Qed.

Lemma Part000_columns_names (h : Host) (cfg : Config) (cols : list Column) :
  Part000.columns h (Some cfg) = Some cols ->
  map fieldName cols
  = "grade" :: map yearKey (yearsUpTo (lengthOr 5 (F5_Contract_Length__c cfg))).
Proof.
  unfold Part000.columns. simpl.
  destruct (mapM _ _) as [cols'|] eqn:Hcols; [|done].
  intros [= <-]. simpl. f_equal.
  apply (mapM_yearColumn_names (Part000.yearColumn h cfg)); [|done].
  intros i c. unfold Part000.yearColumn.
  destruct (Part000.dateLabel h cfg i); [|done]. by intros [= <-].
Qed.

Lemma year_cells (g : nat -> value) (base : obj) (years : list nat) (year : nat) :
  (forall y, base !! yearKey y = None) ->
  is_Some (foldl (fun acc y => <[yearKey y := g y]> acc) base years !! yearKey year)
  <-> year ∈ years.
Proof.
  intros Hbase. rewrite foldl_insert_is_Some, Hbase. split.
  - intros [[? [=]]|(y & Hy & Heq)]. by apply (inj yearKey) in Heq as ->.
  - intros Hy. right. by exists year.
Qed.

(** The year cells of the rows that [LwcGrid] builds. *)
Lemma LwcGrid_year_cells (data : list LicenseRecord) (st : State) (row : obj) (year : nat) :
  row ∈ gridData (LwcGrid.processLicenseData data st) ->
  is_Some (row !! yearKey year) <-> year ∈ yearsUpTo (configYears 5 (configData st)).
Proof.
  intros Hrow. unfold LwcGrid.processLicenseData in Hrow.
  cbn [gridData set_gridData] in Hrow.
  apply elem_of_app in Hrow as [Hrow|Hrow].
  - apply elem_of_lookup_imap in Hrow as (index & grade & -> & _).
    by apply (year_cells _ (LwcGrid.newRow index grade)).
  - apply list_elem_of_singleton in Hrow as ->.
    by apply (year_cells _ LwcGrid.totalsBase).
Qed.

(** X12. Where the configuration has no contract length, the older
    revisions lay out columns and cells by different defaults.  The second
    component of [licenseQuantityGrid.js] shows seven year columns over rows
    that have cells for five, so the last two columns have nothing under
    them; [part_000] shows five columns over rows that hold seven years, so
    two years of quantities are never shown. *)
Theorem default_lengths_disagree (h : Host) (data : list LicenseRecord) (st : State)
    (cfg : Config) :
  configData st = Some cfg -> truthy (F5_Contract_Length__c cfg) = false ->
  (forall cols, LwcGrid.columns h (Some cfg) = Some cols ->
     map fieldName cols = "grade" :: map yearKey (seq 1 7)) /\
  (forall row year, row ∈ gridData (LwcGrid.processLicenseData data st) ->
     is_Some (row !! yearKey year) <-> (1 <= year <= 5)%nat) /\
  (forall cols, Part000.columns h (Some cfg) = Some cols ->
     map fieldName cols = "grade" :: map yearKey (seq 1 5)) /\
  (forall row year, row ∈ gridData (Part000.processLicenseData data st) ->
     is_Some (row !! yearKey year) <-> (1 <= year <= 7)%nat).
Proof.
  intros Hcfg Hlen.
  assert (forall n, lengthOr n (F5_Contract_Length__c cfg) = Some n) as Hdefault.
  { intros n. unfold lengthOr. by rewrite Hlen. }
  assert (forall n year, year ∈ seq 1 n <-> (1 <= year <= n)%nat) as Hseq.
  { intros n year. rewrite elem_of_seq. lia. }
  split; [|split; [|split]].
  - intros cols Hcols. apply LwcGrid_columns_names in Hcols.
    by rewrite Hdefault in Hcols.
  - intros row year Hrow. rewrite (LwcGrid_year_cells data st row year Hrow), Hcfg.
    cbn [configYears]. rewrite Hdefault. apply Hseq.
  - intros cols Hcols. apply Part000_columns_names in Hcols.
    by rewrite Hdefault in Hcols.
  - intros row year Hrow. unfold Part000.processLicenseData in Hrow.
    rewrite Hcfg in Hrow. cbn [gridData set_gridData] in Hrow.
    rewrite <- (Hseq 7%nat).
    apply elem_of_lookup_imap in Hrow as (index & grade & -> & _).
    unfold Part000.buildRow. cbn [configYears]. rewrite Hdefault.
    by apply (year_cells _ (Part000.newRow index grade)).
Qed.

Lemma default_lengths_disagree_witness :
  (map fieldName <$> LwcGrid.columns Scenario.hostUtc (Some Cases.configNoLength))
  = Some ["grade"; "year1"; "year2"; "year3"; "year4"; "year5"; "year6"; "year7"] /\
  ~ is_Some (LwcGrid.buildRow (buildDataMap Scenario.records) (Some 5) 0 "K" !! "year6").
Proof.
  split; [reflexivity|].
  intros Hcell.
  assert (LwcGrid.buildRow (buildDataMap Scenario.records) (Some 5) 0 "K"
          ∈ gridData (LwcGrid.processLicenseData Scenario.records
                        (Cases.withConfig Cases.configNoLength)))
    as Hrow by (apply list_elem_of_lookup; by exists 0%nat).
  apply (proj1 (proj2 (default_lengths_disagree Scenario.hostUtc Scenario.records
                         (Cases.withConfig Cases.configNoLength) Cases.configNoLength
                         eq_refl eq_refl)) _ 6%nat Hrow) in Hcell.
  lia.
Defined.

(** X13. Without dates in the configuration [Part001] labels year column
    [i] with [Year i], so that no two columns share a label.  The two older
    revisions label column 1 [Year 1] and column [i] from the second on
    [Year i-1]: their first two year columns are both [Year 1], and a
    message of the validator of [LwcGrid] about the second year names the
    first. *)
Theorem undated_labels (h : Host) (cfg : Config) (i : nat) :
  present (F5_LMS_Start_Date__c cfg) = false ->
  present (F5_Initial_Renewal_date__c cfg) = false ->
  (1 <= i)%nat ->
  Part001.dateLabel h cfg i = VStr ("Year " +:+ pretty i) /\
  LwcGrid.dateLabel h cfg i = Some (VStr ("Year " +:+ pretty (Nat.max 1 (i - 1)))) /\
  Part000.dateLabel h cfg i = Some (VStr ("Year " +:+ pretty (Nat.max 1 (i - 1)))) /\
  NoDup (map label (Part001.columns h (Some cfg))) /\
  (i ∈ yearsUpTo (lengthOr 7 (F5_Contract_Length__c cfg)) ->
   LwcGrid.getYearLabel h (Some cfg) i
   = Some (VStr ("Year " +:+ pretty (Nat.max 1 (i - 1))))).
Proof.
  intros Hstart Hrenewal Hi.
  assert (forall j, (1 <= j)%nat ->
            Part001.dateLabel h cfg j = VStr ("Year " +:+ pretty j)) as H001.
  { intros j Hj. unfold Part001.dateLabel. rewrite Hstart, Hrenewal.
    destruct (bool_decide (j = 1%nat)) eqn:Hone; [|done].
    by apply bool_decide_eq_true_1 in Hone as ->. }
  assert (forall j, (1 <= j)%nat ->
            LwcGrid.dateLabel h cfg j
            = Some (VStr ("Year " +:+ pretty (Nat.max 1 (j - 1))))) as Hlwc.
  { intros j Hj. unfold LwcGrid.dateLabel. rewrite Hstart, Hrenewal.
    destruct (bool_decide (j = 1%nat)) eqn:Hone.
    - by apply bool_decide_eq_true_1 in Hone as ->.
    - apply bool_decide_eq_false_1 in Hone.
      replace (Nat.max 1 (j - 1)) with (j - 1)%nat by lia.
      replace (Z.of_nat j - 1) with (Z.of_nat (j - 1)) by lia.
      by rewrite pretty_Z_of_nat. }
  split; [by apply H001|]. split; [by apply Hlwc|]. split.
  { unfold Part000.dateLabel. rewrite Hstart, Hrenewal.
    destruct (bool_decide (i = 1%nat)) eqn:Hone.
    - by apply bool_decide_eq_true_1 in Hone as ->.
    - apply bool_decide_eq_false_1 in Hone.
      replace (Nat.max 1 (i - 1)) with (i - 1)%nat by lia.
      replace (Z.of_nat i - 1) with (Z.of_nat (i - 1)) by lia.
      by rewrite pretty_Z_of_nat. }
  split.
  - unfold Part001.columns. simpl. rewrite map_map. simpl.
    apply NoDup_cons. split.
    + intros Hin. apply list_elem_of_fmap in Hin as (j & Hj & Hyear).
      apply elem_of_yearsUpTo in Hyear as (z & _ & Hpos & _).
      rewrite H001 in Hj by done. discriminate Hj.
    + apply NoDup_fmap_2_strong; [|unfold yearsUpTo; destruct (lengthOr _ _);
                                    [apply NoDup_seq|apply NoDup_nil_2]].
      intros j k Hj Hk.
      apply elem_of_yearsUpTo in Hj as (z & _ & Hj & _).
      apply elem_of_yearsUpTo in Hk as (z' & _ & Hk & _).
      rewrite !H001 by done. intros Heq. simpl in Heq.
      injection Heq as Heq. change (pretty j = pretty k) in Heq.
      by apply (inj (pretty : nat -> string)) in Heq.
  - intros Hyear. unfold LwcGrid.getYearLabel, LwcGrid.columns.
    assert (mapM (LwcGrid.yearColumn h cfg)
                 (yearsUpTo (lengthOr 7 (F5_Contract_Length__c cfg)))
            = Some (map (fun j => {| label := VStr ("Year " +:+ pretty (Nat.max 1 (j - 1)));
                                     fieldName := yearKey j; type := "number";
                                     editable := true |})
                        (yearsUpTo (lengthOr 7 (F5_Contract_Length__c cfg))))) as ->.
    { apply mapM_Some. apply Forall2_fmap_r, Forall_Forall2_diag, Forall_forall.
      intros j Hj. apply elem_of_yearsUpTo in Hj as (z & _ & Hj & _).
      unfold LwcGrid.yearColumn. by rewrite Hlwc. }
    simpl.
    apply elem_of_yearsUpTo in Hyear as (z & Hz & Hpos & Hle).
    rewrite Hz. unfold yearsUpTo.
    destruct i as [|i]; [lia|]. simpl.
    rewrite list_lookup_fmap, lookup_seq_lt by lia. simpl.
    do 5 f_equal; lia.
Qed.

Lemma undated_labels_witness :
  LwcGrid.getYearLabel Scenario.hostUtc (Some Scenario.config) 2 = Some (VStr "Year 1") /\
  Part001.dateLabel Scenario.hostUtc Scenario.config 2 = VStr "Year 2".
Proof.
  split.
  - apply (undated_labels Scenario.hostUtc Scenario.config 2); try reflexivity; [lia|].
    apply elem_of_yearsUpTo. exists 3. split; [reflexivity|]. lia.
  - apply (undated_labels Scenario.hostUtc Scenario.config 2); try reflexivity. lia.
Defined.

End Columns.
(** * Dates in the column labels *)

Section DateLabels.
Import Spec Props.

Lemma pretty_N_go_digit (x d : N) (s : string) :
  (d < 10)%N -> (0 < 10 * x + d)%N ->
  pretty_N_go (10 * x + d) s = pretty_N_go x (String (pretty_N_char d) s).
Proof.
  intros Hd Hpos. rewrite pretty_N_go_step by done.
  replace ((10 * x + d) `div` 10)%N with x
    by (apply (N.div_unique _ 10 x d); lia).
  replace ((10 * x + d) `mod` 10)%N with d
    by (apply (N.mod_unique _ 10 x d); lia).
  done.
Qed.

Lemma pretty_Z_N (y : Z) : 0 <= y -> pretty y = pretty (Z.to_N y).
Proof. destruct y; [done|done|lia]. Qed.

(** The four digits of a year. *)
Lemma pretty_N_digits4 (a b c d : N) :
  (a < 10)%N -> (b < 10)%N -> (c < 10)%N -> (d < 10)%N ->
  let text := String (pretty_N_char a) (String (pretty_N_char b)
                (String (pretty_N_char c) (String (pretty_N_char d) ""))) in
  padZeros 4 (pretty (10 * (10 * (10 * (10 * 0 + a) + b) + c) + d)%N) = text /\
  ((0 < a)%N -> pretty (10 * (10 * (10 * (10 * 0 + a) + b) + c) + d)%N = text).
Proof.
  intros Ha Hb Hc Hd text. subst text.
  unfold pretty, pretty_N.
  destruct (decide (a = 0)%N) as [->|Ha0].
  - split; [|lia].
    destruct (decide (b = 0)%N) as [->|Hb0].
    + destruct (decide (c = 0)%N) as [->|Hc0].
      * destruct (decide (d = 0)%N) as [->|Hd0]; [done|].
        rewrite decide_False by lia.
        replace (10 * (10 * (10 * (10 * 0 + 0) + 0) + 0) + d)%N with (10 * 0 + d)%N by lia.
        by rewrite pretty_N_go_digit, pretty_N_go_0 by lia.
      * rewrite decide_False by lia.
        replace (10 * (10 * (10 * (10 * 0 + 0) + 0) + c) + d)%N
          with (10 * (10 * 0 + c) + d)%N by lia.
        by rewrite !pretty_N_go_digit, pretty_N_go_0 by lia.
    + rewrite decide_False by lia.
      replace (10 * (10 * (10 * (10 * 0 + 0) + b) + c) + d)%N
        with (10 * (10 * (10 * 0 + b) + c) + d)%N by lia.
      by rewrite !pretty_N_go_digit, pretty_N_go_0 by lia.
  - rewrite decide_False by lia.
    by rewrite !pretty_N_go_digit, pretty_N_go_0 by lia.
Qed.

Lemma pretty_digits4 (a b c d : Z) :
  0 <= a <= 9 -> 0 <= b <= 9 -> 0 <= c <= 9 -> 0 <= d <= 9 ->
  let text := String (digitChar a) (String (digitChar b)
                (String (digitChar c) (String (digitChar d) ""))) in
  padZeros 4 (pretty (1000 * a + 100 * b + 10 * c + d)) = text /\
  (1 <= a -> pretty (1000 * a + 100 * b + 10 * c + d) = text).
Proof.
  intros Ha Hb Hc Hd text. subst text. unfold digitChar.
  rewrite pretty_Z_N by lia.
  replace (Z.to_N (1000 * a + 100 * b + 10 * c + d))
    with (10 * (10 * (10 * (10 * 0 + Z.to_N a) + Z.to_N b) + Z.to_N c) + Z.to_N d)%N by lia.
  destruct (pretty_N_digits4 (Z.to_N a) (Z.to_N b) (Z.to_N c) (Z.to_N d)) as [Hpad Hplain];
    try lia.
  split; [exact Hpad|]. intros H1. apply Hplain. lia.
Qed.

Lemma pad2_digits (a b : Z) :
  0 <= a <= 9 -> 0 <= b <= 9 ->
  pad2 (10 * a + b) = String (digitChar a) (String (digitChar b) "").
Proof.
  intros Ha Hb.
  assert (a = 0 \/ a = 1 \/ a = 2 \/ a = 3 \/ a = 4 \/ a = 5 \/ a = 6
          \/ a = 7 \/ a = 8 \/ a = 9) as Hcases by lia.
  assert (b = 0 \/ b = 1 \/ b = 2 \/ b = 3 \/ b = 4 \/ b = 5 \/ b = 6
          \/ b = 7 \/ b = 8 \/ b = 9) as Hcases' by lia.
  repeat (destruct Hcases as [-> | Hcases]);
    repeat (destruct Hcases' as [-> | Hcases']); subst; reflexivity.
Qed.

Lemma digitOf_digitChar (d : Z) : 0 <= d <= 9 -> digitOf (digitChar d) = Some d.
Proof.
  intros Hd. unfold digitChar. rewrite digitOf_pretty_N_char by lia.
  f_equal. lia.
Qed.

Lemma digitChar_digitOf (c : ascii) (d : Z) :
  digitOf c = Some d -> 0 <= d <= 9 /\ digitChar d = c.
Proof.
  destruct c as [[] [] [] [] [] [] [] []]; vm_compute; intros [= <-];
    split; try reflexivity; split; discriminate.
Qed.

Lemma append_String (c : ascii) (r s : string) : String c r +:+ s = String c (r +:+ s).
Proof. reflexivity. Qed.

Lemma append_empty (s : string) : "" +:+ s = s.
Proof. reflexivity. Qed.

Lemma readDigits_0 (r : string) (acc : Z) : readDigits 0 r acc = Some (acc, r).
Proof. reflexivity. Qed.

Lemma expect_String (c : ascii) (r : string) : expect c (String c r) = Some r.
Proof. unfold expect. by rewrite bool_decide_eq_true_2. Qed.

Lemma readDigits_digitChar (n : nat) (d : Z) (r : string) (acc : Z) :
  0 <= d <= 9 ->
  readDigits (S n) (String (digitChar d) r) acc = readDigits n r (10 * acc + d).
Proof. intros Hd. simpl. by rewrite digitOf_digitChar. Qed.

(** The text [toISOString] writes is read back as the same date. *)
Lemma isoDateFields_isoText (y m d : Z) :
  0 <= y <= 9999 -> 0 <= m <= 99 -> 0 <= d <= 99 ->
  isoDateFields (isoText y m d) = Some (y, m, d).
Proof.
  intros Hy Hm Hd.
  assert (y = 1000 * (y / 1000) + 100 * (y / 100 mod 10) + 10 * (y / 10 mod 10) + y mod 10)
    as Hyeq by (Z.div_mod_to_equations; lia).
  assert (m = 10 * (m / 10) + m mod 10) as Hmeq by (Z.div_mod_to_equations; lia).
  assert (d = 10 * (d / 10) + d mod 10) as Hdeq by (Z.div_mod_to_equations; lia).
  unfold isoText.
  rewrite Hyeq at 1. rewrite Hmeq at 1. rewrite Hdeq at 1.
  rewrite (proj1 (pretty_digits4 (y / 1000) (y / 100 mod 10) (y / 10 mod 10) (y mod 10)
                     ltac:(Z.div_mod_to_equations; lia) ltac:(Z.div_mod_to_equations; lia)
                     ltac:(Z.div_mod_to_equations; lia) ltac:(Z.div_mod_to_equations; lia))).
  rewrite !pad2_digits by (Z.div_mod_to_equations; lia).
  unfold isoDateFields.
  rewrite !append_String, !append_empty.
  rewrite !readDigits_digitChar, readDigits_0 by (Z.div_mod_to_equations; lia).
  cbn [mbind option_bind]. rewrite expect_String. cbn [mbind option_bind].
  rewrite !readDigits_digitChar, readDigits_0 by (Z.div_mod_to_equations; lia).
  cbn [mbind option_bind]. rewrite expect_String. cbn [mbind option_bind].
  rewrite !readDigits_digitChar, readDigits_0 by (Z.div_mod_to_equations; lia).
  cbn [mbind option_bind].
  rewrite bool_decide_eq_true_2 by done.
  do 2 f_equal; [f_equal|]; lia.
Qed.

Lemma toISODate_midnight (y m d : Z) :
  0 <= y <= 9999 -> 1 <= m <= 12 -> 1 <= d <= daysInMonth y m ->
  toISODate (daysFromCivil y m d * msPerDay) = isoText y m d.
Proof.
  intros Hy Hm Hd. unfold toISODate, day.
  rewrite Z.div_mul by done. rewrite civil_round_trip by done.
  by rewrite (proj2 (Z.leb_le 0 y)), (proj2 (Z.leb_le y 9999)) by lia.
Qed.

Lemma daysFromCivil_day (y m d : Z) : daysFromCivil y m d = daysFromCivil y m 1 + d - 1.
Proof. unfold daysFromCivil. lia. Qed.

Lemma daysInMonth_range (y m : Z) : 28 <= daysInMonth y m <= 31.
Proof.
  unfold daysInMonth.
  destruct (m =? 2); [destruct (isLeapYear y); lia|].
  destruct ((m =? 4) || (m =? 6) || (m =? 9) || (m =? 11)); lia.
Qed.

Lemma daysFromCivil_bounds (y m d : Z) :
  0 <= y <= 9999 -> 1 <= m <= 12 -> 1 <= d <= 62 ->
  -1000000 <= daysFromCivil y m d <= 3000000.
Proof.
  intros Hy Hm Hd. unfold daysFromCivil.
  destruct (m <=? 2); Z.div_mod_to_equations; lia.
Qed.

(** [setFullYear] on midnight UTC of a date, at or east of UTC. *)
Lemma setFullYear_east (h : Host) (y m d year : Z) :
  0 <= LocalTZA h < msPerDay ->
  1 <= m <= 12 -> 1 <= d <= daysInMonth y m -> 0 <= year <= 9999 ->
  getFullYear h (daysFromCivil y m d * msPerDay) = y /\
  setFullYear h (daysFromCivil y m d * msPerDay) year
  = Some ((daysFromCivil year m 1 + d - 1) * msPerDay).
Proof.
  intros Htz Hm Hd Hyear.
  pose proof (proj1 (day_localTime h (daysFromCivil y m d)) Htz) as Hday.
  unfold getFullYear, setFullYear. rewrite Hday, civil_round_trip by done.
  split; [done|].
  assert (timeWithinDay (localTime h (daysFromCivil y m d * msPerDay)) = LocalTZA h) as ->.
  { unfold timeWithinDay, localTime.
    rewrite Z.add_comm, Z.mod_add by done. apply Z.mod_small. lia. }
  unfold utcTime, timeClip.
  replace ((daysFromCivil year m 1 + d - 1) * msPerDay + LocalTZA h - LocalTZA h)
    with ((daysFromCivil year m 1 + d - 1) * msPerDay) by lia.
  pose proof (daysInMonth_range y m) as Hrange.
  pose proof (daysFromCivil_bounds year m 1 Hyear Hm ltac:(lia)) as Hbound.
  rewrite (proj2 (Z.leb_le _ _)); [done|].
  unfold msPerDay. lia.
Qed.

Lemma leap_day_runs_over (y : Z) :
  isLeapYear y = false -> daysFromCivil y 2 1 + 29 - 1 = daysFromCivil y 3 1.
Proof.
  intros Hleap.
  assert (~ ((y mod 4 = 0 /\ y mod 100 <> 0) \/ y mod 400 = 0)) as Hcommon.
  { rewrite <- isLeapYear_true. by rewrite Hleap. }
  assert (y mod 400 <> 0) as Hera by tauto.
  assert ((y - 1) / 400 = y / 400) as Hsame by (Z.div_mod_to_equations; lia).
  assert (y mod 4 = (y - y / 400 * 400) mod 4) as H4 by (Z.div_mod_to_equations; lia).
  assert (y mod 100 = (y - y / 400 * 400) mod 100) as H100
    by (Z.div_mod_to_equations; lia).
  assert (0 < y - y / 400 * 400 < 400) as Hyoe by (Z.div_mod_to_equations; lia).
  unfold daysFromCivil. cbv zeta.
  change (2 <=? 2) with true. change (3 <=? 2) with false. cbv iota.
  change ((2 + 9) mod 12) with 11. change ((3 + 9) mod 12) with 0.
  change ((153 * 11 + 2) / 5) with 337. change ((153 * 0 + 2) / 5) with 0.
  rewrite Hsame.
  replace (y - 1 - y / 400 * 400) with (y - y / 400 * 400 - 1) by lia.
  rewrite H4, H100 in Hcommon.
  set (yoe := y - y / 400 * 400) in *. clearbody yoe.
  clear H4 H100 Hsame Hera Hleap.
  assert (yoe mod 4 <> 0 \/ yoe mod 100 = 0) as Hcases by lia.
  clear Hcommon. Z.div_mod_to_equations. lia.
Qed.

(** Adding years to midnight UTC of a date, at or east of UTC. *)
Lemma addYears_midnight (h : Host) (s : string) (y m d n : Z) :
  0 <= LocalTZA h < msPerDay ->
  isoDateFields s = Some (y, m, d) ->
  1 <= m <= 12 -> 1 <= d <= daysInMonth y m ->
  0 <= y + n <= 9999 ->
  Part001.addYearsToDateString h (Some s) n
  = Some (toISODate ((daysFromCivil (y + n) m 1 + d - 1) * msPerDay)) /\
  LwcGrid.addYearsToDateString h (Some s) n
  = Some (Part001.addYearsToDateString h (Some s) n).
Proof.
  intros Htz Hs Hm Hd Hyear.
  destruct (newDate_iso h s y m d Hs Hm Hd) as [Hne Hnew].
  destruct (setFullYear_east h y m d (y + n) Htz Hm Hd Hyear) as [Hget Hset].
  unfold Part001.addYearsToDateString, LwcGrid.addYearsToDateString, present.
  rewrite bool_decide_eq_false_2 by done. cbn [negb].
  by rewrite Hnew, Hget, Hset.
Qed.

(** X14. Adding years to a date, in a runtime whose local time is UTC plus
    one fixed offset ([Host] has no daylight saving: where the offset
    changes over the year, [setFullYear] converts back under the offset of
    the new instant and the day can come out one earlier), at or east of
    UTC: the result is the same month and day in the later year, written as
    [YYYY-MM-DD], and the 29th of February of a leap year becomes the 1st
    of March when the later year is a common one.  The function of the
    older revisions returns the same text. *)
Theorem add_years_east_of_utc (h : Host) (s : string) (y m d n : Z) :
  0 <= LocalTZA h < msPerDay ->
  isoDateFields s = Some (y, m, d) ->
  1 <= m <= 12 -> 1 <= d <= daysInMonth y m ->
  0 <= y + n <= 9999 ->
  (d <= daysInMonth (y + n) m ->
   Part001.addYearsToDateString h (Some s) n = Some (isoText (y + n) m d)) /\
  (daysInMonth (y + n) m < d ->
   Part001.addYearsToDateString h (Some s) n = Some (isoText (y + n) 3 1)) /\
  LwcGrid.addYearsToDateString h (Some s) n
  = Some (Part001.addYearsToDateString h (Some s) n).
Proof.
  intros Htz Hs Hm Hd Hyear.
  destruct (addYears_midnight h s y m d n Htz Hs Hm Hd Hyear) as [Hadd Hlwc].
  split; [|split; [|exact Hlwc]].
  - intros Hfits. rewrite Hadd, <- daysFromCivil_day.
    by rewrite toISODate_midnight by lia.
  - intros Hover. rewrite Hadd.
    assert (m = 2 /\ d = 29 /\ isLeapYear (y + n) = false) as (-> & -> & Hleap).
    { revert Hd Hover. unfold daysInMonth.
      destruct (m =? 2) eqn:Hm2; [|lia].
      apply Z.eqb_eq in Hm2.
      destruct (isLeapYear y), (isLeapYear (y + n)); lia. }
    rewrite leap_day_runs_over by done.
    rewrite toISODate_midnight; [done|lia|lia|].
    pose proof (daysInMonth_range (y + n) 3). lia.
Qed.

Lemma add_years_east_of_utc_witness :
  Part001.addYearsToDateString Cases.hostEast (Some "2025-07-01") 2 = Some "2027-07-01" /\
  Part001.addYearsToDateString Cases.hostEast (Some "2024-02-29") 1 = Some "2025-03-01".
Proof.
  split.
  - apply (proj1 (add_years_east_of_utc Cases.hostEast "2025-07-01" 2025 7 1 2
                    ltac:(done) eq_refl ltac:(done) ltac:(done) ltac:(done))).
    done.
  - apply (proj1 (proj2 (add_years_east_of_utc Cases.hostEast "2024-02-29" 2024 2 29 1
                           ltac:(done) eq_refl ltac:(done) ltac:(done) ltac:(done)))).
    done.
Defined.

Lemma readDigits_S_inv (n : nat) (s : string) (acc v : Z) (r : string) :
  readDigits (S n) s acc = Some (v, r) ->
  exists d s', 0 <= d <= 9 /\ s = String (digitChar d) s' /\
               readDigits n s' (10 * acc + d) = Some (v, r).
Proof.
  destruct s as [|c s']; [done|]. simpl.
  destruct (digitOf c) as [d|] eqn:Hc; [|done].
  apply digitChar_digitOf in Hc as [Hd <-]. intros Hrest. by exists d, s'.
Qed.

Lemma expect_inv (c : ascii) (s r : string) : expect c s = Some r -> s = String c r.
Proof.
  destruct s as [|a s']; [done|]. unfold expect.
  destruct (bool_decide (a = c)) eqn:Hac; [|done].
  apply bool_decide_eq_true_1 in Hac as ->. by intros [= ->].
Qed.

(** A string that [isoDateFields] reads is eight digits and two dashes. *)
Lemma isoDateFields_form (s : string) (y m d : Z) :
  isoDateFields s = Some (y, m, d) ->
  exists y1 y2 y3 y4 m1 m2 d1 d2 : Z,
    Forall (fun x => 0 <= x <= 9) [y1; y2; y3; y4; m1; m2; d1; d2] /\
    y = 1000 * y1 + 100 * y2 + 10 * y3 + y4 /\ m = 10 * m1 + m2 /\ d = 10 * d1 + d2 /\
    s = String (digitChar y1) (String (digitChar y2) (String (digitChar y3)
          (String (digitChar y4) (String "-" (String (digitChar m1) (String (digitChar m2)
             (String "-" (String (digitChar d1) (String (digitChar d2) ""))))))))).
Proof.
  unfold isoDateFields. intros Hs.
  destruct (readDigits 4 s 0) as [[y' s1]|] eqn:Hy; [|done].
  cbn [mbind option_bind] in Hs.
  destruct (expect "-" s1) as [s2|] eqn:H1; [|done].
  cbn [mbind option_bind] in Hs.
  destruct (readDigits 2 s2 0) as [[m' s3]|] eqn:Hm; [|done].
  cbn [mbind option_bind] in Hs.
  destruct (expect "-" s3) as [s4|] eqn:H2; [|done].
  cbn [mbind option_bind] in Hs.
  destruct (readDigits 2 s4 0) as [[d' s5]|] eqn:Hd; [|done].
  cbn [mbind option_bind] in Hs.
  destruct (bool_decide (s5 = "")) eqn:H5; [|done].
  apply bool_decide_eq_true_1 in H5 as ->. injection Hs as -> -> ->.
  apply expect_inv in H1 as ->. apply expect_inv in H2 as ->.
  apply readDigits_S_inv in Hy as (y1 & r1 & Hy1 & -> & Hy).
  apply readDigits_S_inv in Hy as (y2 & r2 & Hy2 & -> & Hy).
  apply readDigits_S_inv in Hy as (y3 & r3 & Hy3 & -> & Hy).
  apply readDigits_S_inv in Hy as (y4 & r4 & Hy4 & -> & Hy).
  injection Hy as <- ->.
  apply readDigits_S_inv in Hm as (m1 & r5 & Hm1 & -> & Hm).
  apply readDigits_S_inv in Hm as (m2 & r6 & Hm2 & -> & Hm).
  injection Hm as <- ->.
  apply readDigits_S_inv in Hd as (d1 & r7 & Hd1 & -> & Hd).
  apply readDigits_S_inv in Hd as (d2 & r8 & Hd2 & -> & Hd).
  injection Hd as <- ->.
  exists y1, y2, y3, y4, m1, m2, d1, d2.
  split; [repeat (apply Forall_cons_2; [done|]); apply Forall_nil_2|].
  repeat split; lia.
Qed.

(** The regex formatter of [LwcGrid] on a date that [isoDateFields] reads. *)
Lemma LwcGrid_format_fields (s : string) (y m d : Z) :
  isoDateFields s = Some (y, m, d) ->
  LwcGrid.americanDateFormat (Some s) = Some (usText m d (padZeros 4 (pretty y))).
Proof.
  intros Hs.
  apply isoDateFields_form in Hs
    as (y1 & y2 & y3 & y4 & m1 & m2 & d1 & d2 & Hdigits & -> & -> & -> & ->).
  repeat (apply Forall_cons in Hdigits as [? Hdigits]).
  rewrite LwcGrid_format_iso
    by (repeat (apply Forall_cons_2; [rewrite digitOf_digitChar by done; eauto|]);
        apply Forall_nil_2).
  unfold usText.
  rewrite (proj1 (pretty_digits4 y1 y2 y3 y4 ltac:(done) ltac:(done) ltac:(done) ltac:(done))).
  by rewrite !pad2_digits by done.
Qed.

(** X15. The two date formatters on a calendar date in the form
    [YYYY-MM-DD], at or east of UTC: both move month and day to the front;
    the formatter of [Part001] writes the year as a number, the regex
    formatter of [LwcGrid] as it stands in the text, so they agree from the
    year 1000 on. *)
Theorem formatters_agree_east_of_utc (h : Host) (s : string) (y m d : Z) :
  0 <= LocalTZA h < msPerDay ->
  isoDateFields s = Some (y, m, d) ->
  1 <= m <= 12 -> 1 <= d <= daysInMonth y m ->
  Part001.americanDateFormat h (Some s) = Some (usText m d (pretty y)) /\
  LwcGrid.americanDateFormat (Some s) = Some (usText m d (padZeros 4 (pretty y))) /\
  (1000 <= y ->
   Part001.americanDateFormat h (Some s) = LwcGrid.americanDateFormat (Some s)).
Proof.
  intros Htz Hs Hm Hd.
  pose proof (american_format_east h s y m d Htz Hs Hm Hd) as H001.
  pose proof (LwcGrid_format_fields s y m d Hs) as Hlwc.
  split; [exact H001|]. split; [exact Hlwc|].
  intros Hy.
  assert (padZeros 4 (pretty y) = pretty y) as Hpad.
  { apply isoDateFields_form in Hs
      as (y1 & y2 & y3 & y4 & m1 & m2 & d1 & d2 & Hdigits & -> & _).
    repeat (apply Forall_cons in Hdigits as [? Hdigits]).
    destruct (pretty_digits4 y1 y2 y3 y4) as [-> Hplain]; try done.
    symmetry. apply Hplain. lia. }
  rewrite Hlwc, Hpad. exact H001.
Qed.

Lemma formatters_agree_east_of_utc_witness :
  Part001.americanDateFormat Cases.hostEast (Some "2024-08-15")
  = LwcGrid.americanDateFormat (Some "2024-08-15").
Proof.
  apply (proj2 (proj2 (formatters_agree_east_of_utc Cases.hostEast "2024-08-15" 2024 8 15
                         ltac:(done) eq_refl ltac:(done) ltac:(done)))).
  done.
Defined.

Lemma daysInMonth_other_year (y y' m d : Z) :
  (m = 2 -> d <= 28) -> d <= daysInMonth y m -> d <= daysInMonth y' m.
Proof.
  unfold daysInMonth. intros H2.
  destruct (m =? 2) eqn:Hm; [|done].
  apply Z.eqb_eq in Hm. destruct (isLeapYear y), (isLeapYear y'); lia.
Qed.

(** X16. The labels of the year columns from the second on, for a renewal
    date in the form [YYYY-MM-DD] and a runtime at or east of UTC whose
    local time is UTC plus one fixed offset ([Host] has no daylight
    saving; the labels go through [setFullYear], which in a zone with
    daylight saving can move the day).  [Part001] labels column [i] with
    the renewal date [i-2] years on, so that column 2 shows the renewal
    date itself; the two older revisions add [i-1] years, and [part_000]
    shows the date as [toISOString] writes it. *)
Theorem dated_labels_east_of_utc (h : Host) (cfg : Config) (s : string) (y m d : Z)
    (i : nat) :
  0 <= LocalTZA h < msPerDay ->
  F5_Initial_Renewal_date__c cfg = Some s ->
  isoDateFields s = Some (y, m, d) ->
  1 <= m <= 12 -> 1 <= d <= daysInMonth y m -> (m = 2 -> d <= 28) ->
  (2 <= i)%nat -> y + Z.of_nat i - 1 <= 9999 ->
  Part001.dateLabel h cfg i = VStr (usText m d (pretty (y + Z.of_nat i - 2))) /\
  LwcGrid.dateLabel h cfg i
  = Some (VStr (usText m d (padZeros 4 (pretty (y + Z.of_nat i - 1))))) /\
  Part000.dateLabel h cfg i = Some (VStr (isoText (y + Z.of_nat i - 1) m d)).
Proof.
  intros Htz Hrenewal Hs Hm Hd Hfeb Hi Hlast.
  assert (0 <= y) as Hy.
  { apply isoDateFields_form in Hs
      as (y1 & y2 & y3 & y4 & m1 & m2 & d1 & d2 & Hdigits & -> & _).
    repeat (apply Forall_cons in Hdigits as [? Hdigits]). lia. }
  destruct (newDate_iso h s y m d Hs Hm Hd) as [Hne _].
  assert (present (Some s) = true) as Hpresent.
  { unfold present. by rewrite bool_decide_eq_false_2. }
  assert (forall n, 0 <= y + n <= 9999 ->
            Part001.addYearsToDateString h (Some s) n = Some (isoText (y + n) m d) /\
            LwcGrid.addYearsToDateString h (Some s) n = Some (Some (isoText (y + n) m d)) /\
            isoDateFields (isoText (y + n) m d) = Some (y + n, m, d) /\
            1 <= d <= daysInMonth (y + n) m) as Hadd.
  { intros n Hn.
    assert (d <= daysInMonth (y + n) m) as Hfits
      by (apply (daysInMonth_other_year y); [done|lia]).
    pose proof (daysInMonth_range y m) as Hrange.
    destruct (addYears_midnight h s y m d n Htz Hs Hm Hd Hn) as [Hadd Hlwc].
    rewrite Hlwc, Hadd, <- daysFromCivil_day, toISODate_midnight by lia.
    split; [done|]. split; [done|].
    split; [apply isoDateFields_isoText; lia|lia]. }
  assert (bool_decide (i = 1%nat) = false) as Hnot1 by (apply bool_decide_eq_false_2; lia).
  split; [|split].
  - unfold Part001.dateLabel. rewrite Hnot1, Hrenewal, Hpresent.
    destruct (Hadd (Z.of_nat i - 2) ltac:(lia)) as (-> & _ & Hread & Hvalid).
    rewrite (american_format_east h _ _ m d Htz Hread Hm Hvalid).
    by replace (y + (Z.of_nat i - 2)) with (y + Z.of_nat i - 2) by lia.
  - unfold LwcGrid.dateLabel. rewrite Hnot1, Hrenewal, Hpresent.
    destruct (Hadd (Z.of_nat i - 1) ltac:(lia)) as (_ & -> & Hread & Hvalid).
    cbn [mbind option_bind]. rewrite (LwcGrid_format_fields _ _ _ _ Hread).
    by replace (y + (Z.of_nat i - 1)) with (y + Z.of_nat i - 1) by lia.
  - unfold Part000.dateLabel. rewrite Hnot1, Hrenewal, Hpresent.
    destruct (Hadd (Z.of_nat i - 1) ltac:(lia)) as (_ & -> & Hread & Hvalid).
    cbn [mbind option_bind ofLabel].
    by replace (y + (Z.of_nat i - 1)) with (y + Z.of_nat i - 1) by lia.
Qed.

Lemma dated_labels_east_of_utc_witness :
  Part001.dateLabel Cases.hostEast Cases.configDated 2 = VStr "07/01/2025" /\
  LwcGrid.dateLabel Cases.hostEast Cases.configDated 2 = Some (VStr "07/01/2026").
Proof.
  split.
  - apply (dated_labels_east_of_utc Cases.hostEast Cases.configDated "2025-07-01" 2025 7 1 2);
      done.
  - apply (dated_labels_east_of_utc Cases.hostEast Cases.configDated "2025-07-01" 2025 7 1 2);
      done.
Defined.

(** X17. A renewal date that the runtime cannot read.  [Part001] catches
    the exception of [toISOString]: adding years gives [null] and every
    label from the second column on is [null].  The older revisions do not
    catch it, and with two or more year columns their [columns] getter
    throws. *)
Theorem unreadable_renewal_date (h : Host) (cfg : Config) (s : string) :
  F5_Initial_Renewal_date__c cfg = Some s -> s <> "" -> newDate h s = None ->
  (forall n, Part001.addYearsToDateString h (Some s) n = None) /\
  (forall i, (2 <= i)%nat -> Part001.dateLabel h cfg i = VNull) /\
  (2%nat ∈ yearsUpTo (lengthOr 7 (F5_Contract_Length__c cfg)) ->
   LwcGrid.columns h (Some cfg) = None) /\
  (2%nat ∈ yearsUpTo (lengthOr 5 (F5_Contract_Length__c cfg)) ->
   Part000.columns h (Some cfg) = None).
Proof.
  intros Hrenewal Hne Hnew.
  assert (present (Some s) = true) as Hpresent.
  { unfold present. by rewrite bool_decide_eq_false_2. }
  assert (forall n, Part001.addYearsToDateString h (Some s) n = None) as Hadd.
  { intros n. unfold Part001.addYearsToDateString. by rewrite Hpresent, Hnew. }
  assert (forall n, LwcGrid.addYearsToDateString h (Some s) n = None) as Hthrow.
  { intros n. unfold LwcGrid.addYearsToDateString. by rewrite Hpresent, Hnew. }
  assert (forall (column : nat -> option Column) (years : list nat),
            2%nat ∈ years -> column 2%nat = None -> mapM column years = None) as HmapM.
  { intros column years Hin Hcol.
    destruct (mapM column years) as [cols|] eqn:Hcols; [|done].
    apply mapM_Some in Hcols.
    apply list_elem_of_lookup in Hin as [j Hj].
    destruct (Forall2_lookup_l _ _ _ _ _ Hcols Hj) as (c & _ & Hc). congruence. }
  split; [exact Hadd|]. split; [|split].
  - intros i Hi. unfold Part001.dateLabel.
    rewrite bool_decide_eq_false_2 by lia.
    by rewrite Hrenewal, Hpresent, Hadd.
  - intros Hin. unfold LwcGrid.columns.
    rewrite (HmapM _ _ Hin); [done|].
    unfold LwcGrid.yearColumn, LwcGrid.dateLabel. simpl.
    by rewrite Hrenewal, Hpresent, Hthrow.
  - intros Hin. unfold Part000.columns.
    rewrite (HmapM _ _ Hin); [done|].
    unfold Part000.yearColumn, Part000.dateLabel. simpl.
    by rewrite Hrenewal, Hpresent, Hthrow.
Qed.

Lemma unreadable_renewal_date_witness :
  LwcGrid.columns Scenario.hostUtc (Some Cases.configUnreadable) = None /\
  map label (Part001.columns Scenario.hostUtc (Some Cases.configUnreadable))
  = [VStr "Grade"; VStr "Year 1"; VNull; VNull].
Proof.
  split; [|reflexivity].
  apply (unreadable_renewal_date Scenario.hostUtc Cases.configUnreadable "soon");
    try done.
  apply elem_of_yearsUpTo. exists 3. split; [done|]. lia.
Defined.

End DateLabels.
(** * Edits and saves, once more *)

Section EditsAndSaves.
Import Spec Props.

(** X18. An edit of one cell whose value does not read as a negative
    number makes the round trip in [Part001]: the grid cell and the pending
    change hold the same normalised value, the number read from the draft
    or [null]. *)
Theorem non_negative_edit_round_trip (h : Host) (st : State) (cfg : Config)
    (records : list LicenseRecord) (index : nat) (g : string) (year : nat)
    (draft : obj) (v : value) :
  configData st = Some cfg ->
  gradeLabels !! index = Some g ->
  get draft "id" = VStr ("row-" +:+ pretty index) ->
  draft !! "grade" = None ->
  draft !! yearKey year = Some v ->
  (forall z, parseInt v = Some z -> 0 <= z) ->
  let after := (Part001.handleDraftValueChange h [draft]
                  (Part001.processLicenseData records st)).1 in
  let normal :=
    if strictEq v VNull || strictEq v VUndef || strictEq v (VStr "") then VNull
    else match parseInt v with Some z => VNum z | None => VNull end in
  (fun row => get row (yearKey year)) <$> gridData after !! index = Some normal /\
  pendingChanges after !! (g +:+ "_" +:+ pretty year)
  = Some {| grade := VStr g; year := pretty year; quantity := normal |}.
Proof.
  intros Hcfg Hg Hid Hnograde Hv Hpos after normal.
  destruct (edit_round_trip h st cfg records index g year draft v Hcfg Hg Hid Hnograde Hv)
    as [Hcell Hpending].
  assert (Part001.coerceCell v = normal) as Hnormal.
  { subst normal. unfold Part001.coerceCell.
    destruct (strictEq v VNull || strictEq v VUndef || strictEq v (VStr "")); [done|].
    destruct (parseInt v) as [z|] eqn:Hz; [|done].
    f_equal. specialize (Hpos z eq_refl). lia. }
  subst after. rewrite Hcell, Hpending, <- (coercions_agree v Hpos), Hnormal. done.
Qed.

Lemma non_negative_edit_round_trip_witness :
  let after := (Part001.handleDraftValueChange Scenario.hostUtc (Scenario.editK1 (VStr "70"))
                  (Part001.processLicenseData Scenario.records Scenario.start)).1 in
  (fun row => get row "year1") <$> gridData after !! 0%nat = Some (VNum 70) /\
  pendingChanges after !! "K_1"
  = Some {| grade := VStr "K"; year := "1"; quantity := VNum 70 |}.
Proof.
  assert (forall z, parseInt (VStr "70") = Some z -> 0 <= z) as Hpos
    by (intros z Hz; vm_compute in Hz; injection Hz as <-; lia).
  exact (non_negative_edit_round_trip Scenario.hostUtc Scenario.start Scenario.config
           Scenario.records 0 "K" 1 {[ "id" := VStr "row-0"; "year1" := VStr "70" ]}
           (VStr "70") eq_refl eq_refl eq_refl eq_refl eq_refl Hpos).
Defined.

(** X19. What the warning of an edit announces, the save enforces: after
    a processed batch, [handleSave] validates the very rows the batch was
    validated on.  When the batch drew no warning the save goes out; when it
    drew one, the save is refused with the same lines. *)
Theorem warned_edit_cannot_be_saved (h : Host) (datatable : bool) (outcome : SaveOutcome)
    (drafts : list obj) (st : State) :
  List.filter Part001.notTotals drafts <> [] ->
  let edit := Part001.handleDraftValueChange h drafts st in
  size (pendingChanges edit.1) <> 0%nat ->
  (edit.2 = [] ->
   exists rest,
     (Part001.handleSave h datatable outcome edit.1).2
     = SaveLicenseData (recordId st) (map_to_list (pendingChanges edit.1)).*2 :: rest) /\
  (forall lines, edit.2 = [ShowToast "Warning" lines "warning"] ->
   Part001.handleSave h datatable outcome edit.1
   = (edit.1, [ShowToast "Error"
                 ("Cannot save due to validation errors:" +:+ nl +:+ lines) "error"])).
Proof.
  intros Hne edit Hsize.
  set (rows := map (Part001.updateRow (List.filter Part001.notTotals drafts))
                   (List.filter Part001.notTotals (gridData st))).
  assert (List.filter Part001.notTotals (gridData edit.1) = rows) as Hrows.
  { subst edit. rewrite handleDraftValueChange_grid by done.
    apply (nonTotalsRows_app rows); grid_shape. }
  assert (configData edit.1 = configData st) as Hcfg
    by apply handleDraftValueChange_config.
  assert (hasChanges edit.1 = true /\ recordId edit.1 = recordId st /\
          edit.2 = if isValid (Part001.validateTotals h (configData st) rows) then []
                   else [ShowToast "Warning"
                           (join nl (errors (Part001.validateTotals h (configData st) rows)))
                           "warning"]) as (Hdirty & Hrid & Hevents).
  { subst edit rows. unfold Part001.handleDraftValueChange.
    rewrite bool_decide_eq_false_2; [done|].
    by destruct (List.filter Part001.notTotals drafts). }
  unfold Part001.handleSave. rewrite Hdirty, Hrows, Hcfg.
  rewrite bool_decide_eq_false_2 by done. cbn [negb orb].
  destruct (isValid (Part001.validateTotals h (configData st) rows)); cbn [negb].
  - split.
    + intros _. rewrite <- Hrid.
      destruct outcome as [error|[error|]]; eexists; reflexivity.
    + intros lines Hlines. rewrite Hlines in Hevents. discriminate.
  - split.
    + intros Hnone. rewrite Hnone in Hevents. discriminate.
    + intros lines Hlines. rewrite Hlines in Hevents. by injection Hevents as ->.
Qed.

Lemma warned_edit_cannot_be_saved_witness :
  Part001.handleSave Scenario.hostUtc true (SaveResolved None) Scenario.edited
  = (Scenario.edited,
     [ShowToast "Error"
        ("Cannot save due to validation errors:" +:+ nl
         +:+ "Year 1: Total (120) exceeds maximum license limit (100)") "error"]).
Proof.
  apply (proj2 (warned_edit_cannot_be_saved Scenario.hostUtc true (SaveResolved None)
                  (Scenario.editK1 (VStr "70")) Scenario.loaded
                  ltac:(discriminate) ltac:(vm_compute; discriminate))).
  reflexivity.
Defined.

End EditsAndSaves.
(** * The older revisions *)

Section OlderRevisions.
Import Spec Props.












Lemma find_none_all {A : Type} (p : A -> bool) (l : list A) :
  Forall (fun x => p x = false) l -> List.find p l = None.
Proof. induction 1 as [|x l Hx _ IH]; [done|]. simpl. by rewrite Hx. Qed.

(** X22. In [part_000] and in the first component of
    [licenseQuantityGrid.js] every batch marks the component as changed,
    also one that is empty or names no row of the grid (the totals row, which
    these grids do not have, included): grid and pending changes stay as they
    were, the save control is enabled, and saving then only says that there
    is nothing to save. *)
Theorem unmatched_batch_still_marks_changes (drafts : list obj) (st : State) :
  Forall (fun draft =>
            Forall (fun row => strictEq (get row "id") (get draft "id") = false)
                   (gridData st)) drafts ->
  Part000.handleDraftValueChange drafts st = set_hasChanges true st /\
  LwcGridFirst.handleDraftValueChange drafts st = set_hasChanges true st /\
  (pendingChanges st = ∅ ->
   forall datatable message outcome,
     Part000.handleSave datatable message outcome (set_hasChanges true st)
     = (set_hasChanges true st, [ShowToast "Info" "No changes to save." "info"])).
Proof.
  intros Hall.
  assert (foldl LwcGrid.mergeDraft (gridData st, pendingChanges st) drafts
          = (gridData st, pendingChanges st) /\
          foldl LwcGridFirst.mergeDraft (gridData st, pendingChanges st) drafts
          = (gridData st, pendingChanges st)) as [Hlwc Hfirst].
  { induction Hall as [|draft drafts Hdraft _ IH]; [done|].
    cbn [foldl]. unfold LwcGrid.mergeDraft at 2, LwcGridFirst.mergeDraft at 2.
    by rewrite (find_none_all _ _ Hdraft). }
  unfold Part000.handleDraftValueChange, LwcGridFirst.handleDraftValueChange.
  rewrite Hlwc, Hfirst. split; [by destruct st|]. split; [by destruct st|].
  intros Hempty datatable message outcome. unfold Part000.handleSave.
  cbn [hasChanges pendingChanges set_hasChanges]. rewrite Hempty.
  by rewrite bool_decide_eq_true_2 by apply map_size_empty.
Qed.

Lemma unmatched_batch_still_marks_changes_witness :
  let st := Part000.processLicenseData Scenario.records Scenario.start in
  Part000.handleDraftValueChange [Cases.totalsDraft; Cases.strayDraft] st
  = set_hasChanges true st.
Proof.
  cbv zeta. apply unmatched_batch_still_marks_changes.
  assert (forallb (fun draft : obj =>
                     forallb (fun row : obj =>
                                negb (strictEq (get row "id") (get draft "id")))
                             (gridData (Part000.processLicenseData Scenario.records
                                          Scenario.start)))
                  [Cases.totalsDraft; Cases.strayDraft] = true) as Hall
    by (vm_compute; reflexivity).
  apply Forall_forall. intros draft Hdraft. apply Forall_forall. intros row Hrow.
  rewrite forallb_forall in Hall.
  specialize (Hall draft (proj1 (list_elem_of_In _ _) Hdraft)).
  rewrite forallb_forall in Hall.
  specialize (Hall row (proj1 (list_elem_of_In _ _) Hrow)).
  by apply negb_true_iff in Hall.
Defined.

Lemma hexDigitOf_nonneg (c : ascii) (d : Z) : LwcGridFirst.hexDigitOf c = Some d -> 0 <= d.
Proof.
  unfold LwcGridFirst.hexDigitOf.
  destruct ((48 <=? _) && _) eqn:H1; [intros [= <-]; lia|].
  destruct ((97 <=? _) && _) eqn:H2; [intros [= <-]; lia|].
  destruct ((65 <=? _) && _) eqn:H3; [intros [= <-]; lia|done].
Qed.

Lemma hexDigitsValue_nonneg (s : string) (acc : option Z) (n : Z) :
  (forall a, acc = Some a -> 0 <= a) ->
  LwcGridFirst.hexDigitsValue s acc = Some n -> 0 <= n.
Proof.
  revert acc. induction s as [|c s IH]; intros acc Hacc; simpl.
  - apply Hacc.
  - destruct (LwcGridFirst.hexDigitOf c) as [d|] eqn:Hc; [|apply Hacc].
    apply IH. intros a [= <-]. apply hexDigitOf_nonneg in Hc.
    destruct acc as [a|]; simpl; [specialize (Hacc a eq_refl)|]; lia.
Qed.

(** X23. The first component calls [parseInt] without a radix, the later
    revisions with radix 10.  The pending quantities they file for a draft
    value are the same, except where the later ones file 0: a text that
    starts as a hexadecimal literal is read in full by the first component
    and as its leading 0 by the others. *)
Theorem radix_free_parse_reads_hex (v : value) :
  (LwcGridFirst.coercePending v = LwcGrid.coercePending v \/
   LwcGrid.coercePending v = VNum 0) /\
  (forall s n, LwcGridFirst.hexDigitsValue s None = Some n ->
     LwcGridFirst.coercePending (VStr ("0x" +:+ s)) = VNum n /\
     LwcGrid.coercePending (VStr ("0x" +:+ s)) = VNum 0).
Proof.
  split.
  - unfold LwcGridFirst.coercePending, LwcGrid.coercePending.
    destruct (negb _ && negb _ && negb _); [|by left].
    unfold LwcGridFirst.parseIntAuto, parseInt, LwcGridFirst.parseIntAutoStr, parseIntStr.
    destruct (match trimStart (toStr v) with
              | String "-"%char r => (-1, r)
              | String "+"%char r => (1, r)
              | _ => (1, trimStart (toStr v))
              end) as [sign s2].
    destruct s2 as [|c1 s2]; [by left|].
    destruct c1 as [[] [] [] [] [] [] [] []]; try (by left).
    destruct s2 as [|c2 s2]; [by left|].
    destruct c2 as [[] [] [] [] [] [] [] []]; try (by left);
      right; simpl; by rewrite Z.mul_0_r.
  - intros s n Hn.
    pose proof (hexDigitsValue_nonneg s None n ltac:(done) Hn) as Hpos.
    change ("0x" +:+ s) with (String "0"%char (String "x"%char s)).
    assert (LwcGridFirst.parseIntAuto (VStr (String "0"%char (String "x"%char s)))
            = Z.mul 1 <$> LwcGridFirst.hexDigitsValue s None) as Hhex by reflexivity.
    assert (parseInt (VStr (String "0"%char (String "x"%char s))) = Some 0) as Hten
      by reflexivity.
    unfold LwcGridFirst.coercePending, LwcGrid.coercePending.
    rewrite Hhex, Hten, Hn.
    assert (strictEq (VStr (String "0"%char (String "x"%char s))) (VStr "") = false) as ->
      by reflexivity.
    simpl. destruct n as [|p|p]; [done|done|lia].
Qed.

Lemma radix_free_parse_reads_hex_witness :
  LwcGridFirst.coercePending (VStr "0x1F") = VNum 31 /\
  LwcGrid.coercePending (VStr "0x1F") = VNum 0.
Proof.
  apply (proj2 (radix_free_parse_reads_hex VNull) "1F" 31). reflexivity.
Defined.

(** X24. The five fixed year columns of the first component fit the rows
    it builds: every row has a cell for exactly the fields of the columns,
    besides its [id]. *)
Theorem first_component_columns_match_rows (data : list LicenseRecord) (st : State)
    (row : obj) (k : string) :
  row ∈ gridData (LwcGridFirst.processLicenseData data st) ->
  is_Some (row !! k) <-> k = "id" \/ k ∈ map fieldName LwcGridFirst.yearColumns.
Proof.
  intros Hrow. unfold LwcGridFirst.processLicenseData in Hrow.
  cbn [gridData set_gridData] in Hrow.
  apply elem_of_lookup_imap in Hrow as (index & grade & -> & _).
  unfold LwcGridFirst.buildRow. rewrite foldl_insert_is_Some.
  unfold Part000.newRow. rewrite <- insert_empty.
  rewrite !lookup_insert_is_Some', lookup_empty, <- not_eq_None_Some.
  change (map fieldName LwcGridFirst.yearColumns)
    with ["grade"; yearKey 1; yearKey 2; yearKey 3; yearKey 4; yearKey 5].
  rewrite !elem_of_cons, elem_of_nil. split.
  - intros [Hfixed|(y & Hy & <-)].
    + destruct Hfixed as [<-|[<-|Hnone]]; [by left|right; by left|done].
    + unfold yearsUpTo in Hy. apply elem_of_seq in Hy.
      assert (y = 1 \/ y = 2 \/ y = 3 \/ y = 4 \/ y = 5)%nat as Hcases by lia.
      right. right. intuition (subst; auto).
  - intros [->|[->|Hyear]]; [left; by left|left; right; by left|].
    right.
    destruct Hyear as [->|[->|[->|[->|[->|Hnone]]]]]; [| | | | |done];
      eexists; (split; [apply elem_of_seq|reflexivity]); simpl; lia.
Qed.

Lemma first_component_columns_match_rows_witness :
  let row := LwcGridFirst.buildRow (buildDataMap Scenario.records) 0 "K" in
  is_Some (row !! "year5") /\ ~ is_Some (row !! "year6").
Proof.
  intros row.
  assert (row ∈ gridData (LwcGridFirst.processLicenseData Scenario.records Scenario.start))
    as Hrow by (apply list_elem_of_lookup; by exists 0%nat).
  pose proof (first_component_columns_match_rows Scenario.records Scenario.start row)
    as Hkeys.
  split.
  - apply Hkeys; [done|]. right. do 5 right. by left.
  - intros Hsix. apply Hkeys in Hsix; [|done].
    destruct Hsix as [|Hin]; [done|].
    repeat (apply elem_of_cons in Hin as [|Hin]; [done|]).
    by apply elem_of_nil in Hin.
Defined.

(** X25. Without a data table in the template the older handlers break
    off at the assignment to it.  A save that went through then shows the
    success toast and next the error toast of a failed save, with the
    runtime's message, and asks for no refresh, though the pending changes
    are cleared; a cancel clears them and ends in the exception, with no
    refresh and no toast.  [Part001] tests for the table and does both. *)
Theorem missing_data_table (message : string) (refreshError : option (option ErrorObj))
    (st : State) :
  hasChanges st = true -> size (pendingChanges st) <> 0%nat -> message <> "" ->
  Part000.handleSave false message (SaveResolved refreshError) st
  = (set_isLoading false (set_pendingChanges ∅ (set_hasChanges false st)),
     [SaveLicenseData (recordId st) (map_to_list (pendingChanges st)).*2;
      ShowToast "Success" "License quantities saved successfully" "success";
      ShowToast "Error" ("Failed to save changes: " +:+ message) "error"]) /\
  (forall h,
     LwcGrid.validateTotals h (configData st) (List.filter LwcGrid.notTotals (gridData st))
     = Some {| isValid := true; errors := [] |} ->
     LwcGrid.handleSave h false message (SaveResolved refreshError) st
     = (set_isLoading false (cleared st),
        Some [SaveLicenseData (recordId st) (map_to_list (pendingChanges st)).*2;
              ShowToast "Success" "License quantities saved successfully" "success";
              ShowToast "Error" ("Failed to save changes: " +:+ message) "error"])) /\
  Part000.handleCancel false st = (set_pendingChanges ∅ (set_hasChanges false st), None) /\
  LwcGrid.handleCancel false st = (cleared st, None) /\
  Part001.handleCancel false st
  = (cleared st, [RefreshApex; ShowToast "Info" "Changes discarded." "info"]).
Proof.
  intros Hdirty Hsize Hmessage.
  assert (toStr (saveErrorMessage (LwcGrid.nullAssignment message)) = message) as Hreason.
  { unfold saveErrorMessage, LwcGrid.nullAssignment. simpl.
    by rewrite bool_decide_eq_false_2. }
  split; [|split; [|done]].
  - unfold Part000.handleSave. rewrite Hdirty.
    rewrite bool_decide_eq_false_2 by done. cbv zeta. by rewrite Hreason.
  - intros h Hvalid. unfold LwcGrid.handleSave. rewrite Hdirty, Hvalid.
    rewrite bool_decide_eq_false_2 by done. cbv zeta. by rewrite Hreason.
Qed.

Lemma missing_data_table_witness :
  (Part000.handleSave false "Cannot set properties of null" (SaveResolved None)
     Scenario.edited).2
  = [SaveLicenseData (VStr "a0B000000000001")
       [{| grade := VStr "K"; year := "1"; quantity := VNum 70 |}];
     ShowToast "Success" "License quantities saved successfully" "success";
     ShowToast "Error" "Failed to save changes: Cannot set properties of null" "error"].
Proof.
  rewrite (proj1 (missing_data_table "Cannot set properties of null" None Scenario.edited
                    eq_refl ltac:(vm_compute; discriminate) ltac:(discriminate))).
  reflexivity.
Defined.

(** X26. In the second component of [licenseQuantityGrid.js] the records
    wire builds the grid at once, and the configuration wire only stores the
    configuration and asks for a refresh.  So when the records come first
    the rows have cells for five years whatever the contract length is,
    until the refresh delivers the records again; then the rows are laid out
    by the configuration and the component is where the other order of
    arrival takes it. *)
Theorem lwc_refresh_rebuilds_under_the_configuration (cfg : Config)
    (records : list LicenseRecord) (st : State) :
  configData st = None ->
  let config := {| resultData := Some cfg; resultError := None |} in
  let delivery := {| resultData := Some records; resultError := None |} in
  let early := (LwcGrid.wiredGetLicenseData delivery st).1 in
  let late := LwcGrid.wiredConfig true config early in
  let refreshed := (LwcGrid.wiredGetLicenseData delivery late.1).1 in
  late = (set_configData (Some cfg) early, [RefreshApex]) /\
  (forall row year, row ∈ gridData late.1 ->
     is_Some (row !! yearKey year) <-> (1 <= year <= 5)%nat) /\
  (forall row year, row ∈ gridData refreshed ->
     is_Some (row !! yearKey year)
     <-> year ∈ yearsUpTo (lengthOr 5 (F5_Contract_Length__c cfg))) /\
  refreshed = (LwcGrid.wiredGetLicenseData delivery (LwcGrid.wiredConfig false config st).1).1.
Proof.
  intros Hnone config delivery early late refreshed.
  split; [done|]. split; [|split].
  - intros row year Hrow.
    change (row ∈ gridData (LwcGrid.processLicenseData records st)) in Hrow.
    rewrite (LwcGrid_year_cells records st row year Hrow), Hnone.
    unfold configYears, yearsUpTo. rewrite elem_of_seq. simpl. lia.
  - intros row year Hrow.
    change (row ∈ gridData (LwcGrid.processLicenseData records late.1)) in Hrow.
    by rewrite (LwcGrid_year_cells records late.1 row year Hrow).
  - subst refreshed late early config delivery. by destruct st.
Qed.

Lemma lwc_refresh_rebuilds_under_the_configuration_witness :
  let start := initialState (VStr "a0B000000000001") in
  let early := (LwcGrid.wiredGetLicenseData (Scenario.gotRecords Scenario.records) start).1 in
  let late := (LwcGrid.wiredConfig true (Scenario.gotConfig Scenario.config) early).1 in
  gridData late = gridData early /\
  (LwcGrid.wiredGetLicenseData (Scenario.gotRecords Scenario.records) late).1
  = LwcGrid.processLicenseData Scenario.records Scenario.start.
Proof.
  split; [reflexivity|].
  exact (proj2 (proj2 (proj2 (lwc_refresh_rebuilds_under_the_configuration Scenario.config
                                Scenario.records (initialState (VStr "a0B000000000001"))
                                eq_refl)))).
Defined.

End OlderRevisions.

(** * The two validators *)

Section Validators.
Import Spec Props.

(** X27. The validators of [Part001] and of the second component of
    [licenseQuantityGrid.js] decide alike where both can decide and the
    runtime's numbers are exact: with a ceiling that is an integer within
    [quantityBound], a contract length that is set and within that bound,
    column labels that can be computed, and at most nine rows whose year
    cells hold nothing or an integer within [quantityBound], the older
    validator returns, with the same validity flag and as many
    messages. *)
Theorem validators_agree_on_validity (h : Host) (cfg : Config) (rows : list obj)
    (ceiling : Z) :
  F5_Maximum_License__c cfg = VNum ceiling -> Z.abs ceiling <= quantityBound ->
  truthy (F5_Contract_Length__c cfg) = true ->
  inRange (F5_Contract_Length__c cfg) = true ->
  is_Some (LwcGrid.columns h (Some cfg)) ->
  ExactRows rows ->
  exists result,
    LwcGrid.validateTotals h (Some cfg) rows = Some result /\
    isValid result = isValid (Part001.validateTotals h (Some cfg) rows) /\
    length (errors result) = length (errors (Part001.validateTotals h (Some cfg) rows)).
Proof.
  intros Hceiling _ Hlength _ Hcols Hexact.
  assert (forall row year, row ∈ rows -> notText (get row (yearKey year))) as Hnumeric
    by (intros row year Hrow; by apply (ExactRows_notText rows)).
  unfold LwcGrid.validateTotals, Part001.validateTotals, LwcGrid.maxLicenseOf.
  rewrite Hceiling, parseInt_VNum. cbn [truthy].
  destruct (ceiling =? 0) eqn:Hzero; cbn [negb]; [by eexists|].
  assert (configYears 5 (Some cfg) = parseInt (F5_Contract_Length__c cfg) /\
          lengthOr 7 (F5_Contract_Length__c cfg) = parseInt (F5_Contract_Length__c cfg))
    as [-> ->] by (unfold configYears, lengthOr; by rewrite Hlength).
  generalize (yearsUpTo (parseInt (F5_Contract_Length__c cfg))). intros years.
  assert (forall acc acc' : list string,
            length acc = length acc' ->
            exists res,
              foldl (fun acc year =>
                       errors ← acc;
                       let total := LwcGrid.sumYear rows (yearKey year) in
                       if LwcGrid.exceeds h total ceiling then
                         yearLabel ← LwcGrid.getYearLabel h (Some cfg) year;
                         Some (errors ++ [LwcGrid.limitMessage yearLabel total ceiling])
                       else Some errors)
                    (Some acc) years = Some res /\
              length res
              = length (foldl (fun errors year =>
                                 let total := Part001.sumYear rows (yearKey year) in
                                 if Part001.exceeds total (Some ceiling)
                                 then errors ++ [Part001.limitMessage
                                                   (Part001.getYearLabel h (Some cfg) year)
                                                   total (Some ceiling)]
                                 else errors)
                              acc' years)) as Hfold.
  { induction years as [|year years IH]; intros acc acc' Hlen; [by exists acc|].
    cbn [foldl mbind option_bind]. cbv zeta.
    assert (LwcGrid.sumYear rows (yearKey year) = VNum (columnSum rows year)) as ->.
    { unfold LwcGrid.sumYear. rewrite (LwcGrid_sumYear_from rows year 0); [done|].
      intros row Hrow. by apply Hnumeric. }
    rewrite (sumYear_columnSum rows year) by (intros row Hrow; by apply Hnumeric).
    cbn [LwcGrid.exceeds Part001.exceeds].
    destruct (ceiling <? columnSum rows year); [|by apply IH].
    destruct (LwcGrid_getYearLabel_Some h (Some cfg) year Hcols) as [l ->].
    cbn [mbind option_bind]. apply IH. rewrite !length_app. simpl. lia. }
  cbv zeta in Hfold.
  destruct (Hfold [] [] eq_refl) as (res & -> & Hlen).
  cbn [mbind option_bind]. eexists. split; [done|]. cbn [isValid errors].
  by rewrite Hlen.
Qed.

Lemma validators_agree_on_validity_witness :
  isValid <$> LwcGrid.validateTotals Scenario.hostUtc (Some Scenario.config)
                (List.filter Part001.notTotals (gridData Scenario.edited))
  = Some false.
Proof.
  destruct (validators_agree_on_validity Scenario.hostUtc Scenario.config
              (List.filter Part001.notTotals (gridData Scenario.edited)) 100
              eq_refl ltac:(done) eq_refl eq_refl ltac:(vm_compute; eauto)
              scenario_edited_exact)
    as (result & -> & Hvalid & _).
  simpl. by rewrite Hvalid.
Defined.

End Validators.

(** * More on the date formatters *)

Section FormatterEdges.
Import Spec Props.

(** X28. West of UTC the formatter of [Part001] shows every calendar date
    as the day before: a date from the 2nd of a month on keeps month and
    year and loses a day, and the 1st of January comes out as the 31st of
    December of the year before. *)
Theorem american_format_west_of_utc (h : Host) (s : string) (y m d : Z) :
  - msPerDay <= LocalTZA h < 0 ->
  isoDateFields s = Some (y, m, d) ->
  1 <= m <= 12 -> 1 <= d <= daysInMonth y m ->
  (2 <= d ->
   Part001.americanDateFormat h (Some s) = Some (usText m (d - 1) (pretty y))) /\
  (m = 1 -> d = 1 ->
   Part001.americanDateFormat h (Some s) = Some (usText 12 31 (pretty (y - 1)))).
Proof.
  intros Htz Hs Hm Hd.
  pose proof (american_format_west h s y m d Htz Hs Hm Hd) as Hwest.
  split.
  - intros Hday. rewrite Hwest.
    replace (daysFromCivil y m d - 1) with (daysFromCivil y m (d - 1))
      by (rewrite (daysFromCivil_day y m d), (daysFromCivil_day y m (d - 1)); lia).
    by rewrite civil_round_trip by lia.
  - intros -> ->. rewrite Hwest.
    replace (daysFromCivil y 1 1 - 1) with (daysFromCivil (y - 1) 12 31).
    + by rewrite civil_round_trip by done.
    + unfold daysFromCivil. cbv zeta.
      change (1 <=? 2) with true. change (12 <=? 2) with false. cbv iota.
      change ((1 + 9) mod 12) with 10. change ((12 + 9) mod 12) with 9.
      change ((153 * 10 + 2) / 5) with 306. change ((153 * 9 + 2) / 5) with 275.
      lia.
Qed.

Lemma american_format_west_of_utc_witness :
  Part001.americanDateFormat
    {| LocalTZA := -18000000; legacyDateParse := fun _ => None;
       stringGreater := fun _ _ => false |} (Some "2025-01-01")
  = Some "12/31/2024".
Proof.
  apply (proj2 (american_format_west_of_utc
                  {| LocalTZA := -18000000; legacyDateParse := fun _ => None;
                     stringGreater := fun _ _ => false |}
                  "2025-01-01" 2025 1 1 ltac:(done) eq_refl ltac:(done) ltac:(done)));
    reflexivity.
Defined.

(** X29. The regex formatter of [licenseQuantityGrid.js] answers exactly
    the strings of eight digits and two dashes, with the three groups
    rearranged; so it tells apart any two dates it formats. *)
Theorem lwc_format_is_a_rearrangement (s t : string) :
  (LwcGrid.americanDateFormat (Some s) = Some t <->
   exists y1 y2 y3 y4 m1 m2 d1 d2 : ascii,
     Forall (fun c => is_Some (digitOf c)) [y1; y2; y3; y4; m1; m2; d1; d2] /\
     s = String y1 (String y2 (String y3 (String y4 (String "-"
           (String m1 (String m2 (String "-" (String d1 (String d2 ""))))))))) /\
     t = String m1 (String m2 (String "/" (String d1 (String d2 (String "/"
           (String y1 (String y2 (String y3 (String y4 "")))))))))) /\
  (forall s', LwcGrid.americanDateFormat (Some s) = Some t ->
              LwcGrid.americanDateFormat (Some s') = Some t -> s = s').
Proof.
  assert (forall s t, LwcGrid.americanDateFormat (Some s) = Some t ->
            exists y1 y2 y3 y4 m1 m2 d1 d2 : ascii,
              Forall (fun c => is_Some (digitOf c)) [y1; y2; y3; y4; m1; m2; d1; d2] /\
              s = String y1 (String y2 (String y3 (String y4 (String "-"
                    (String m1 (String m2 (String "-" (String d1 (String d2 ""))))))))) /\
              t = String m1 (String m2 (String "/" (String d1 (String d2 (String "/"
                    (String y1 (String y2 (String y3 (String y4 ""))))))))))
    as Hform.
  { clear. intros s t Ht.
    assert (exists groups, LwcGrid.matchIso s = Some groups) as [groups Hmatch].
    { unfold LwcGrid.americanDateFormat in Ht.
      destruct (present (Some s)); [|done].
      destruct (LwcGrid.matchIso s) as [groups|]; [by exists groups|done]. }
    destruct (LwcGrid_matchIso_form s groups Hmatch)
      as (y1 & y2 & y3 & y4 & m1 & m2 & d1 & d2 & -> & Hdigits).
    exists y1, y2, y3, y4, m1, m2, d1, d2. split; [done|]. split; [done|].
    rewrite (LwcGrid_format_iso y1 y2 y3 y4 m1 m2 d1 d2 Hdigits) in Ht.
    by injection Ht as <-. }
  split; [split|].
  - apply Hform.
  - intros (y1 & y2 & y3 & y4 & m1 & m2 & d1 & d2 & Hdigits & -> & ->).
    by apply LwcGrid_format_iso.
  - intros s' Hs Hs'.
    apply Hform in Hs as (y1 & y2 & y3 & y4 & m1 & m2 & d1 & d2 & _ & -> & ->).
    apply Hform in Hs' as (y1' & y2' & y3' & y4' & m1' & m2' & d1' & d2' & _ & -> & Heq).
    by injection Heq as -> -> -> -> -> -> -> ->.
Qed.

Lemma lwc_format_is_a_rearrangement_witness :
  LwcGrid.americanDateFormat (Some "2024-08-15") = Some "08/15/2024".
Proof.
  apply (proj1 (lwc_format_is_a_rearrangement "2024-08-15" "08/15/2024")).
  exists "2"%char, "0"%char, "2"%char, "4"%char, "0"%char, "8"%char, "1"%char, "5"%char.
  split; [|done].
  repeat (apply Forall_cons_2; [vm_compute; eauto|]). apply Forall_nil_2.
Defined.

End FormatterEdges.
